(** * libzbc, SCSI backend ([lib/zbc_scsi.c]): a shallow embedding

    The operations of [zbc_scsi.c] are embedded as functions in a small
    state monad over a [world] that holds the resources the C code
    acquires and releases (heap buffers, file descriptors, device
    structures) and the list of command descriptor blocks handed to the
    SG_IO transport.  C integers are [Z] with their wrap-around written
    out; buffers are lists of bytes indexed from 0. *)

From Stdlib Require Import ZArith Lia List.
From Stdlib.Strings Require Import Byte.
From stdpp Require Import base tactics option list gmap strings.

Local Open Scope Z_scope.

(** ** Machine integers *)

Module CInt.

(** Conversion to an unsigned integer of [w] bits. *)
Definition wrap (w : Z) (z : Z) : Z := z mod 2 ^ w.

Definition u8 : Z -> Z := wrap 8.
Definition u32 : Z -> Z := wrap 32.
Definition u64 : Z -> Z := wrap 64.

(** Conversion to [int] / [int32_t] (two's complement, as gcc does it). *)
Definition s32 (z : Z) : Z := (z + 2 ^ 31) mod 2 ^ 32 - 2 ^ 31.

Definition UINT64_MAX : Z := 2 ^ 64 - 1.
Definition INT32_MAX : Z := 2 ^ 31 - 1.

End CInt.
Import CInt.

(** ** Bytes and big-endian fields *)

Definition byte_to_Z (b : byte) : Z := Z.of_N (Byte.to_N b).

(** Storing an integer into a [uint8_t] keeps its low 8 bits. *)
Definition Z_to_byte (z : Z) : byte :=
  match Byte.of_N (Z.to_N (u8 z)) with
  | Some b => b
  | None => x00
  end.

(** [buf[i]]; a buffer reads as zero past what the device wrote. *)
Definition byte_at (buf : list byte) (i : nat) : Z :=
  byte_to_Z (default x00 (buf !! i)).

Fixpoint be_decode (bs : list Z) (acc : Z) : Z :=
  match bs with
  | [] => acc
  | b :: bs' => be_decode bs' (acc * 256 + b)
  end.

(** The bytes of [v], most significant first, on [n] bytes. *)
Fixpoint be_encode (n : nat) (v : Z) : list byte :=
  match n with
  | O => []
  | S n' => Z_to_byte (Z.shiftr v (8 * Z.of_nat n')) :: be_encode n' v
  end.

(** [memcpy]-like store of [bs] into [buf] from index [ofs] on. *)
Definition store_bytes (buf : list byte) (ofs : nat) (bs : list byte) : list byte :=
  list_inserts ofs bs buf.

(** Modelled from the spec: the accessor [zbc_sg_cmd_get_int32] of
    [zbc_sg.h], which is not part of the sources at hand.  Section 4.1 of
    the specification: all multi-byte numeric fields in CDBs and
    responses are big-endian.  The pointer argument is a buffer and an
    offset; the result is the unsigned 32-bit value. *)
Definition zbc_sg_cmd_get_int32 (buf : list byte) (ofs : nat) : Z :=
  be_decode (map (byte_at buf) (seq ofs 4)) 0.

(** Modelled from the spec: [zbc_sg_cmd_get_int64] of [zbc_sg.h], the
    unsigned 64-bit big-endian value at [ofs]. *)
Definition zbc_sg_cmd_get_int64 (buf : list byte) (ofs : nat) : Z :=
  be_decode (map (byte_at buf) (seq ofs 8)) 0.

(** Modelled from the spec: [zbc_sg_cmd_set_int32] of [zbc_sg.h], which
    stores a 32-bit value big-endian at [ofs]. *)
Definition zbc_sg_cmd_set_int32 (cdb : list byte) (ofs : nat) (v : Z) : list byte :=
  store_bytes cdb ofs (be_encode 4 (u32 v)).

(** Modelled from the spec: [zbc_sg_cmd_set_int64] of [zbc_sg.h], which
    stores a 64-bit value big-endian at [ofs]. *)
Definition zbc_sg_cmd_set_int64 (cdb : list byte) (ofs : nat) (v : Z) : list byte :=
  store_bytes cdb ofs (be_encode 8 (u64 v)).

(** ** The world: resources held by the process, and the transport's log *)

Record world := World {
  w_heap : gset nat;          (* heap buffers currently allocated *)
  w_next : nat;               (* next address the allocator hands out *)
  w_fds : gset Z;             (* open file descriptors *)
  w_devs : gset nat;          (* device structures currently allocated *)
  w_sent : list (list byte)   (* CDBs handed to SG_IO, oldest first *)
}.

Definition upd_heap (f : gset nat -> gset nat) (w : world) : world :=
  World (f (w_heap w)) (w_next w) (w_fds w) (w_devs w) (w_sent w).
Definition upd_next (f : nat -> nat) (w : world) : world :=
  World (w_heap w) (f (w_next w)) (w_fds w) (w_devs w) (w_sent w).
Definition upd_fds (f : gset Z -> gset Z) (w : world) : world :=
  World (w_heap w) (w_next w) (f (w_fds w)) (w_devs w) (w_sent w).
Definition upd_devs (f : gset nat -> gset nat) (w : world) : world :=
  World (w_heap w) (w_next w) (w_fds w) (f (w_devs w)) (w_sent w).
Definition upd_sent (f : list (list byte) -> list (list byte)) (w : world) : world :=
  World (w_heap w) (w_next w) (w_fds w) (w_devs w) (f (w_sent w)).

(** An operation either returns a value in a new world, or runs into
    behaviour C leaves undefined: a division by zero, a read through a
    null pointer, a store past the end of the caller's array. *)
Inductive outcome (A : Type) : Type :=
| Ok (a : A) (w : world)
| Trap.
Arguments Ok {A} a w.
Arguments Trap {A}.

Definition M (A : Type) : Type := world -> outcome A.

#[global] Instance M_ret : MRet M := fun A a w => Ok a w.
#[global] Instance M_bind : MBind M := fun A B f m w =>
  match m w with
  | Ok a w' => f a w'
  | Trap => Trap
  end.

Definition trap {A : Type} : M A := fun _ => Trap.

(** The value an operation returns, if it returns. *)
Definition returned {A : Type} (o : outcome A) : option A :=
  match o with
  | Ok a _ => Some a
  | Trap => None
  end.

(** C division: undefined on a zero divisor. *)
Definition c_div (a b : Z) : M Z :=
  if decide (b = 0) then trap else mret (a / b).

(** ** Data model *)

Record buffer := Buffer { b_addr : nat; b_data : list byte }.

(** Reading through a pointer that may be [NULL]. *)
Definition deref (p : option buffer) : M (list byte) :=
  match p with
  | Some b => mret (b_data b)
  | None => trap
  end.

Definition malloc (sz : Z) : M buffer := fun w =>
  let a := w_next w in
  Ok (Buffer a (replicate (Z.to_nat sz) x00))
     (upd_next S (upd_heap (fun h => {[a]} ∪ h) w)).

Definition free (b : buffer) : M unit := fun w =>
  Ok tt (upd_heap (fun h => h ∖ {[b_addr b]}) w).

(** Modelled from the spec: the command codes of [zbc_sg.h], one per
    operation of Section 4. *)
Inductive zbc_sg_cmd_code :=
| ZBC_SG_INQUIRY
| ZBC_SG_READ_CAPACITY
| ZBC_SG_READ
| ZBC_SG_WRITE
| ZBC_SG_SYNC_CACHE
| ZBC_SG_REPORT_ZONES
| ZBC_SG_RESET_WRITE_POINTER
| ZBC_SG_SET_ZONES
| ZBC_SG_SET_WRITE_POINTER.

Inductive sg_dxfer := SG_DXFER_FROM_DEV | SG_DXFER_TO_DEV.

(** Modelled from the spec: the command of [zbc_sg.h] (Section 3): a CDB,
    an I/O buffer that the command owns or borrows, a transfer direction
    and, once completed, a residual byte count. *)
Record zbc_sg_cmd_t := SgCmd {
  cdb : list byte;
  out_buf : option buffer;
  out_bufsz : Z;
  out_buf_needfree : bool;
  io_hdr_dxfer_direction : sg_dxfer;
  io_hdr_resid : Z
}.

Definition set_cdb (c : list byte) (cmd : zbc_sg_cmd_t) : zbc_sg_cmd_t :=
  SgCmd c (out_buf cmd) (out_bufsz cmd) (out_buf_needfree cmd)
        (io_hdr_dxfer_direction cmd) (io_hdr_resid cmd).
Definition set_out_buf (b : option buffer) (cmd : zbc_sg_cmd_t) : zbc_sg_cmd_t :=
  SgCmd (cdb cmd) b (out_bufsz cmd) (out_buf_needfree cmd)
        (io_hdr_dxfer_direction cmd) (io_hdr_resid cmd).
Definition set_dxfer_direction (d : sg_dxfer) (cmd : zbc_sg_cmd_t) : zbc_sg_cmd_t :=
  SgCmd (cdb cmd) (out_buf cmd) (out_bufsz cmd) (out_buf_needfree cmd)
        d (io_hdr_resid cmd).
Definition set_resid (r : Z) (cmd : zbc_sg_cmd_t) : zbc_sg_cmd_t :=
  SgCmd (cdb cmd) (out_buf cmd) (out_bufsz cmd) (out_buf_needfree cmd)
        (io_hdr_dxfer_direction cmd) r.

(** [cmd.cdb[i] = v] *)
Definition cdb_set (i : nat) (v : Z) (cmd : zbc_sg_cmd_t) : zbc_sg_cmd_t :=
  set_cdb (<[i := Z_to_byte v]> (cdb cmd)) cmd.

(** Modelled from the spec: the enumerations of [zbc.h] as far as
    [zbc_scsi.c] assigns them; the first constructor stands for a field
    not set yet. *)
Inductive zbc_dev_type := ZBC_DT_UNKNOWN | ZBC_DT_SCSI.
Inductive zbc_dev_model := ZBC_DM_UNKNOWN | ZBC_DM_HOST_MANAGED.

(** Modelled from the spec: the geometry of [zbc.h], which is not part
    of the sources at hand.  Section 3 of the specification lists it:
    classification, logical block size and count, physical block size
    and count.  Sizes are taken as unsigned 32-bit and counts as
    unsigned 64-bit quantities, the widths of the fields they are
    decoded from. *)
Record zbc_device_info := DevInfo {
  zbd_type : zbc_dev_type;
  zbd_model : zbc_dev_model;
  zbd_logical_block_size : Z;
  zbd_logical_blocks : Z;
  zbd_physical_block_size : Z;
  zbd_physical_blocks : Z
}.

(** Modelled from the spec: the device of [zbc.h] (Section 3): transport
    handle, open flags and geometry.  [zbd_addr] is the address of the
    structure. *)
Record zbc_device_t := Device {
  zbd_addr : nat;
  zbd_filename : string;
  zbd_fd : Z;
  zbd_flags : Z;
  zbd_info : zbc_device_info
}.

Definition set_info (f : zbc_device_info -> zbc_device_info) (dev : zbc_device_t)
  : zbc_device_t :=
  Device (zbd_addr dev) (zbd_filename dev) (zbd_fd dev) (zbd_flags dev)
         (f (zbd_info dev)).
Definition set_fd (fd : Z) (dev : zbc_device_t) : zbc_device_t :=
  Device (zbd_addr dev) (zbd_filename dev) fd (zbd_flags dev) (zbd_info dev).
Definition set_flags (fl : Z) (dev : zbc_device_t) : zbc_device_t :=
  Device (zbd_addr dev) (zbd_filename dev) (zbd_fd dev) fl (zbd_info dev).

Definition set_type (t : zbc_dev_type) (i : zbc_device_info) : zbc_device_info :=
  DevInfo t (zbd_model i) (zbd_logical_block_size i) (zbd_logical_blocks i)
          (zbd_physical_block_size i) (zbd_physical_blocks i).
Definition set_model (m : zbc_dev_model) (i : zbc_device_info) : zbc_device_info :=
  DevInfo (zbd_type i) m (zbd_logical_block_size i) (zbd_logical_blocks i)
          (zbd_physical_block_size i) (zbd_physical_blocks i).
Definition set_logical_block_size (v : Z) (i : zbc_device_info) : zbc_device_info :=
  DevInfo (zbd_type i) (zbd_model i) v (zbd_logical_blocks i)
          (zbd_physical_block_size i) (zbd_physical_blocks i).
Definition set_logical_blocks (v : Z) (i : zbc_device_info) : zbc_device_info :=
  DevInfo (zbd_type i) (zbd_model i) (zbd_logical_block_size i) v
          (zbd_physical_block_size i) (zbd_physical_blocks i).
Definition set_physical_block_size (v : Z) (i : zbc_device_info) : zbc_device_info :=
  DevInfo (zbd_type i) (zbd_model i) (zbd_logical_block_size i)
          (zbd_logical_blocks i) v (zbd_physical_blocks i).
Definition set_physical_blocks (v : Z) (i : zbc_device_info) : zbc_device_info :=
  DevInfo (zbd_type i) (zbd_model i) (zbd_logical_block_size i)
          (zbd_logical_blocks i) (zbd_physical_block_size i) v.

(** Modelled from the spec: the zone of [zbc.h] (Section 3). *)
Record zbc_zone_t := Zone {
  zbz_type : Z;
  zbz_condition : Z;
  zbz_length : Z;
  zbz_start : Z;
  zbz_write_pointer : Z;
  zbz_need_reset : Z
}.

(** ** Constants *)

(** errno values and file-mode bits of Linux. *)
Definition ENXIO : Z := 6.
Definition ENOMEM : Z := 12.
Definition EINVAL : Z := 22.
Definition ENOSYS : Z := 38.
Definition O_DIRECT : Z := 0x4000.
Definition S_IFMT : Z := 0xF000.
Definition S_IFCHR : Z := 0x2000.
Definition S_ISCHR (mode : Z) : bool := bool_decide (Z.land mode S_IFMT = S_IFCHR).

(** Modelled from the spec: opcodes, service actions and layout sizes of
    [zbc_sg.h] and [zbc.h], which are not part of the sources at hand.
    Sections 4 and 6 of the specification: INQUIRY is 0x12, READ
    CAPACITY 16 is 0x9E/0x10, READ 16 is 0x88, WRITE 16 is 0x8A, REPORT
    ZONES is 0x9E/0x14, RESET WRITE POINTER is 0x94/0x14; a CDB has 16
    bytes; the zone-report header and each zone descriptor have 64. *)
Definition ZBC_SG_INQUIRY_CDB_OPCODE : Z := 0x12.
Definition ZBC_SG_READ_CAPACITY_CDB_OPCODE : Z := 0x9E.
Definition ZBC_SG_READ_CAPACITY_CDB_SA : Z := 0x10.
Definition ZBC_SG_READ_CDB_OPCODE : Z := 0x88.
Definition ZBC_SG_WRITE_CDB_OPCODE : Z := 0x8A.
Definition ZBC_SG_REPORT_ZONES_CDB_OPCODE : Z := 0x9E.
Definition ZBC_SG_REPORT_ZONES_CDB_SA : Z := 0x14.
Definition ZBC_SG_RESET_WRITE_POINTER_CDB_OPCODE : Z := 0x94.
Definition ZBC_SG_RESET_WRITE_POINTER_CDB_SA : Z := 0x14.
Definition ZBC_SG_CDB_LENGTH : nat := 16.
Definition ZBC_ZONE_DESCRIPTOR_OFFSET : Z := 64.
Definition ZBC_ZONE_DESCRIPTOR_LENGTH : Z := 64.

(** The constants of the headers whose values the specification leaves
    open: the two reply lengths and the two peripheral device types. *)
Record zbc_consts := Consts {
  ZBC_SG_INQUIRY_REPLY_LEN : Z;
  ZBC_SG_READ_CAPACITY_REPLY_LEN : Z;
  ZBC_DEV_TYPE_HOST_MANAGED : Z;
  ZBC_DEV_TYPE_HOST_AWARE : Z
}.

(** ** The environment: device, transport and operating system *)

Record sg_reply := SgReply {
  io_status : Z;          (* what [zbc_sg_cmd_exec] returns *)
  io_data : list byte;    (* payload of a device-to-host transfer *)
  io_resid : Z            (* residual byte count *)
}.

Record env := Env {
  sg_init_status : zbc_sg_cmd_code -> Z -> Z; (* 0, or why no context *)
  sg_io : list byte -> Z -> sg_reply;         (* answer to a CDB and length *)
  os_open : string -> Z -> Z * Z;             (* [open]: result, errno *)
  os_fstat : Z -> Z * Z * Z;                  (* [fstat]: result, errno, st_mode *)
  os_pagesize : Z;                            (* [sysconf(_SC_PAGESIZE)] *)
  dev_alloc_ok : bool                         (* does [zbc_dev_alloc] find memory *)
}.

(** ** The operations of [zbc_scsi.c] *)

Definition zero_cdb : list byte := replicate ZBC_SG_CDB_LENGTH x00.

(** [strncmp] of the C library, on byte strings that read as NUL past
    their end. *)
Fixpoint strncmp (s1 s2 : list byte) (n : nat) : Z :=
  match n with
  | O => 0
  | S n' =>
    let c1 := byte_at s1 0 in
    let c2 := byte_at s2 0 in
    if decide (c1 = c2)
    then (if decide (c1 = 0) then 0 else strncmp (tail s1) (tail s2) n')
    else c1 - c2
  end.

Definition str_ATA : list byte := [x41; x54; x41].

(** Line 160: [1 << cmd.out_buf[13] & 0x0f].  The shift binds tighter
    than the mask; its result is an [int].  The value is that of the C
    expression for shift counts up to 31, the shift into the sign bit
    being converted as gcc does it.  For a count of 32 or more C leaves
    the shift undefined; the function is 0 there, and
    [logical_per_physical_defined] below tells the two cases apart. *)
Definition logical_per_physical (b13 : Z) : Z :=
  Z.land (s32 (Z.shiftl 1 b13)) 0x0f.

(** [a << count] on an [int], as far as C defines it: a count that is
    negative or not less than the width of the type gives no value. *)
Definition shl_int (a count : Z) : option Z :=
  if decide (0 <= count < 32) then Some (s32 (Z.shiftl a count)) else None.

(** Line 160 with the shift as C defines it: [None] where the
    expression has no defined value. *)
Definition logical_per_physical_defined (b13 : Z) : option Z :=
  (fun v => Z.land v 0x0f) <$> shl_int 1 b13.

(** Lines 517-522: one zone descriptor, at offset [ofs] of the reply. *)
Definition decode_zone (buf : list byte) (ofs : nat) : zbc_zone_t :=
  Zone (Z.land (byte_at buf ofs) 0x0f)
       (Z.land (Z.shiftr (byte_at buf (ofs + 1)) 4) 0x0f)
       (zbc_sg_cmd_get_int64 buf (ofs + 8))
       (zbc_sg_cmd_get_int64 buf (ofs + 16))
       (zbc_sg_cmd_get_int64 buf (ofs + 24))
       (Z.land (byte_at buf (ofs + 1)) 0x01).

(** Lines 515-526: [n] more iterations of the descriptor loop, the next
    one storing [zones[i]] from the descriptor at [ofs]. *)
Fixpoint report_zones_loop (buf : list byte) (ofs : nat) (zones : list zbc_zone_t)
    (i n : nat) : M (list zbc_zone_t) :=
  match n with
  | O => mret zones
  | S n' =>
    if decide (i < length zones)%nat
    then report_zones_loop buf (ofs + 64) (<[i := decode_zone buf ofs]> zones) (S i) n'
    else trap
  end.

(** The CDB that lines 271-274 and 311-314 build for READ 16 and
    WRITE 16. *)
Definition rw_cdb (opcode : Z) (zone : zbc_zone_t) (lba_count lba_ofst : Z)
  : list byte :=
  zbc_sg_cmd_set_int32
    (zbc_sg_cmd_set_int64
       (<[1%nat := Z_to_byte 0x10]> (<[0%nat := Z_to_byte opcode]> zero_cdb))
       2 (zbz_start zone + lba_ofst))
    10 lba_count.

(** The CDB that lines 426-430 build for REPORT ZONES. *)
Definition report_zones_cdb (start_lba out_bufsz ro : Z) : list byte :=
  <[14%nat := Z_to_byte (Z.land ro 0x0f)]>
    (zbc_sg_cmd_set_int32
       (zbc_sg_cmd_set_int64
          (<[1%nat := Z_to_byte ZBC_SG_REPORT_ZONES_CDB_SA]>
             (<[0%nat := Z_to_byte ZBC_SG_REPORT_ZONES_CDB_OPCODE]> zero_cdb))
          2 start_lba)
       10 out_bufsz).

(** The CDB that lines 581-589 build for RESET WRITE POINTER. *)
Definition reset_write_pointer_cdb (start_lba : Z) : list byte :=
  let c := <[1%nat := Z_to_byte ZBC_SG_RESET_WRITE_POINTER_CDB_SA]>
             (<[0%nat := Z_to_byte ZBC_SG_RESET_WRITE_POINTER_CDB_OPCODE]> zero_cdb) in
  if decide (start_lba = UINT64_MAX) then <[14%nat := Z_to_byte 0x01]> c
  else zbc_sg_cmd_set_int64 c 2 start_lba.

(** Bytes 8-10 of an Identify reply spell "ATA". *)
Definition vendor_is_ATA (data : list byte) : Prop :=
  byte_at data 8 = 0x41 /\ byte_at data 9 = 0x54 /\ byte_at data 10 = 0x41.

(** The 5-bit peripheral device type of an Identify reply. *)
Definition peripheral_type (data : list byte) : Z := Z.land (byte_at data 0) 0x1f.

Section Operations.

Context (K : zbc_consts) (E : env).

(** Modelled from the spec: [zbc_sg_cmd_init] of [zbc_sg.c], which is not
    part of the sources at hand.  Section 6 of the specification:
    [create] allocates a CDB template and attaches an optional data
    buffer.  The template is all zero, as [zbc_scsi_flush] and
    [zbc_scsi_inquiry] rely on for the fields they do not set; without a
    caller buffer, one of the requested size is allocated and owned by
    the command.  Whether a context can be created comes from the
    environment. *)
Definition zbc_sg_cmd_init (code : zbc_sg_cmd_code) (buf : option buffer) (bufsz : Z)
  : M (Z * zbc_sg_cmd_t) :=
  let st := sg_init_status E code bufsz in
  if decide (st = 0) then
    match buf with
    | Some b => mret (0, SgCmd zero_cdb (Some b) bufsz false SG_DXFER_FROM_DEV 0)
    | None =>
      if decide (0 < bufsz) then
        b ← malloc bufsz;
        mret (0, SgCmd zero_cdb (Some b) bufsz true SG_DXFER_FROM_DEV 0)
      else mret (0, SgCmd zero_cdb None bufsz false SG_DXFER_FROM_DEV 0)
    end
  else mret (st, SgCmd zero_cdb None 0 false SG_DXFER_FROM_DEV 0).

(** Modelled from the spec: [zbc_sg_cmd_exec] of [zbc_sg.c], the
    [execute] of Section 6.  The CDB goes to the device; on success the
    reply payload of a device-to-host transfer is in the output buffer
    and the residual is set. *)
Definition zbc_sg_cmd_exec (dev : zbc_device_t) (cmd : zbc_sg_cmd_t)
  : M (Z * zbc_sg_cmd_t) := fun w =>
  let r := sg_io E (cdb cmd) (out_bufsz cmd) in
  let cmd' :=
    if decide (io_status r = 0) then
      set_resid (io_resid r)
        match io_hdr_dxfer_direction cmd, out_buf cmd with
        | SG_DXFER_FROM_DEV, Some b =>
            set_out_buf (Some (Buffer (b_addr b) (io_data r))) cmd
        | _, _ => cmd
        end
    else cmd in
  Ok (io_status r, cmd') (upd_sent (fun l => l ++ [cdb cmd]) w).

(** Modelled from the spec: [zbc_sg_cmd_destroy] of [zbc_sg.c], the
    [destroy] of Section 6, which releases the buffer the command owns. *)
Definition zbc_sg_cmd_destroy (cmd : zbc_sg_cmd_t) : M unit :=
  match out_buf cmd with
  | Some b => if out_buf_needfree cmd then free b else mret tt
  | None => mret tt
  end.

(** Modelled from the spec: [zbc_dev_alloc] of device lifecycle
    management, which is not part of the sources at hand.  Section 6 of
    the specification: [allocate(name, flags) -> Device]. *)
Definition zbc_dev_alloc (filename : string) (flags : Z) : M (option zbc_device_t) :=
  fun w =>
  if dev_alloc_ok E then
    let a := w_next w in
    Ok (Some (Device a filename 0 0 (DevInfo ZBC_DT_UNKNOWN ZBC_DM_UNKNOWN 0 0 0 0)))
       (upd_next S (upd_devs (fun d => {[a]} ∪ d) w))
  else Ok None w.

(** Modelled from the spec: [zbc_dev_free], the [release(Device)] of
    Section 6. *)
Definition zbc_dev_free (dev : zbc_device_t) : M unit := fun w =>
  Ok tt (upd_devs (fun d => d ∖ {[zbd_addr dev]}) w).

(** [open], [fstat], [close] of the operating system. *)
Definition sys_open (filename : string) (flags : Z) : M (Z * Z) := fun w =>
  let '(fd, errno) := os_open E filename flags in
  Ok (fd, errno) (if decide (0 <= fd) then upd_fds (fun s => {[fd]} ∪ s) w else w).

Definition sys_fstat (fd : Z) : M (Z * Z * Z) := mret (os_fstat E fd).

Definition sys_close (fd : Z) : M unit := fun w =>
  Ok tt (upd_fds (fun s => s ∖ {[fd]}) w).

(** Lines 35-88.  [pbuf] and [dev_type] are the values behind the two
    out-pointers; [dev_type = None] stands for a null pointer. *)
Definition zbc_scsi_inquiry (dev : zbc_device_t) (pbuf : option buffer)
    (dev_type : option Z) : M (Z * option buffer * option Z) :=
  '(ret, cmd) ← zbc_sg_cmd_init ZBC_SG_INQUIRY None (ZBC_SG_INQUIRY_REPLY_LEN K);
  if decide (ret ≠ 0) then mret (ret, pbuf, dev_type) else
  let cmd := cdb_set 0 ZBC_SG_INQUIRY_CDB_OPCODE cmd in
  let cmd := cdb_set 4 (ZBC_SG_INQUIRY_REPLY_LEN K) cmd in
  '(ret, cmd) ← zbc_sg_cmd_exec dev cmd;
  '(pbuf, dev_type, cmd) ←
    (if decide (ret = 0) then
       dev_type ← match dev_type with
                  | Some _ =>
                      data ← deref (out_buf cmd);
                      mret (Some (s32 (Z.land (byte_at data 0) 0x1f)))
                  | None => mret None
                  end;
       mret (out_buf cmd, dev_type, set_out_buf None cmd)
     else mret (pbuf, dev_type, cmd));
  zbc_sg_cmd_destroy cmd;;
  mret (ret, pbuf, dev_type).

(** Lines 140-184 of [zbc_scsi_get_info]: READ CAPACITY 16 and the
    geometry derived from its reply. *)
Definition zbc_scsi_get_info_capacity (dev : zbc_device_t) : M (Z * zbc_device_t) :=
  '(ret, cmd) ← zbc_sg_cmd_init ZBC_SG_READ_CAPACITY None
                  (ZBC_SG_READ_CAPACITY_REPLY_LEN K);
  if decide (ret ≠ 0) then mret (ret, dev) else
  let cmd := cdb_set 0 ZBC_SG_READ_CAPACITY_CDB_OPCODE cmd in
  let cmd := cdb_set 1 ZBC_SG_READ_CAPACITY_CDB_SA cmd in
  let cmd := set_cdb (zbc_sg_cmd_set_int32 (cdb cmd) 10
                        (ZBC_SG_READ_CAPACITY_REPLY_LEN K)) cmd in
  '(ret, cmd) ← zbc_sg_cmd_exec dev cmd;
  if decide (ret ≠ 0) then zbc_sg_cmd_destroy cmd;; mret (ret, dev) else
  data ← deref (out_buf cmd);
  let dev := set_info (set_logical_blocks (u64 (zbc_sg_cmd_get_int64 data 0 + 1))) dev in
  let dev := set_info (set_logical_block_size (u32 (zbc_sg_cmd_get_int32 data 8))) dev in
  let lpp := logical_per_physical (byte_at data 13) in
  if decide (zbd_logical_block_size (zbd_info dev) <= 0) then
    zbc_sg_cmd_destroy cmd;; mret (- EINVAL, dev)
  else if decide (zbd_logical_blocks (zbd_info dev) = 0) then
    zbc_sg_cmd_destroy cmd;; mret (- EINVAL, dev)
  else
    let dev := set_info (set_physical_block_size
                           (u32 (zbd_logical_block_size (zbd_info dev) * lpp))) dev in
    pb ← c_div (zbd_logical_blocks (zbd_info dev)) (u64 lpp);
    let dev := set_info (set_physical_blocks pb) dev in
    zbc_sg_cmd_destroy cmd;;
    mret (ret, dev).

(** Lines 93-186. *)
Definition zbc_scsi_get_info (dev : zbc_device_t) : M (Z * zbc_device_t) :=
  '(ret, buf, dev_type) ← zbc_scsi_inquiry dev None (Some (-1));
  if decide (ret ≠ 0) then mret (ret, dev) else
  data ← deref buf;
  if decide (strncmp (drop 8 data) str_ATA 3 = 0) then
    from_option free (mret tt) buf;;
    mret (- ENOSYS, dev)
  else
    from_option free (mret tt) buf;;
    let dev := set_info (set_type ZBC_DT_SCSI) dev in
    if decide (dev_type = Some (ZBC_DEV_TYPE_HOST_MANAGED K)) then
      let dev := set_info (set_model ZBC_DM_HOST_MANAGED) dev in
      zbc_scsi_get_info_capacity dev
    else if decide (dev_type = Some (ZBC_DEV_TYPE_HOST_AWARE K)) then
      mret (- ENOSYS, dev)
    else
      mret (- ENXIO, dev).

(** Lines 188-246.  [pdev] is the value behind the out-pointer. *)
Definition zbc_scsi_open (filename : string) (flags : Z) (pdev : option zbc_device_t)
  : M (Z * option zbc_device_t) :=
  let flags := Z.lor flags O_DIRECT in
  '(fd, errno) ← sys_open filename flags;
  if decide (fd < 0) then mret (- errno, pdev) else
  '(r, errno, st_mode) ← sys_fstat fd;
  if decide (r ≠ 0) then sys_close fd;; mret (- errno, pdev) else
  if negb (S_ISCHR st_mode) then sys_close fd;; mret (- ENXIO, pdev) else
  odev ← zbc_dev_alloc filename flags;
  match odev with
  | None => sys_close fd;; mret (- ENOMEM, pdev)
  | Some dev =>
    let dev := set_fd fd dev in
    let dev := set_flags flags dev in
    '(ret, dev) ← zbc_scsi_get_info dev;
    if decide (ret ≠ 0) then
      zbc_dev_free dev;; sys_close fd;; mret (ret, pdev)
    else mret (0, Some dev)
  end.

(** Lines 252-286.  The caller's buffer comes back with what was read. *)
Definition zbc_scsi_pread (dev : zbc_device_t) (zone : zbc_zone_t)
    (buf : option buffer) (lba_count lba_ofst : Z) : M (Z * option buffer) :=
  let lbs := zbd_logical_block_size (zbd_info dev) in
  let sz := u64 (lba_count * lbs) in
  '(ret, cmd) ← zbc_sg_cmd_init ZBC_SG_READ buf sz;
  if decide (ret ≠ 0) then mret (ret, buf) else
  let cmd := cdb_set 0 ZBC_SG_READ_CDB_OPCODE cmd in
  let cmd := cdb_set 1 0x10 cmd in
  let cmd := set_cdb (zbc_sg_cmd_set_int64 (cdb cmd) 2 (zbz_start zone + lba_ofst)) cmd in
  let cmd := set_cdb (zbc_sg_cmd_set_int32 (cdb cmd) 10 lba_count) cmd in
  '(ret, cmd) ← zbc_sg_cmd_exec dev cmd;
  ret ← (if decide (ret = 0) then
           q ← c_div (u64 (sz - io_hdr_resid cmd)) lbs;
           mret (s32 q)
         else mret ret);
  zbc_sg_cmd_destroy cmd;;
  mret (ret, match buf with Some _ => out_buf cmd | None => None end).

(** Lines 291-326. *)
Definition zbc_scsi_pwrite (dev : zbc_device_t) (zone : zbc_zone_t)
    (buf : option buffer) (lba_count lba_ofst : Z) : M Z :=
  let lbs := zbd_logical_block_size (zbd_info dev) in
  let sz := u64 (lba_count * lbs) in
  '(ret, cmd) ← zbc_sg_cmd_init ZBC_SG_WRITE buf sz;
  if decide (ret ≠ 0) then mret ret else
  let cmd := set_dxfer_direction SG_DXFER_TO_DEV cmd in
  let cmd := cdb_set 0 ZBC_SG_WRITE_CDB_OPCODE cmd in
  let cmd := cdb_set 1 0x10 cmd in
  let cmd := set_cdb (zbc_sg_cmd_set_int64 (cdb cmd) 2 (zbz_start zone + lba_ofst)) cmd in
  let cmd := set_cdb (zbc_sg_cmd_set_int32 (cdb cmd) 10 lba_count) cmd in
  '(ret, cmd) ← zbc_sg_cmd_exec dev cmd;
  ret ← (if decide (ret = 0) then
           q ← c_div (u64 (sz - io_hdr_resid cmd)) lbs;
           mret (s32 q)
         else mret ret);
  zbc_sg_cmd_destroy cmd;;
  mret ret.

(** Lines 383-394: the size of the reply buffer and the caller's count
    after the clamp to one page. *)
Definition report_zones_bufsz (nr_zones : Z) : Z * Z :=
  let out_bufsz := ZBC_ZONE_DESCRIPTOR_OFFSET in
  if decide (nr_zones ≠ 0) then
    let out_bufsz := u64 (out_bufsz + u32 (nr_zones * ZBC_ZONE_DESCRIPTOR_LENGTH)) in
    if decide (u64 (os_pagesize E) < out_bufsz) then
      let out_bufsz := u64 (os_pagesize E) in
      (out_bufsz,
       u32 (u64 (out_bufsz - ZBC_ZONE_DESCRIPTOR_OFFSET) / ZBC_ZONE_DESCRIPTOR_LENGTH))
    else (out_bufsz, nr_zones)
  else (out_bufsz, nr_zones).

(** Lines 371-540.  [zones = None] stands for a null array; [nr_zones] is
    the value behind the in/out pointer.  The result carries the return
    value, the caller's array and the count as the call leaves them. *)
Definition zbc_scsi_report_zones (dev : zbc_device_t) (start_lba : Z) (ro : Z)
    (zones : option (list zbc_zone_t)) (nr_zones : Z)
  : M (Z * option (list zbc_zone_t) * Z) :=
  let '(out_bufsz, nr_zones) := report_zones_bufsz nr_zones in
  '(ret, cmd) ← zbc_sg_cmd_init ZBC_SG_REPORT_ZONES None out_bufsz;
  if decide (ret ≠ 0) then mret (ret, zones, nr_zones) else
  let cmd := cdb_set 0 ZBC_SG_REPORT_ZONES_CDB_OPCODE cmd in
  let cmd := cdb_set 1 ZBC_SG_REPORT_ZONES_CDB_SA cmd in
  let cmd := set_cdb (zbc_sg_cmd_set_int64 (cdb cmd) 2 start_lba) cmd in
  let cmd := set_cdb (zbc_sg_cmd_set_int32 (cdb cmd) 10 out_bufsz) cmd in
  let cmd := cdb_set 14 (Z.land ro 0x0f) cmd in
  '(ret, cmd) ← zbc_sg_cmd_exec dev cmd;
  if decide (ret ≠ 0) then zbc_sg_cmd_destroy cmd;; mret (ret, zones, nr_zones) else
  buf ← deref (out_buf cmd);
  let nz := s32 (zbc_sg_cmd_get_int32 buf 0 / ZBC_ZONE_DESCRIPTOR_LENGTH) in
  let reported_zones :=
    s32 (u64 (out_bufsz - ZBC_ZONE_DESCRIPTOR_OFFSET) / ZBC_ZONE_DESCRIPTOR_LENGTH) in
  '(zones, nz) ←
    match zones with
    | Some za =>
      if decide (reported_zones ≠ 0) then
        let nz := if decide (nr_zones < u32 nz) then s32 nr_zones else nz in
        let nz := if decide (reported_zones < nz) then reported_zones else nz in
        za ← report_zones_loop buf (Z.to_nat ZBC_ZONE_DESCRIPTOR_OFFSET) za 0
               (Z.to_nat nz);
        mret (Some za, nz)
      else mret (zones, nz)
    | None => mret (zones, nz)
    end;
  let nr_zones := u32 nz in
  zbc_sg_cmd_destroy cmd;;
  mret (ret, zones, nr_zones).

(** Lines 545-599. *)
Definition zbc_scsi_reset_write_pointer (dev : zbc_device_t) (start_lba : Z) : M Z :=
  '(ret, cmd) ← zbc_sg_cmd_init ZBC_SG_RESET_WRITE_POINTER None 0;
  if decide (ret ≠ 0) then mret ret else
  let cmd := cdb_set 0 ZBC_SG_RESET_WRITE_POINTER_CDB_OPCODE cmd in
  let cmd := cdb_set 1 ZBC_SG_RESET_WRITE_POINTER_CDB_SA cmd in
  let cmd :=
    if decide (start_lba = UINT64_MAX) then cdb_set 14 0x01 cmd
    else set_cdb (zbc_sg_cmd_set_int64 (cdb cmd) 2 start_lba) cmd in
  '(ret, cmd) ← zbc_sg_cmd_exec dev cmd;
  zbc_sg_cmd_destroy cmd;;
  mret ret.


(** *** What bring-up sends and what the device answers *)

Definition inquiry_cdb : list byte :=
  <[4%nat := Z_to_byte (ZBC_SG_INQUIRY_REPLY_LEN K)]>
    (<[0%nat := Z_to_byte ZBC_SG_INQUIRY_CDB_OPCODE]> zero_cdb).

Definition inquiry_answer : sg_reply :=
  sg_io E inquiry_cdb (ZBC_SG_INQUIRY_REPLY_LEN K).

(** The Identify exchange goes through: a context and a reply buffer are
    obtained and the device accepts the command. *)
Definition inquiry_succeeds : Prop :=
  0 < ZBC_SG_INQUIRY_REPLY_LEN K /\
  sg_init_status E ZBC_SG_INQUIRY (ZBC_SG_INQUIRY_REPLY_LEN K) = 0 /\
  io_status inquiry_answer = 0.

Definition capacity_cdb : list byte :=
  zbc_sg_cmd_set_int32
    (<[1%nat := Z_to_byte ZBC_SG_READ_CAPACITY_CDB_SA]>
       (<[0%nat := Z_to_byte ZBC_SG_READ_CAPACITY_CDB_OPCODE]> zero_cdb))
    10 (ZBC_SG_READ_CAPACITY_REPLY_LEN K).

Definition capacity_answer : sg_reply :=
  sg_io E capacity_cdb (ZBC_SG_READ_CAPACITY_REPLY_LEN K).

Definition capacity_succeeds : Prop :=
  0 < ZBC_SG_READ_CAPACITY_REPLY_LEN K /\
  sg_init_status E ZBC_SG_READ_CAPACITY (ZBC_SG_READ_CAPACITY_REPLY_LEN K) = 0 /\
  io_status capacity_answer = 0.

(** The capacity step is reached: Identify went through, the reply is not
    from an ATA device, and it carries the host-managed device type. *)
Definition reaches_capacity : Prop :=
  inquiry_succeeds /\
  ¬ vendor_is_ATA (io_data inquiry_answer) /\
  peripheral_type (io_data inquiry_answer) = ZBC_DEV_TYPE_HOST_MANAGED K.

End Operations.

(** A transient buffer was allocated at the next free address and
    released again; [sent] lists the CDBs issued meanwhile. *)
Definition after_exchange (sent : list (list byte)) (w : world) : world :=
  World (({[w_next w]} ∪ w_heap w) ∖ {[w_next w]}) (S (w_next w))
        (w_fds w) (w_devs w) (w_sent w ++ sent).

(** A computation that, when it returns, leaves the open descriptors and
    the allocated device structures as they were, and returns a value
    satisfying [P]. *)
Definition keeps_handles {A : Type} (P : A -> Prop) (m : M A) : Prop :=
  forall w a w', m w = Ok a w' ->
    w_fds w' = w_fds w /\ w_devs w' = w_devs w /\ P a.

Definition any {A : Type} : A -> Prop := fun _ => True.

(** Bring-up works on the device structure it was given. *)
Definition same_device (dev : zbc_device_t) (r : Z * zbc_device_t) : Prop :=
  zbd_addr r.2 = zbd_addr dev.

(** ** Cache flush and the configuration of emulated devices *)

(** Modelled from the spec: opcodes and service actions of [zbc_sg.h],
    which is not part of the sources at hand.  Sections 4.4 and 4.5 of
    the specification: SYNCHRONIZE CACHE 16 is 0x91, set zones is
    0x94/0x15 and set write pointer is 0x94/0x16. *)
Definition ZBC_SG_SYNC_CACHE_CDB_OPCODE : Z := 0x91.
Definition ZBC_SG_SET_ZONES_CDB_OPCODE : Z := 0x94.
Definition ZBC_SG_SET_ZONES_CDB_SA : Z := 0x15.
Definition ZBC_SG_SET_WRITE_POINTER_CDB_OPCODE : Z := 0x94.
Definition ZBC_SG_SET_WRITE_POINTER_CDB_SA : Z := 0x16.

(** Modelled from the spec: [zbc_sg_cmd_set_bytes] of [zbc_sg.h], which
    packs the low [bytes] bytes of a 64-bit value big-endian at [ofs]
    (Section 4.5: 7-byte big-endian quantities at fixed CDB offsets). *)
Definition zbc_sg_cmd_set_bytes (cdb : list byte) (ofs : nat) (v : Z) (bytes : nat)
  : list byte :=
  store_bytes cdb ofs (be_encode bytes (u64 v)).

(** The unsigned big-endian value of the [n] bytes at [ofs]. *)
Definition be_field (buf : list byte) (ofs n : nat) : Z :=
  be_decode (map (byte_at buf) (seq ofs n)) 0.

Section AdminOperations.

Context (E : env).

(** Lines 331-366. *)
Definition zbc_scsi_flush (dev : zbc_device_t) (lba_ofst lba_count immediate : Z)
  : M Z :=
  '(ret, cmd) ← zbc_sg_cmd_init E ZBC_SG_SYNC_CACHE None 0;
  if decide (ret ≠ 0) then mret ret else
  let cmd := cdb_set 0 ZBC_SG_SYNC_CACHE_CDB_OPCODE cmd in
  let cmd := if decide (lba_ofst ≠ 0)
             then set_cdb (zbc_sg_cmd_set_int64 (cdb cmd) 2 lba_ofst) cmd
             else cmd in
  let cmd := if decide (lba_count ≠ 0)
             then set_cdb (zbc_sg_cmd_set_int32 (cdb cmd) 10 lba_count) cmd
             else cmd in
  let cmd := if decide (immediate ≠ 0) then cdb_set 1 0x02 cmd else cmd in
  '(ret, cmd) ← zbc_sg_cmd_exec E dev cmd;
  zbc_sg_cmd_destroy cmd;;
  mret ret.

(** Lines 604-650. *)
Definition zbc_scsi_set_zones (dev : zbc_device_t) (conv_sz seq_sz : Z) : M Z :=
  '(ret, cmd) ← zbc_sg_cmd_init E ZBC_SG_SET_ZONES None 0;
  if decide (ret ≠ 0) then mret ret else
  let cmd := cdb_set 0 ZBC_SG_SET_ZONES_CDB_OPCODE cmd in
  let cmd := cdb_set 1 ZBC_SG_SET_ZONES_CDB_SA cmd in
  let cmd := set_cdb (zbc_sg_cmd_set_bytes (cdb cmd) 2 conv_sz 7) cmd in
  let cmd := set_cdb (zbc_sg_cmd_set_bytes (cdb cmd) 9 seq_sz 7) cmd in
  '(ret, cmd) ← zbc_sg_cmd_exec E dev cmd;
  zbc_sg_cmd_destroy cmd;;
  mret ret.

(** Lines 655-701. *)
Definition zbc_scsi_set_write_pointer (dev : zbc_device_t)
    (start_lba write_pointer : Z) : M Z :=
  '(ret, cmd) ← zbc_sg_cmd_init E ZBC_SG_SET_WRITE_POINTER None 0;
  if decide (ret ≠ 0) then mret ret else
  let cmd := cdb_set 0 ZBC_SG_SET_WRITE_POINTER_CDB_OPCODE cmd in
  let cmd := cdb_set 1 ZBC_SG_SET_WRITE_POINTER_CDB_SA cmd in
  let cmd := set_cdb (zbc_sg_cmd_set_bytes (cdb cmd) 2 start_lba 7) cmd in
  let cmd := set_cdb (zbc_sg_cmd_set_bytes (cdb cmd) 9 write_pointer 7) cmd in
  '(ret, cmd) ← zbc_sg_cmd_exec E dev cmd;
  zbc_sg_cmd_destroy cmd;;
  mret ret.

End AdminOperations.

(** The CDB that lines 348-357 build for SYNCHRONIZE CACHE 16. *)
Definition flush_cdb (lba_ofst lba_count immediate : Z) : list byte :=
  let c := <[0%nat := Z_to_byte ZBC_SG_SYNC_CACHE_CDB_OPCODE]> zero_cdb in
  let c := if decide (lba_ofst ≠ 0) then zbc_sg_cmd_set_int64 c 2 lba_ofst else c in
  let c := if decide (lba_count ≠ 0) then zbc_sg_cmd_set_int32 c 10 lba_count else c in
  if decide (immediate ≠ 0) then <[1%nat := Z_to_byte 0x02]> c else c.

(** The CDB that lines 637-640 and 688-691 build: two 7-byte fields
    after the opcode and the service action. *)
Definition two_field_cdb (opcode sa first second : Z) : list byte :=
  zbc_sg_cmd_set_bytes
    (zbc_sg_cmd_set_bytes
       (<[1%nat := Z_to_byte sa]> (<[0%nat := Z_to_byte opcode]> zero_cdb))
       2 first 7)
    9 second 7.

(** ** Resources and commands of a computation *)

Definition buf_addrs (p : option buffer) : gset nat :=
  from_option (fun b => {[b_addr b]}) ∅ p.

(** The buffer a command has to release. *)
Definition owned (cmd : zbc_sg_cmd_t) : gset nat :=
  if out_buf_needfree cmd then buf_addrs (out_buf cmd) else ∅.

(** [tracks X m Q]: whenever [m] returns [a], it has handed the CDBs [l]
    to the transport, in this order, and the buffers it leaves allocated
    beyond those of its caller are among [Y], where [X] are such buffers
    on entry and [Q a Y l] holds. *)
Definition tracks {A : Type} (X : gset nat) (m : M A)
    (Q : A -> gset nat -> list (list byte) -> Prop) : Prop :=
  forall w a w', m w = Ok a w' ->
    exists Y l,
      (forall H : gset nat, w_heap w ⊆ H ∪ X -> w_heap w' ⊆ H ∪ Y) /\
      w_sent w' = w_sent w ++ l /\
      Q a Y l.

(** The geometry bring-up leaves in a device it accepts. *)
Definition valid_geometry (i : zbc_device_info) : Prop :=
  zbd_type i = ZBC_DT_SCSI /\
  zbd_model i = ZBC_DM_HOST_MANAGED /\
  0 < zbd_logical_block_size i < 2 ^ 32 /\
  0 < zbd_logical_blocks i < 2 ^ 64 /\
  exists lpp, (lpp = 1 \/ lpp = 2 \/ lpp = 4 \/ lpp = 8) /\
    zbd_physical_block_size i = u32 (zbd_logical_block_size i * lpp) /\
    zbd_physical_blocks i = zbd_logical_blocks i / lpp.

(** ** Sample drives

    Concrete environments on which the operations run by computation. *)

Module Sample.

Definition consts : zbc_consts := Consts 96 32 0x14 0x00.

Definition w0 : world := World ∅ 0 ∅ ∅ [].

Definition dev0 : zbc_device_t :=
  Device 0 "/dev/sg0" 3 0 (DevInfo ZBC_DT_UNKNOWN ZBC_DM_UNKNOWN 0 0 0 0).

(** An Identify reply with byte 0 [b0] and the given vendor field. *)
Definition inquiry_data (b0 : byte) (vendor : list byte) : list byte :=
  b0 :: replicate 7 x00 ++ vendor ++ replicate 85 x00.

(** A READ CAPACITY 16 reply. *)
Definition capacity_data (last lbs : Z) (b13 : byte) : list byte :=
  be_encode 8 last ++ be_encode 4 lbs ++ [x00; b13] ++ replicate 18 x00.

(** A zone-report header announcing [nz] zones; the descriptors read as
    zero. *)
Definition report_data (nz : Z) : list byte :=
  be_encode 4 (nz * ZBC_ZONE_DESCRIPTOR_LENGTH) ++ replicate 60 x00.

(** A drive that accepts every command, behind a character device. *)
Definition drive (inq cap rep : list byte) (resid : Z) : env :=
  Env (fun _ _ => 0)
      (fun cdb _ =>
         if decide (byte_at cdb 0 = ZBC_SG_INQUIRY_CDB_OPCODE) then SgReply 0 inq 0
         else if decide (byte_at cdb 0 = ZBC_SG_READ_CAPACITY_CDB_OPCODE
                         /\ byte_at cdb 1 = ZBC_SG_READ_CAPACITY_CDB_SA)
         then SgReply 0 cap 0
         else if decide (byte_at cdb 0 = ZBC_SG_REPORT_ZONES_CDB_OPCODE)
         then SgReply 0 rep 0
         else SgReply 0 [] resid)
      (fun _ _ => (3, 0))
      (fun _ => (0, 0, 0x2180))
      4096
      true.

Definition vendor_HGST : list byte := [x48; x47; x53].

(** A host-managed drive of 1024 blocks of 512 bytes. *)
Definition dev512 : zbc_device_t :=
  Device 0 "/dev/sg0" 3 0 (DevInfo ZBC_DT_SCSI ZBC_DM_HOST_MANAGED 512 1024 512 1024).

(** A device with blocks of one byte. *)
Definition dev1 : zbc_device_t :=
  Device 0 "/dev/sg0" 3 0
         (DevInfo ZBC_DT_SCSI ZBC_DM_HOST_MANAGED 1 (2 ^ 32) 1 (2 ^ 32)).

Definition zone0 : zbc_zone_t := Zone 2 1 256 0 0 0.

Definition buf0 : buffer := Buffer 7 [].

Definition zones4 : list zbc_zone_t := replicate 4 zone0.

Definition host_managed (b13 : byte) : env :=
  drive (inquiry_data x14 vendor_HGST) (capacity_data 0x3FF 512 b13)
        (report_data 5) 0.

End Sample.

(** Bring-up changes the geometry of a device and nothing else. *)
Definition same_identity (dev dev' : zbc_device_t) : Prop :=
  zbd_addr dev' = zbd_addr dev /\ zbd_filename dev' = zbd_filename dev /\
  zbd_fd dev' = zbd_fd dev /\ zbd_flags dev' = zbd_flags dev.


(** What the commands without data have in common: the operation [m]
    always returns, it leaves the heap, the descriptors and the device
    structures as they were, and it returns the status of the context
    creation, with nothing sent, or that of the device after the one CDB
    [c]. *)
Definition plain_command (E : env) (code : zbc_sg_cmd_code) (c : list byte)
    (m : M Z) : Prop :=
  forall w,
    let init := sg_init_status E code 0 in
    exists ret w',
      m w = Ok ret w' /\
      w_heap w' = w_heap w /\ w_next w' = w_next w /\
      w_fds w' = w_fds w /\ w_devs w' = w_devs w /\
      (init ≠ 0 -> ret = init /\ w_sent w' = w_sent w) /\
      (init = 0 -> ret = io_status (sg_io E c 0) /\ w_sent w' = w_sent w ++ [c]).

(** ** Faulty environments

    A transport that cannot create a context, a device that refuses
    every command, and a regular file in place of the device node. *)

Module Faulty.

Definition no_context : env :=
  Env (fun _ _ => - ENOMEM) (fun _ _ => SgReply 0 [] 0)
      (fun _ _ => (3, 0)) (fun _ => (0, 0, 0x2180)) 4096 true.

Definition refusing : env :=
  Env (fun _ _ => 0) (fun _ _ => SgReply (-5) [] 0)
      (fun _ _ => (3, 0)) (fun _ => (0, 0, 0x2180)) 4096 true.

Definition regular_file : env :=
  Env (fun _ _ => 0) (fun _ _ => SgReply 0 [] 0)
      (fun _ _ => (3, 0)) (fun _ => (0, 0, 0x8180)) 4096 true.

End Faulty.

(** * Properties *)

(** ** Integer conversions and byte fields *)

Lemma u32_range z : 0 <= u32 z < 2 ^ 32.
Proof. unfold u32, wrap. apply Z.mod_pos_bound. lia. Qed.

Lemma u64_range z : 0 <= u64 z < 2 ^ 64.
Proof. unfold u64, wrap. apply Z.mod_pos_bound. lia. Qed.

Lemma u32_id z : 0 <= z < 2 ^ 32 -> u32 z = z.
Proof. intros H. unfold u32, wrap. apply Z.mod_small. lia. Qed.

Lemma u64_id z : 0 <= z < 2 ^ 64 -> u64 z = z.
Proof. intros H. unfold u64, wrap. apply Z.mod_small. lia. Qed.

Lemma s32_id z : - 2 ^ 31 <= z < 2 ^ 31 -> s32 z = z.
Proof. intros H. unfold s32. rewrite Z.mod_small; lia. Qed.

Lemma byte_to_Z_range b : 0 <= byte_to_Z b < 256.
Proof.
  unfold byte_to_Z. pose proof (Byte.to_N_bounded b). lia.
Qed.

Lemma byte_to_Z_to_byte z : byte_to_Z (Z_to_byte z) = u8 z.
Proof.
  unfold Z_to_byte, byte_to_Z.
  assert (Hr : 0 <= u8 z < 256) by (unfold u8, wrap; apply Z.mod_pos_bound; lia).
  destruct (Byte.of_N (Z.to_N (u8 z))) as [b|] eqn:Hb.
  - apply Byte.to_of_N in Hb. rewrite Hb. lia.
  - apply Byte.of_N_None_iff in Hb. lia.
Qed.

Lemma byte_at_range buf i : 0 <= byte_at buf i < 256.
Proof. apply byte_to_Z_range. Qed.

Lemma be_decode_bounds bs acc :
  Forall (fun b => 0 <= b < 256) bs -> 0 <= acc ->
  acc * 256 ^ Z.of_nat (length bs) <= be_decode bs acc
    < (acc + 1) * 256 ^ Z.of_nat (length bs).
Proof.
  intros Hbs. revert acc.
  induction Hbs as [|b bs Hb _ IH]; intros acc Hacc.
  - simpl. lia.
  - cbn [be_decode length]. specialize (IH (acc * 256 + b) ltac:(lia)).
    rewrite Nat2Z.inj_succ, Z.pow_succ_r by lia.
    assert (0 < 256 ^ Z.of_nat (length bs)) by (apply Z.pow_pos_nonneg; lia).
    nia.
Qed.

Lemma zbc_sg_cmd_get_int32_range buf ofs :
  0 <= zbc_sg_cmd_get_int32 buf ofs < 2 ^ 32.
Proof.
  unfold zbc_sg_cmd_get_int32.
  pose proof (be_decode_bounds (map (byte_at buf) (seq ofs 4)) 0) as H.
  rewrite length_map, length_seq in H.
  change (256 ^ Z.of_nat 4) with (2 ^ 32) in H.
  apply H; [|lia]. apply Forall_forall. intros x Hx.
  apply list_elem_of_In, in_map_iff in Hx. destruct Hx as (i & <- & _).
  apply byte_at_range.
Qed.

Lemma zbc_sg_cmd_get_int64_range buf ofs :
  0 <= zbc_sg_cmd_get_int64 buf ofs < 2 ^ 64.
Proof.
  unfold zbc_sg_cmd_get_int64.
  pose proof (be_decode_bounds (map (byte_at buf) (seq ofs 8)) 0) as H.
  rewrite length_map, length_seq in H.
  change (256 ^ Z.of_nat 8) with (2 ^ 64) in H.
  apply H; [|lia]. apply Forall_forall. intros x Hx.
  apply list_elem_of_In, in_map_iff in Hx. destruct Hx as (i & <- & _).
  apply byte_at_range.
Qed.

(** ** Running the monad *)

Lemma bind_Ok {A B : Type} (m : M A) (f : A -> M B) (w w' : world) (a : A) :
  m w = Ok a w' -> (m ≫= f) w = f a w'.
Proof. intros H. unfold mbind, M_bind. by rewrite H. Qed.

Lemma bind_Trap {A B : Type} (m : M A) (f : A -> M B) (w : world) :
  m w = Trap -> (m ≫= f) w = Trap.
Proof. intros H. unfold mbind, M_bind. by rewrite H. Qed.

Lemma c_div_nonzero a b w : b ≠ 0 -> c_div a b w = Ok (a / b) w.
Proof. intros H. unfold c_div. by rewrite decide_False. Qed.

Lemma c_div_zero a w : c_div a 0 w = Trap.
Proof. reflexivity. Qed.

Ltac cmd_simpl :=
  cbn [cdb_set set_cdb set_out_buf set_resid set_dxfer_direction cdb out_buf
       out_bufsz out_buf_needfree io_hdr_dxfer_direction io_hdr_resid
       b_addr b_data].

Ltac step_with tac := erewrite bind_Ok by tac; cbv beta iota; cmd_simpl.

(** ** The transport *)

Section Transport.

Context (E : env).

Lemma cmd_init_fails code buf sz w :
  sg_init_status E code sz ≠ 0 ->
  exists cmd, zbc_sg_cmd_init E code buf sz w = Ok (sg_init_status E code sz, cmd) w.
Proof.
  intros H. unfold zbc_sg_cmd_init. rewrite decide_False by done. by eexists.
Qed.

Lemma cmd_init_alloc code sz w :
  sg_init_status E code sz = 0 -> 0 < sz ->
  zbc_sg_cmd_init E code None sz w =
    Ok (0, SgCmd zero_cdb (Some (Buffer (w_next w) (replicate (Z.to_nat sz) x00)))
                 sz true SG_DXFER_FROM_DEV 0)
       (upd_next S (upd_heap (fun h => {[w_next w]} ∪ h) w)).
Proof.
  intros H Hsz. unfold zbc_sg_cmd_init.
  rewrite H, decide_True by done. by rewrite decide_True.
Qed.

Lemma cmd_init_nobuf code sz w :
  sg_init_status E code sz = 0 -> sz <= 0 ->
  zbc_sg_cmd_init E code None sz w =
    Ok (0, SgCmd zero_cdb None sz false SG_DXFER_FROM_DEV 0) w.
Proof.
  intros H Hsz. unfold zbc_sg_cmd_init.
  rewrite H, decide_True by done. rewrite decide_False by lia. done.
Qed.

Lemma cmd_init_attach code b sz w :
  sg_init_status E code sz = 0 ->
  zbc_sg_cmd_init E code (Some b) sz w =
    Ok (0, SgCmd zero_cdb (Some b) sz false SG_DXFER_FROM_DEV 0) w.
Proof.
  intros H. unfold zbc_sg_cmd_init. by rewrite H, decide_True.
Qed.

Lemma cmd_exec_ok dev cmd w r :
  sg_io E (cdb cmd) (out_bufsz cmd) = r -> io_status r = 0 ->
  zbc_sg_cmd_exec E dev cmd w =
    Ok (0, set_resid (io_resid r)
             match io_hdr_dxfer_direction cmd, out_buf cmd with
             | SG_DXFER_FROM_DEV, Some b =>
                 set_out_buf (Some (Buffer (b_addr b) (io_data r))) cmd
             | _, _ => cmd
             end)
       (upd_sent (fun l => l ++ [cdb cmd]) w).
Proof.
  intros <- Hst. unfold zbc_sg_cmd_exec. rewrite Hst. by rewrite decide_True.
Qed.

Lemma cmd_exec_fails dev cmd w :
  io_status (sg_io E (cdb cmd) (out_bufsz cmd)) ≠ 0 ->
  zbc_sg_cmd_exec E dev cmd w =
    Ok (io_status (sg_io E (cdb cmd) (out_bufsz cmd)), cmd)
       (upd_sent (fun l => l ++ [cdb cmd]) w).
Proof.
  intros Hst. unfold zbc_sg_cmd_exec. by rewrite decide_False.
Qed.

End Transport.

(** ** Bring-up *)

Lemma strncmp_ATA data :
  strncmp (drop 8 data) str_ATA 3 = 0 <-> vendor_is_ATA data.
Proof.
  unfold vendor_is_ATA, str_ATA. cbn [strncmp tail].
  change (byte_at [x41; x54; x41] 0) with 0x41.
  change (byte_at [x54; x41] 0) with 0x54.
  change (byte_at [x41] 0) with 0x41.
  assert (H8 : byte_at (drop 8 data) 0 = byte_at data 8).
  { unfold byte_at. by rewrite lookup_drop. }
  assert (H9 : byte_at (tail (drop 8 data)) 0 = byte_at data 9).
  { unfold byte_at. by rewrite lookup_tail, lookup_drop. }
  assert (H10 : byte_at (tail (tail (drop 8 data))) 0 = byte_at data 10).
  { unfold byte_at. by rewrite !lookup_tail, lookup_drop. }
  rewrite H8, H9, H10.
  repeat case_decide; lia.
Qed.

Lemma peripheral_type_range data : 0 <= peripheral_type data < 32.
Proof.
  unfold peripheral_type. pose proof (byte_at_range data 0) as Hb.
  split.
  - apply Z.land_nonneg. lia.
  - change 31 with (Z.ones 5). rewrite Z.land_ones by lia.
    apply Z.mod_pos_bound. lia.
Qed.

Section BringUp.

Context (K : zbc_consts) (E : env).

Lemma inquiry_spec dev pbuf d w :
  inquiry_succeeds K E ->
  zbc_scsi_inquiry K E dev pbuf (Some d) w =
    Ok (0, Some (Buffer (w_next w) (io_data (inquiry_answer K E))),
        Some (peripheral_type (io_data (inquiry_answer K E))))
       (World ({[w_next w]} ∪ w_heap w) (S (w_next w)) (w_fds w) (w_devs w)
              (w_sent w ++ [inquiry_cdb K])).
Proof.
  intros (Hlen & Hinit & Hst). unfold zbc_scsi_inquiry.
  step_with ltac:(by apply cmd_init_alloc).
  rewrite decide_False by (intros H; by apply H).
  step_with ltac:(by apply (cmd_exec_ok E _ _ _ (inquiry_answer K E))).
  rewrite decide_True by done.
  unfold deref, zbc_sg_cmd_destroy, mbind, M_bind, mret, M_ret; cmd_simpl.
  rewrite (s32_id (Z.land _ _)) by (pose proof (peripheral_type_range (io_data (inquiry_answer K E))) as Hr; unfold peripheral_type in Hr; lia).
  reflexivity.
Qed.

Lemma get_info_ATA_eq dev w :
  inquiry_succeeds K E ->
  vendor_is_ATA (io_data (inquiry_answer K E)) ->
  zbc_scsi_get_info K E dev w =
    Ok (- ENOSYS, dev) (after_exchange [inquiry_cdb K] w).
Proof.
  intros Hinq Hata. unfold zbc_scsi_get_info.
  step_with ltac:(by apply inquiry_spec).
  rewrite decide_False by (intros H; by apply H).
  step_with ltac:(reflexivity).
  rewrite decide_True by (by apply strncmp_ATA).
  reflexivity.
Qed.

Lemma get_info_classify_eq dev w :
  inquiry_succeeds K E ->
  ¬ vendor_is_ATA (io_data (inquiry_answer K E)) ->
  zbc_scsi_get_info K E dev w =
    let t := peripheral_type (io_data (inquiry_answer K E)) in
    let dev1 := set_info (set_type ZBC_DT_SCSI) dev in
    let w1 := after_exchange [inquiry_cdb K] w in
    if decide (t = ZBC_DEV_TYPE_HOST_MANAGED K) then
      zbc_scsi_get_info_capacity K E (set_info (set_model ZBC_DM_HOST_MANAGED) dev1) w1
    else if decide (t = ZBC_DEV_TYPE_HOST_AWARE K) then Ok (- ENOSYS, dev1) w1
    else Ok (- ENXIO, dev1) w1.
Proof.
  intros Hinq Hata. unfold zbc_scsi_get_info.
  step_with ltac:(by apply inquiry_spec).
  rewrite decide_False by (intros H; by apply H).
  step_with ltac:(reflexivity).
  rewrite decide_False by (by rewrite strncmp_ATA).
  step_with ltac:(reflexivity).
  cbv zeta.
  destruct (decide (peripheral_type _ = ZBC_DEV_TYPE_HOST_MANAGED K)) as [->|Hm].
  { by rewrite decide_True. }
  rewrite decide_False by congruence.
  destruct (decide (peripheral_type _ = ZBC_DEV_TYPE_HOST_AWARE K)) as [->|Ha].
  { by rewrite decide_True. }
  by rewrite decide_False by congruence.
Qed.

Lemma logical_per_physical_range b : 0 <= logical_per_physical b < 16.
Proof.
  unfold logical_per_physical. split.
  - apply Z.land_nonneg. lia.
  - change 15 with (Z.ones 4). rewrite Z.land_ones by lia.
    apply Z.mod_pos_bound. lia.
Qed.

Lemma get_info_capacity_eq dev w :
  capacity_succeeds K E ->
  zbc_scsi_get_info_capacity K E dev w =
    let data := io_data (capacity_answer K E) in
    let blocks := u64 (zbc_sg_cmd_get_int64 data 0 + 1) in
    let lbs := u32 (zbc_sg_cmd_get_int32 data 8) in
    let lpp := logical_per_physical (byte_at data 13) in
    let dev1 := set_info (set_logical_block_size lbs)
                  (set_info (set_logical_blocks blocks) dev) in
    let w1 := after_exchange [capacity_cdb K] w in
    if decide (lbs <= 0 \/ blocks = 0) then Ok (- EINVAL, dev1) w1
    else if decide (lpp = 0) then Trap
    else Ok (0, set_info (set_physical_blocks (blocks / lpp))
                  (set_info (set_physical_block_size (u32 (lbs * lpp))) dev1))
            w1.
Proof.
  intros (Hlen & Hinit & Hst). unfold zbc_scsi_get_info_capacity.
  step_with ltac:(by apply cmd_init_alloc).
  rewrite decide_False by (intros H; by apply H).
  step_with ltac:(by apply (cmd_exec_ok E _ _ _ (capacity_answer K E))).
  rewrite decide_False by (intros H; by apply H).
  step_with ltac:(reflexivity).
  cbv zeta.
  set (data := io_data (capacity_answer K E)).
  cbn [zbd_info set_info set_logical_block_size set_logical_blocks
       zbd_logical_block_size zbd_logical_blocks].
  set (blocks := u64 (zbc_sg_cmd_get_int64 data 0 + 1)).
  set (lbs := u32 (zbc_sg_cmd_get_int32 data 8)).
  pose proof (logical_per_physical_range (byte_at data 13)) as Hlpp.
  rewrite (u64_id (logical_per_physical _)) by lia.
  destruct (decide (lbs <= 0)) as [Hl|Hl].
  { rewrite decide_True by tauto. reflexivity. }
  destruct (decide (blocks = 0)) as [Hb|Hb].
  { rewrite decide_True by tauto. reflexivity. }
  rewrite decide_False by tauto.
  destruct (decide (logical_per_physical (byte_at data 13) = 0)) as [Hz|Hz].
  { rewrite Hz. reflexivity. }
  step_with ltac:(by apply c_div_nonzero).
  reflexivity.
Qed.


(** C5.  An Identify reply whose bytes 8-10 spell "ATA" makes bring-up
    fail with [-ENOSYS], whatever byte 0 of the reply holds, and the
    reply buffer that [zbc_scsi_inquiry] handed over is released: it was
    allocated after the call to [zbc_scsi_inquiry] and is no longer so
    when [zbc_scsi_get_info] returns, which leaves no buffer allocated
    that was not allocated before. *)
Theorem get_info_rejects_ATA dev w :
  inquiry_succeeds K E ->
  vendor_is_ATA (io_data (inquiry_answer K E)) ->
  exists buf t w1 w',
    zbc_scsi_inquiry K E dev None (Some (-1)) w = Ok (0, Some buf, t) w1 /\
    b_data buf = io_data (inquiry_answer K E) /\
    b_addr buf ∈ w_heap w1 /\
    zbc_scsi_get_info K E dev w = Ok (- ENOSYS, dev) w' /\
    (b_addr buf ∉ w_heap w') /\
    (w_heap w' ⊆ w_heap w).
Proof.
  intros Hinq Hata.
  eexists _, _, _, _. split; [by apply inquiry_spec|].
  split; [reflexivity|].
  split; [cbn; apply elem_of_union_l; by apply elem_of_singleton|].
  split; [by apply get_info_ATA_eq|].
  cbn. split.
  - rewrite elem_of_difference, elem_of_singleton. tauto.
  - intros a. rewrite elem_of_difference, elem_of_union, elem_of_singleton. tauto.
Qed.

(** C6.  For an Identify reply that is not from an ATA device, what
    bring-up does next is decided by the 5-bit peripheral device type of
    byte 0 alone: the host-managed code goes on to the capacity step, the
    host-aware code fails with [-ENOSYS], any other code fails with
    [-ENXIO]. *)
Theorem get_info_classification dev w :
  inquiry_succeeds K E ->
  ¬ vendor_is_ATA (io_data (inquiry_answer K E)) ->
  ZBC_DEV_TYPE_HOST_MANAGED K ≠ ZBC_DEV_TYPE_HOST_AWARE K ->
  let t := peripheral_type (io_data (inquiry_answer K E)) in
  let dev1 := set_info (set_type ZBC_DT_SCSI) dev in
  let w1 := after_exchange [inquiry_cdb K] w in
  (t = ZBC_DEV_TYPE_HOST_MANAGED K ->
   zbc_scsi_get_info K E dev w =
     zbc_scsi_get_info_capacity K E
       (set_info (set_model ZBC_DM_HOST_MANAGED) dev1) w1) /\
  (t = ZBC_DEV_TYPE_HOST_AWARE K ->
   zbc_scsi_get_info K E dev w = Ok (- ENOSYS, dev1) w1) /\
  (t ≠ ZBC_DEV_TYPE_HOST_MANAGED K -> t ≠ ZBC_DEV_TYPE_HOST_AWARE K ->
   zbc_scsi_get_info K E dev w = Ok (- ENXIO, dev1) w1).
Proof.
  intros Hinq Hata Hne t dev1 w1.
  pose proof (get_info_classify_eq dev w Hinq Hata) as Heq.
  cbv zeta in Heq. fold t dev1 w1 in Heq.
  repeat split.
  - intros Ht. by rewrite Heq, decide_True.
  - intros Ht. rewrite Heq, decide_False by congruence. by rewrite decide_True.
  - intros Hm Ha. rewrite Heq, decide_False by done. by rewrite decide_False.
Qed.

Lemma get_info_reaches_capacity dev w :
  reaches_capacity K E ->
  zbc_scsi_get_info K E dev w =
    zbc_scsi_get_info_capacity K E
      (set_info (set_model ZBC_DM_HOST_MANAGED) (set_info (set_type ZBC_DT_SCSI) dev))
      (after_exchange [inquiry_cdb K] w).
Proof.
  intros (Hinq & Hata & Ht).
  rewrite get_info_classify_eq by done. cbv zeta. by rewrite decide_True.
Qed.

(** C4.  For a successful READ CAPACITY 16 reply, the logical block count
    stored in the device is the 8-byte big-endian field at offset 0 plus
    one, in 64-bit arithmetic, the logical block size stored is the
    4-byte big-endian field at offset 8, and bring-up returns [-EINVAL]
    exactly when that size is not positive or that count is zero. *)
Theorem get_info_capacity_decoding dev w :
  reaches_capacity K E ->
  capacity_succeeds K E ->
  let data := io_data (capacity_answer K E) in
  let last := zbc_sg_cmd_get_int64 data 0 in
  let size := zbc_sg_cmd_get_int32 data 8 in
  let r := zbc_scsi_get_info K E dev w in
  (forall ret dev' w', r = Ok (ret, dev') w' ->
     zbd_logical_blocks (zbd_info dev') = u64 (last + 1) /\
     zbd_logical_block_size (zbd_info dev') = size) /\
  (last ≠ UINT64_MAX -> u64 (last + 1) = last + 1) /\
  ((fst <$> returned r) = Some (- EINVAL) <-> size <= 0 \/ u64 (last + 1) = 0) /\
  (logical_per_physical (byte_at data 13) ≠ 0 -> is_Some (returned r)).
Proof.
  intros Hreach Hcap data last size r.
  assert (Hr : r = zbc_scsi_get_info K E dev w) by reflexivity.
  rewrite get_info_reaches_capacity, get_info_capacity_eq in Hr by done.
  cbv zeta in Hr. fold data last in Hr.
  pose proof (zbc_sg_cmd_get_int32_range data 8) as Hsz.
  pose proof (zbc_sg_cmd_get_int64_range data 0) as Hla.
  rewrite (u32_id (zbc_sg_cmd_get_int32 data 8)) in Hr by done. fold size in Hr, Hsz.
  fold last in Hla.
  destruct (decide (size <= 0 \/ u64 (last + 1) = 0)) as [Hbad|Hgood];
    [|destruct (decide (logical_per_physical (byte_at data 13) = 0)) as [Hz|Hnz]];
    rewrite Hr; (split; [|split; [|split]]).
  all: try (intros Hmax; apply u64_id; unfold UINT64_MAX in Hmax; lia).
  all: try (intros ret dev' w' Hok; by inversion Hok).
  - by cbn.
  - intros _. by cbn.
  - by cbn.
  - done.
  - cbn. split; [intros [=]|tauto].
  - intros _. by cbn.
Qed.


Lemma logical_per_physical_small b :
  0 <= b <= 3 -> logical_per_physical b = 2 ^ b.
Proof.
  intros Hb.
  assert (Hc : b = 0 \/ b = 1 \/ b = 2 \/ b = 3) by lia.
  destruct Hc as [-> | [-> | [-> | ->]]]; reflexivity.
Qed.

Lemma logical_per_physical_large b :
  4 <= b -> logical_per_physical b = 0.
Proof.
  intros Hb. unfold logical_per_physical.
  rewrite Z.shiftl_1_l.
  replace b with (4 + (b - 4)) by lia. rewrite Z.pow_add_r by lia.
  assert (Hp : 0 < 2 ^ (b - 4)) by (apply Z.pow_pos_nonneg; lia).
  set (p := 2 ^ (b - 4)) in *.
  change 15 with (Z.ones 4). rewrite Z.land_ones by lia.
  unfold s32. change (2 ^ 4) with 16. change (2 ^ 31) with 2147483648.
  change (2 ^ 32) with 4294967296.
  Z.div_mod_to_equations. lia.
Qed.

(** Where C defines the shift of line 160, the divisor is the value the
    operation uses. *)
Lemma logical_per_physical_defined_eq b :
  0 <= b <= 31 -> logical_per_physical_defined b = Some (logical_per_physical b).
Proof.
  intros Hb. unfold logical_per_physical_defined, shl_int.
  by rewrite decide_True by lia.
Qed.

Lemma logical_per_physical_undefined b :
  32 <= b -> logical_per_physical_defined b = None.
Proof.
  intros Hb. unfold logical_per_physical_defined, shl_int.
  by rewrite decide_False by lia.
Qed.

(** C10 (amended).  Once the capacity reply carries a valid logical
    geometry, the physical geometry is derived with a nonzero divisor
    when byte 13 of the reply is at most 3: the divisor is then 1, 2, 4
    or 8 and the division that yields the physical block count is
    carried out.  When byte 13 is from 4 to 31 the divisor is zero and
    the division is not defined.  When byte 13 is 32 or more the shift
    count is not less than the width of [int] and C gives the divisor no
    value at all. *)
Theorem physical_geometry_divisor dev w :
  reaches_capacity K E ->
  capacity_succeeds K E ->
  let data := io_data (capacity_answer K E) in
  let b13 := byte_at data 13 in
  let lpp := logical_per_physical b13 in
  let size := zbc_sg_cmd_get_int32 data 8 in
  let blocks := u64 (zbc_sg_cmd_get_int64 data 0 + 1) in
  0 < size -> blocks ≠ 0 ->
  (b13 <= 3 ->
   lpp = 2 ^ b13 /\ (lpp = 1 \/ lpp = 2 \/ lpp = 4 \/ lpp = 8) /\
   logical_per_physical_defined b13 = Some lpp /\
   exists dev' w',
     zbc_scsi_get_info K E dev w = Ok (0, dev') w' /\
     zbd_physical_blocks (zbd_info dev') = blocks / lpp /\
     zbd_physical_block_size (zbd_info dev') = u32 (size * lpp)) /\
  (4 <= b13 <= 31 ->
   logical_per_physical_defined b13 = Some 0 /\
   lpp = 0 /\ zbc_scsi_get_info K E dev w = Trap) /\
  (32 <= b13 -> logical_per_physical_defined b13 = None).
Proof.
  intros Hreach Hcap data b13 lpp size blocks Hsize Hblocks.
  pose proof (get_info_reaches_capacity dev w Hreach) as Hr.
  rewrite get_info_capacity_eq in Hr by done.
  cbv zeta in Hr. fold data b13 lpp blocks in Hr.
  pose proof (zbc_sg_cmd_get_int32_range data 8) as Hsz.
  rewrite (u32_id (zbc_sg_cmd_get_int32 data 8)) in Hr by done.
  fold size in Hr.
  rewrite decide_False in Hr by lia.
  pose proof (byte_at_range data 13) as Hb. fold b13 in Hb.
  split; [|split].
  - intros Hle. assert (Hpow : lpp = 2 ^ b13)
      by (apply logical_per_physical_small; lia).
    assert (Hc : b13 = 0 \/ b13 = 1 \/ b13 = 2 \/ b13 = 3) by lia.
    split; [done|]. split.
    { rewrite Hpow. destruct Hc as [-> | [-> | [-> | ->]]]; cbn; tauto. }
    split; [apply logical_per_physical_defined_eq; lia|].
    rewrite decide_False in Hr.
    + eexists _, _. split; [exact Hr|]. by cbn.
    + rewrite Hpow. destruct Hc as [-> | [-> | [-> | ->]]]; cbn; lia.
  - intros Hge. assert (Hz : lpp = 0) by (apply logical_per_physical_large; lia).
    split.
    { rewrite logical_per_physical_defined_eq by lia. fold lpp. by rewrite Hz. }
    split; [done|]. by rewrite Hr, decide_True.
  - intros Hge. by apply logical_per_physical_undefined.
Qed.

End BringUp.

Lemma sample_host_managed_ok b13 :
  reaches_capacity Sample.consts (Sample.host_managed b13) /\
  capacity_succeeds Sample.consts (Sample.host_managed b13).
Proof.
  split; [split; [|split]|].
  - vm_compute. repeat split; congruence.
  - vm_compute. intros [H _]. discriminate H.
  - reflexivity.
  - vm_compute. repeat split; congruence.
Defined.

Example sample_capacity :
  exists dev' w',
    zbc_scsi_get_info Sample.consts (Sample.host_managed x00) Sample.dev0 Sample.w0
      = Ok (0, dev') w' /\
    zbc_sg_cmd_get_int64
      (io_data (capacity_answer Sample.consts (Sample.host_managed x00))) 0 = 0x3FF /\
    zbd_logical_blocks (zbd_info dev') = 1024 /\
    zbd_logical_block_size (zbd_info dev') = 512.
Proof. eexists _, _. vm_compute. repeat split. Qed.

Lemma get_info_rejects_ATA_witness :
  let E := Sample.drive (Sample.inquiry_data x14 str_ATA) [] [] 0 in
  inquiry_succeeds Sample.consts E /\
  vendor_is_ATA (io_data (inquiry_answer Sample.consts E)) /\
  exists buf t w1 w',
    zbc_scsi_inquiry Sample.consts E Sample.dev0 None (Some (-1)) Sample.w0
      = Ok (0, Some buf, t) w1 /\
    b_data buf = io_data (inquiry_answer Sample.consts E) /\
    b_addr buf ∈ w_heap w1 /\
    zbc_scsi_get_info Sample.consts E Sample.dev0 Sample.w0
      = Ok (- ENOSYS, Sample.dev0) w' /\
    (b_addr buf ∉ w_heap w') /\
    (w_heap w' ⊆ w_heap Sample.w0).
Proof.
  intros E.
  assert (H1 : inquiry_succeeds Sample.consts E)
    by (vm_compute; repeat split; congruence).
  assert (H2 : vendor_is_ATA (io_data (inquiry_answer Sample.consts E)))
    by (vm_compute; repeat split).
  exact (conj H1 (conj H2
           (get_info_rejects_ATA Sample.consts E Sample.dev0 Sample.w0 H1 H2))).
Defined.

Lemma get_info_classification_witness :
  let K := Sample.consts in
  let E := Sample.host_managed x00 in
  inquiry_succeeds K E /\
  ¬ vendor_is_ATA (io_data (inquiry_answer K E)) /\
  ZBC_DEV_TYPE_HOST_MANAGED K ≠ ZBC_DEV_TYPE_HOST_AWARE K /\
  peripheral_type (io_data (inquiry_answer K E)) = ZBC_DEV_TYPE_HOST_MANAGED K /\
  zbc_scsi_get_info K E Sample.dev0 Sample.w0 =
    zbc_scsi_get_info_capacity K E
      (set_info (set_model ZBC_DM_HOST_MANAGED)
         (set_info (set_type ZBC_DT_SCSI) Sample.dev0))
      (after_exchange [inquiry_cdb K] Sample.w0).
Proof.
  intros K E.
  destruct (sample_host_managed_ok x00) as [(H1 & H2 & H3) _].
  assert (H4 : ZBC_DEV_TYPE_HOST_MANAGED K ≠ ZBC_DEV_TYPE_HOST_AWARE K)
    by (vm_compute; congruence).
  refine (conj H1 (conj H2 (conj H4 (conj H3 _)))).
  exact (proj1 (get_info_classification K E Sample.dev0 Sample.w0 H1 H2 H4) H3).
Defined.

Lemma get_info_capacity_decoding_witness :
  let K := Sample.consts in
  let E := Sample.host_managed x00 in
  reaches_capacity K E /\ capacity_succeeds K E /\
  forall ret dev' w',
    zbc_scsi_get_info K E Sample.dev0 Sample.w0 = Ok (ret, dev') w' ->
    zbd_logical_blocks (zbd_info dev') =
      u64 (zbc_sg_cmd_get_int64 (io_data (capacity_answer K E)) 0 + 1) /\
    zbd_logical_block_size (zbd_info dev') =
      zbc_sg_cmd_get_int32 (io_data (capacity_answer K E)) 8.
Proof.
  intros K E.
  destruct (sample_host_managed_ok x00) as [H1 H2].
  refine (conj H1 (conj H2 _)).
  exact (proj1 (get_info_capacity_decoding K E Sample.dev0 Sample.w0 H1 H2)).
Defined.

Lemma physical_geometry_divisor_witness :
  let K := Sample.consts in
  let E := Sample.host_managed x03 in
  reaches_capacity K E /\ capacity_succeeds K E /\
  0 < zbc_sg_cmd_get_int32 (io_data (capacity_answer K E)) 8 /\
  u64 (zbc_sg_cmd_get_int64 (io_data (capacity_answer K E)) 0 + 1) ≠ 0 /\
  byte_at (io_data (capacity_answer K E)) 13 <= 3 /\
  logical_per_physical (byte_at (io_data (capacity_answer K E)) 13) = 8.
Proof.
  intros K E.
  destruct (sample_host_managed_ok x03) as [H1 H2].
  assert (H3 : 0 < zbc_sg_cmd_get_int32 (io_data (capacity_answer K E)) 8)
    by (vm_compute; congruence).
  assert (H4 : u64 (zbc_sg_cmd_get_int64 (io_data (capacity_answer K E)) 0 + 1) ≠ 0)
    by (vm_compute; congruence).
  assert (H5 : byte_at (io_data (capacity_answer K E)) 13 <= 3)
    by (vm_compute; congruence).
  refine (conj H1 (conj H2 (conj H3 (conj H4 (conj H5 _))))).
  destruct (physical_geometry_divisor K E Sample.dev0 Sample.w0 H1 H2 H3 H4)
    as [Hsmall _].
  destruct (Hsmall H5) as (Hpow & _). rewrite Hpow. reflexivity.
Defined.

(** C10, as first stated, fails on a reply whose byte 13 is 0x20: the
    reply carries a valid logical geometry and byte 13 is 4 or more, yet
    the divisor is not zero, since a shift by the width of [int] has no
    defined value. *)
Lemma divisor_undefined_at_byte_0x20 :
  let K := Sample.consts in
  let E := Sample.host_managed x20 in
  let data := io_data (capacity_answer K E) in
  reaches_capacity K E /\ capacity_succeeds K E /\
  0 < zbc_sg_cmd_get_int32 data 8 /\
  u64 (zbc_sg_cmd_get_int64 data 0 + 1) ≠ 0 /\
  byte_at data 13 = 32 /\ 4 <= byte_at data 13 /\
  shl_int 1 (byte_at data 13) = None /\
  logical_per_physical_defined (byte_at data 13) = None /\
  logical_per_physical_defined (byte_at data 13) ≠ Some 0.
Proof.
  intros K E data.
  destruct (sample_host_managed_ok x20) as [H1 H2].
  split; [exact H1|]. split; [exact H2|].
  vm_compute. repeat split; congruence.
Qed.

(** C2.  The factor the code computes is [(1 << byte13) & 0x0f], not 2 to
    the power of the low four bits of byte 13.  With byte 13 equal to 4
    the factor is 0 where the power is 16, and bring-up of a host-managed
    drive of 1024 blocks of 512 bytes divides by zero. *)
Theorem get_info_factor_at_exponent_4 :
  let K := Sample.consts in
  let E := Sample.host_managed x04 in
  byte_at (io_data (capacity_answer K E)) 13 = 4 /\
  logical_per_physical 4 = 0 /\
  2 ^ Z.land 4 0x0f = 16 /\
  zbc_scsi_get_info K E Sample.dev0 Sample.w0 = Trap.
Proof. vm_compute. repeat split. Qed.

(** ** Opening a device *)

Lemma keeps_ret {A : Type} (P : A -> Prop) (a : A) :
  P a -> keeps_handles P (mret a).
Proof. intros Ha w a' w' [= <- <-]. done. Qed.

Lemma keeps_trap {A : Type} (P : A -> Prop) : keeps_handles P trap.
Proof. intros w a w' [=]. Qed.

Lemma keeps_bind {A B : Type} (P : A -> Prop) (Q : B -> Prop)
    (m : M A) (f : A -> M B) :
  keeps_handles P m -> (forall a, P a -> keeps_handles Q (f a)) ->
  keeps_handles Q (m ≫= f).
Proof.
  intros Hm Hf w b w'. unfold mbind, M_bind.
  destruct (m w) as [a w1|] eqn:Hmw; [|done].
  intros Hfa. destruct (Hm _ _ _ Hmw) as (Hfd & Hdv & Ha).
  destruct (Hf a Ha _ _ _ Hfa) as (Hfd' & Hdv' & Hb).
  split; [congruence|]. split; [congruence|done].
Qed.

Lemma keeps_weaken {A : Type} (P Q : A -> Prop) (m : M A) :
  (forall a, P a -> Q a) -> keeps_handles P m -> keeps_handles Q m.
Proof.
  intros HPQ Hm w a w' Hr. destruct (Hm _ _ _ Hr) as (? & ? & ?). auto.
Qed.

Lemma keeps_malloc sz : keeps_handles any (malloc sz).
Proof. intros w a w' [= <- <-]. done. Qed.

Lemma keeps_free b : keeps_handles any (free b).
Proof. intros w a w' [= <- <-]. done. Qed.

Lemma keeps_deref p : keeps_handles any (deref p).
Proof. destruct p; [by apply keeps_ret | apply keeps_trap]. Qed.

Lemma keeps_c_div a b : keeps_handles any (c_div a b).
Proof. unfold c_div. case_decide; [apply keeps_trap | by apply keeps_ret]. Qed.

Lemma keeps_cmd_init E code buf sz :
  keeps_handles any (zbc_sg_cmd_init E code buf sz).
Proof.
  unfold zbc_sg_cmd_init. case_decide; [|by apply keeps_ret].
  destruct buf; [by apply keeps_ret|].
  case_decide; [|by apply keeps_ret].
  eapply keeps_bind; [apply keeps_malloc|]. intros b _. by apply keeps_ret.
Qed.

Lemma keeps_cmd_exec E dev cmd : keeps_handles any (zbc_sg_cmd_exec E dev cmd).
Proof. intros w a w' [= <- <-]. done. Qed.

Lemma keeps_cmd_destroy cmd : keeps_handles any (zbc_sg_cmd_destroy cmd).
Proof.
  unfold zbc_sg_cmd_destroy. destruct (out_buf cmd); [|by apply keeps_ret].
  destruct (out_buf_needfree cmd); [apply keeps_free | by apply keeps_ret].
Qed.

Lemma keeps_inquiry K E dev pbuf t :
  keeps_handles any (zbc_scsi_inquiry K E dev pbuf t).
Proof.
  unfold zbc_scsi_inquiry.
  eapply keeps_bind; [apply keeps_cmd_init|]. intros [ret cmd] _.
  case_decide; [by apply keeps_ret|].
  eapply keeps_bind; [apply keeps_cmd_exec|]. intros [ret' cmd'] _.
  eapply keeps_bind with (P := any).
  - case_decide; [|by apply keeps_ret].
    eapply keeps_bind with (P := any); [|intros; by apply keeps_ret].
    destruct t; [|by apply keeps_ret].
    eapply keeps_bind; [apply keeps_deref|]. intros; by apply keeps_ret.
  - intros [[pbuf' t'] cmd''] _.
    eapply keeps_bind; [apply keeps_cmd_destroy|]. intros; by apply keeps_ret.
Qed.

Lemma keeps_get_info_capacity K E dev :
  keeps_handles (same_device dev) (zbc_scsi_get_info_capacity K E dev).
Proof.
  unfold zbc_scsi_get_info_capacity.
  eapply keeps_bind; [apply keeps_cmd_init|]. intros [ret cmd] _.
  case_decide; [by apply keeps_ret|].
  eapply keeps_bind; [apply keeps_cmd_exec|]. intros [ret' cmd'] _.
  case_decide.
  { eapply keeps_bind; [apply keeps_cmd_destroy|]. intros; by apply keeps_ret. }
  eapply keeps_bind; [apply keeps_deref|]. intros data _.
  cbv zeta. case_decide.
  { eapply keeps_bind; [apply keeps_cmd_destroy|]. intros; by apply keeps_ret. }
  case_decide.
  { eapply keeps_bind; [apply keeps_cmd_destroy|]. intros; by apply keeps_ret. }
  eapply keeps_bind; [apply keeps_c_div|]. intros pb _.
  eapply keeps_bind; [apply keeps_cmd_destroy|]. intros; by apply keeps_ret.
Qed.

Lemma keeps_get_info K E dev :
  keeps_handles (same_device dev) (zbc_scsi_get_info K E dev).
Proof.
  unfold zbc_scsi_get_info.
  eapply keeps_bind; [apply keeps_inquiry|]. intros [[ret buf] t] _.
  case_decide; [by apply keeps_ret|].
  eapply keeps_bind; [apply keeps_deref|]. intros data _.
  assert (Hfree : keeps_handles any (from_option free (mret tt) buf)).
  { destruct buf; [apply keeps_free | by apply keeps_ret]. }
  case_decide.
  { eapply keeps_bind; [apply Hfree|]. intros; by apply keeps_ret. }
  eapply keeps_bind; [apply Hfree|]. intros _ _. cbv zeta.
  case_decide.
  { eapply keeps_weaken; [|apply keeps_get_info_capacity]. by intros [r d]. }
  case_decide; by apply keeps_ret.
Qed.

Section Open.

Context (K : zbc_consts) (E : env).

Lemma add_remove_fresh `{Countable T} (x : T) (s : gset T) :
  x ∉ s -> ({[x]} ∪ s) ∖ {[x]} = s.
Proof.
  intros Hx. apply set_eq. intros y.
  rewrite elem_of_difference, elem_of_union, elem_of_singleton.
  split; [tauto|]. intros Hy. split; [tauto|]. congruence.
Qed.

(** C7.  When [zbc_scsi_open] fails after [open] has delivered a file
    descriptor, that descriptor is closed again, the device structure
    obtained from [zbc_dev_alloc], if any, is freed, and the caller's
    device pointer is left as it was: the open descriptors and the
    allocated device structures are those from before the call. *)
Theorem open_failure_releases filename flags pdev w fd errno ret pdev' w' :
  os_open E filename (Z.lor flags O_DIRECT) = (fd, errno) ->
  0 <= fd ->
  fd ∉ w_fds w ->
  w_next w ∉ w_devs w ->
  zbc_scsi_open K E filename flags pdev w = Ok (ret, pdev') w' ->
  ret ≠ 0 ->
  w_fds w' = w_fds w /\ w_devs w' = w_devs w /\ pdev' = pdev.
Proof.
  intros Hopen Hfd Hfresh Hnext Hrun Hret.
  unfold zbc_scsi_open in Hrun. cbv zeta in Hrun.
  assert (Hso : sys_open E filename (Z.lor flags O_DIRECT) w =
                Ok (fd, errno) (upd_fds (fun s => {[fd]} ∪ s) w)).
  { unfold sys_open. rewrite Hopen. by rewrite decide_True. }
  erewrite bind_Ok in Hrun by exact Hso. cbv beta iota in Hrun.
  rewrite decide_False in Hrun by lia.
  unfold sys_fstat in Hrun.
  destruct (os_fstat E fd) as [[r e] mode] eqn:Hstat.
  erewrite bind_Ok in Hrun by reflexivity. cbv beta iota in Hrun.
  pose proof (add_remove_fresh fd (w_fds w) Hfresh) as Hclosed.
  pose proof (add_remove_fresh (w_next w) (w_devs w) Hnext) as Hfreed.
  destruct (decide (r ≠ 0)) as [Hr|Hr].
  { inversion Hrun; subst. by cbn. }
  destruct (S_ISCHR mode); cbn [negb] in Hrun; cycle 1.
  { inversion Hrun; subst. by cbn. }
  unfold zbc_dev_alloc at 1 in Hrun.
  destruct (dev_alloc_ok E); cycle 1.
  { erewrite bind_Ok in Hrun by reflexivity. inversion Hrun; subst. by cbn. }
  erewrite bind_Ok in Hrun by reflexivity. cbv beta iota in Hrun.
  match type of Hrun with
  | (zbc_scsi_get_info K E ?d ≫= _) ?w1 = _ =>
      destruct (zbc_scsi_get_info K E d w1) as [[ret1 dev1] w2|] eqn:Hgi;
      [ pose proof (keeps_get_info K E d _ _ _ Hgi) as (Hfds & Hdevs & Hdev)
      | by rewrite (bind_Trap _ _ _ Hgi) in Hrun ]
  end.
  erewrite bind_Ok in Hrun by exact Hgi. cbv beta iota in Hrun.
  destruct (decide (ret1 ≠ 0)) as [Hr1|Hr1]; cycle 1.
  { inversion Hrun; subst. done. }
  inversion Hrun; subst. cbn in *.
  unfold same_device in Hdev. cbn in Hdev.
  rewrite Hfds, Hdevs, Hdev. cbn. by rewrite Hclosed, Hfreed.
Qed.

End Open.

Lemma open_failure_releases_witness :
  let K := Sample.consts in
  let E := Sample.drive (Sample.inquiry_data x14 Sample.vendor_HGST)
                        (Sample.capacity_data 0x3FF 0 x00) [] 0 in
  exists w',
    zbc_scsi_open K E "/dev/sg0" 2 None Sample.w0 = Ok (- EINVAL, None) w' /\
    w_fds w' = w_fds Sample.w0 /\ w_devs w' = w_devs Sample.w0.
Proof.
  intros K E.
  eassert (Hrun : zbc_scsi_open K E "/dev/sg0" 2 None Sample.w0
                  = Ok (- EINVAL, None) _) by (vm_compute; reflexivity).
  eexists. split; [exact Hrun|].
  assert (H0 : 0 <= 3) by lia.
  assert (H1 : 3 ∉ w_fds Sample.w0) by apply not_elem_of_empty.
  assert (H2 : w_next Sample.w0 ∉ w_devs Sample.w0) by apply not_elem_of_empty.
  assert (H3 : - EINVAL ≠ 0) by (vm_compute; congruence).
  destruct (open_failure_releases K E "/dev/sg0" 2 None Sample.w0 3 0 _ _ _
              eq_refl H0 H1 H2 Hrun H3) as (Hf & Hd & _).
  exact (conj Hf Hd).
Defined.

Example open_success :
  exists dev w',
    zbc_scsi_open Sample.consts (Sample.host_managed x00) "/dev/sg0" 2 None Sample.w0
      = Ok (0, Some dev) w' /\
    elements (w_fds w') = [3] /\ elements (w_devs w') = [zbd_addr dev] /\
    zbd_fd dev = 3.
Proof. eexists _, _. vm_compute. repeat split. Qed.

(** ** Reading and writing *)

Section ReadWrite.

Context (E : env).

Lemma cmd_init_ok_shape code buf sz w :
  sg_init_status E code sz = 0 ->
  exists ob nf w1,
    zbc_sg_cmd_init E code buf sz w =
      Ok (0, SgCmd zero_cdb ob sz nf SG_DXFER_FROM_DEV 0) w1.
Proof.
  intros Hst. destruct buf as [b|].
  - eexists _, _, _. by apply cmd_init_attach.
  - destruct (decide (0 < sz)).
    + eexists _, _, _. by apply cmd_init_alloc.
    + eexists _, _, _. apply cmd_init_nobuf; [done|lia].
Qed.

Lemma cmd_destroy_returns cmd w : exists w', zbc_sg_cmd_destroy cmd w = Ok tt w'.
Proof.
  unfold zbc_sg_cmd_destroy. destruct (out_buf cmd); [|by eexists].
  destruct (out_buf_needfree cmd); by eexists.
Qed.

(** What a transfer of [S] bytes with residual [R] returns, in blocks of
    [L] bytes: the quotient as the C expression computes it, converted to
    the [int] it is stored in. *)
Lemma pread_returns dev zone buf C ofs w :
  let L := zbd_logical_block_size (zbd_info dev) in
  let S := u64 (C * L) in
  let a := sg_io E (rw_cdb ZBC_SG_READ_CDB_OPCODE zone C ofs) S in
  L ≠ 0 ->
  sg_init_status E ZBC_SG_READ S = 0 ->
  io_status a = 0 ->
  (fst <$> returned (zbc_scsi_pread E dev zone buf C ofs w))
    = Some (s32 (u64 (S - io_resid a) / L)).
Proof.
  intros L S a HL Hinit Hst. unfold zbc_scsi_pread. fold L. fold S.
  destruct (cmd_init_ok_shape ZBC_SG_READ buf S w Hinit) as (ob & nf & w1 & Hi).
  step_with ltac:(exact Hi).
  rewrite decide_False by (intros H; by apply H).
  step_with ltac:(by apply (cmd_exec_ok E _ _ _ a)).
  rewrite decide_True by done.
  step_with ltac:(erewrite bind_Ok by (by apply c_div_nonzero); reflexivity).
  match goal with
  | |- context [zbc_sg_cmd_destroy ?c ≫= _] =>
      destruct (cmd_destroy_returns c (upd_sent (fun l => l ++
        [rw_cdb ZBC_SG_READ_CDB_OPCODE zone C ofs]) w1)) as [w2 Hd]
  end.
  erewrite bind_Ok by exact Hd. reflexivity.
Qed.

Lemma pwrite_returns dev zone buf C ofs w :
  let L := zbd_logical_block_size (zbd_info dev) in
  let S := u64 (C * L) in
  let a := sg_io E (rw_cdb ZBC_SG_WRITE_CDB_OPCODE zone C ofs) S in
  L ≠ 0 ->
  sg_init_status E ZBC_SG_WRITE S = 0 ->
  io_status a = 0 ->
  returned (zbc_scsi_pwrite E dev zone buf C ofs w)
    = Some (s32 (u64 (S - io_resid a) / L)).
Proof.
  intros L S a HL Hinit Hst. unfold zbc_scsi_pwrite. fold L. fold S.
  destruct (cmd_init_ok_shape ZBC_SG_WRITE buf S w Hinit) as (ob & nf & w1 & Hi).
  step_with ltac:(exact Hi).
  rewrite decide_False by (intros H; by apply H).
  step_with ltac:(by apply (cmd_exec_ok E _ _ _ a)).
  rewrite decide_True by done.
  step_with ltac:(erewrite bind_Ok by (by apply c_div_nonzero); reflexivity).
  match goal with
  | |- context [zbc_sg_cmd_destroy ?c ≫= _] =>
      destruct (cmd_destroy_returns c (upd_sent (fun l => l ++
        [rw_cdb ZBC_SG_WRITE_CDB_OPCODE zone C ofs]) w1)) as [w2 Hd]
  end.
  erewrite bind_Ok by exact Hd. reflexivity.
Qed.

End ReadWrite.

Section ReadWriteClaims.

Context (E : env).

(** C3 (amended).  A successful read or write of [C] blocks of [L > 0]
    bytes, with transfer size [S = C * L] and a residual [R] between 0
    and [S], returns [(S - R) / L] whenever that count fits the signed
    32-bit return type; in particular it returns [C] when [R = 0] and 0,
    a success, when [R = S]. *)
Theorem rw_residual_translation dev zone buf C ofs w :
  let L := zbd_logical_block_size (zbd_info dev) in
  let S := C * L in
  let rd := sg_io E (rw_cdb ZBC_SG_READ_CDB_OPCODE zone C ofs) S in
  let wr := sg_io E (rw_cdb ZBC_SG_WRITE_CDB_OPCODE zone C ofs) S in
  0 <= C < 2 ^ 32 -> 0 < L < 2 ^ 32 ->
  (sg_init_status E ZBC_SG_READ S = 0 -> io_status rd = 0 ->
   0 <= io_resid rd <= S -> (S - io_resid rd) / L <= INT32_MAX ->
   (fst <$> returned (zbc_scsi_pread E dev zone buf C ofs w))
     = Some ((S - io_resid rd) / L)) /\
  (sg_init_status E ZBC_SG_WRITE S = 0 -> io_status wr = 0 ->
   0 <= io_resid wr <= S -> (S - io_resid wr) / L <= INT32_MAX ->
   returned (zbc_scsi_pwrite E dev zone buf C ofs w)
     = Some ((S - io_resid wr) / L)) /\
  (S - 0) / L = C /\ (S - S) / L = 0.
Proof.
  intros L S rd wr HC HL.
  assert (HS : u64 (C * L) = S) by (apply u64_id; unfold S; nia).
  assert (Hq : forall R, 0 <= R <= S -> (S - R) / L <= INT32_MAX ->
                 s32 (u64 (S - R) / L) = (S - R) / L).
  { intros R HR Hfit. rewrite u64_id by (unfold S in *; nia).
    apply s32_id. unfold INT32_MAX in Hfit.
    assert (0 <= (S - R) / L) by (apply Z.div_pos; lia). lia. }
  split; [|split; [|split]].
  - intros Hinit Hst HR Hfit.
    pose proof (pread_returns E dev zone buf C ofs w) as Hp. cbv zeta in Hp.
    fold L in Hp. rewrite HS in Hp. fold rd in Hp.
    rewrite Hp by (done || lia). by rewrite Hq.
  - intros Hinit Hst HR Hfit.
    pose proof (pwrite_returns E dev zone buf C ofs w) as Hp. cbv zeta in Hp.
    fold L in Hp. rewrite HS in Hp. fold wr in Hp.
    rewrite Hp by (done || lia). by rewrite Hq.
  - rewrite Z.sub_0_r. unfold S. apply Z.div_mul. lia.
  - rewrite Z.sub_diag. apply Z.div_0_l. lia.
Qed.

End ReadWriteClaims.

Lemma rw_residual_translation_witness :
  let E := Sample.drive [] [] [] 1024 in
  let dev := Sample.dev512 in
  (fst <$> returned (zbc_scsi_pread E dev Sample.zone0 (Some Sample.buf0) 8 0 Sample.w0))
    = Some 6 /\
  returned (zbc_scsi_pwrite E dev Sample.zone0 (Some Sample.buf0) 8 0 Sample.w0)
    = Some 6.
Proof.
  intros E dev.
  assert (HC : 0 <= 8 < 2 ^ 32) by lia.
  assert (HL : 0 < zbd_logical_block_size (zbd_info dev) < 2 ^ 32) by (cbn; lia).
  destruct (rw_residual_translation E dev Sample.zone0 (Some Sample.buf0) 8 0
              Sample.w0 HC HL) as (Hrd & Hwr & _).
  split.
  - apply Hrd; vm_compute; repeat split; congruence.
  - apply Hwr; vm_compute; repeat split; congruence.
Defined.

(** C3, as first stated, fails on a transfer of 2^31 blocks: the count
    does not fit the [int32_t] the operation returns. *)
Lemma rw_count_exceeds_int32 :
  let E := Sample.drive [] [] [] 0 in
  let C := 2 ^ 31 in
  (fst <$> returned (zbc_scsi_pread E Sample.dev1 Sample.zone0 (Some Sample.buf0)
                       C 0 Sample.w0)) = Some (- 2 ^ 31) /\
  returned (zbc_scsi_pwrite E Sample.dev1 Sample.zone0 (Some Sample.buf0)
              C 0 Sample.w0) = Some (- 2 ^ 31) /\
  io_resid (sg_io E (rw_cdb ZBC_SG_READ_CDB_OPCODE Sample.zone0 C 0) C) = 0 /\
  (C * 1 - 0) / 1 = 2 ^ 31 /\
  - 2 ^ 31 ≠ 2 ^ 31.
Proof. vm_compute. repeat split; congruence. Qed.

(** ** Big-endian fields of a CDB *)

Lemma be_decode_encode n v acc :
  be_decode (map byte_to_Z (be_encode n v)) acc
    = acc * 256 ^ Z.of_nat n + v mod 256 ^ Z.of_nat n.
Proof.
  revert acc. induction n as [|n IH]; intros acc.
  - cbn. rewrite Z.mod_1_r. lia.
  - cbn [be_encode map be_decode]. rewrite IH, byte_to_Z_to_byte.
    unfold u8, wrap. rewrite Z.shiftr_div_pow2 by lia.
    rewrite Nat2Z.inj_succ, Z.pow_succ_r by lia.
    replace (2 ^ (8 * Z.of_nat n)) with (256 ^ Z.of_nat n)
      by (change 256 with (2 ^ 8); rewrite <- Z.pow_mul_r by lia; done).
    assert (Hp : 0 < 256 ^ Z.of_nat n) by (apply Z.pow_pos_nonneg; lia).
    change (2 ^ 8) with 256.
    rewrite (Z.mul_comm 256 (256 ^ Z.of_nat n)).
    rewrite (Z.rem_mul_r v (256 ^ Z.of_nat n) 256) by lia.
    ring.
Qed.

Lemma length_be_encode n v : length (be_encode n v) = n.
Proof. induction n; cbn; congruence. Qed.

Lemma length_store_bytes buf ofs bs : length (store_bytes buf ofs bs) = length buf.
Proof. apply length_inserts. Qed.

Lemma byte_at_store_bytes_in buf ofs bs (i : nat) :
  (ofs <= i < ofs + length bs)%nat -> (i < length buf)%nat ->
  byte_at (store_bytes buf ofs bs) i = byte_at bs (i - ofs).
Proof.
  intros Hi Hl. unfold byte_at, store_bytes. by rewrite list_lookup_inserts.
Qed.

Lemma byte_at_store_bytes_out buf ofs bs (i : nat) :
  (i < ofs \/ ofs + length bs <= i)%nat ->
  byte_at (store_bytes buf ofs bs) i = byte_at buf i.
Proof.
  intros [Hi|Hi]; unfold byte_at, store_bytes.
  - by rewrite list_lookup_inserts_lt.
  - by rewrite list_lookup_inserts_ge.
Qed.

Lemma byte_at_insert_ne (buf : list byte) (i j : nat) b :
  i ≠ j -> byte_at (<[i := b]> buf) j = byte_at buf j.
Proof. intros H. unfold byte_at. by rewrite list_lookup_insert_ne. Qed.

Lemma byte_at_insert_eq (buf : list byte) (i : nat) b :
  (i < length buf)%nat -> byte_at (<[i := b]> buf) i = byte_to_Z b.
Proof. intros H. unfold byte_at. by rewrite list_lookup_insert_eq. Qed.

Lemma map_byte_at_store_bytes buf ofs bs :
  (ofs + length bs <= length buf)%nat ->
  map (byte_at (store_bytes buf ofs bs)) (seq ofs (length bs)) = map byte_to_Z bs.
Proof.
  intros Hl. apply list_eq. intros k.
  rewrite !list_lookup_fmap.
  destruct (decide (k < length bs)%nat) as [Hk|Hk].
  - rewrite lookup_seq_lt by done. cbn.
    rewrite byte_at_store_bytes_in by lia.
    replace (ofs + k - ofs)%nat with k by lia.
    unfold byte_at. destruct (lookup_lt_is_Some_2 bs k Hk) as [b Hb].
    by rewrite Hb.
  - rewrite lookup_seq_ge by lia. by rewrite lookup_ge_None_2 by lia.
Qed.

Lemma get_set_int64 cdb ofs v :
  (ofs + 8 <= length cdb)%nat ->
  zbc_sg_cmd_get_int64 (zbc_sg_cmd_set_int64 cdb ofs v) ofs = u64 v.
Proof.
  intros Hl. unfold zbc_sg_cmd_get_int64, zbc_sg_cmd_set_int64.
  pose proof (map_byte_at_store_bytes cdb ofs (be_encode 8 (u64 v))) as Hm.
  rewrite length_be_encode in Hm. rewrite Hm by done.
  rewrite be_decode_encode. change (256 ^ Z.of_nat 8) with (2 ^ 64).
  pose proof (u64_range v). rewrite Z.mod_small; lia.
Qed.

Lemma get_set_int32 cdb ofs v :
  (ofs + 4 <= length cdb)%nat ->
  zbc_sg_cmd_get_int32 (zbc_sg_cmd_set_int32 cdb ofs v) ofs = u32 v.
Proof.
  intros Hl. unfold zbc_sg_cmd_get_int32, zbc_sg_cmd_set_int32.
  pose proof (map_byte_at_store_bytes cdb ofs (be_encode 4 (u32 v))) as Hm.
  rewrite length_be_encode in Hm. rewrite Hm by done.
  rewrite be_decode_encode. change (256 ^ Z.of_nat 4) with (2 ^ 32).
  pose proof (u32_range v). rewrite Z.mod_small; lia.
Qed.

(** ** Resetting write pointers *)

Section ResetWritePointer.

Context (E : env).

Lemma reset_write_pointer_eq dev start_lba w :
  sg_init_status E ZBC_SG_RESET_WRITE_POINTER 0 = 0 ->
  zbc_scsi_reset_write_pointer E dev start_lba w =
    Ok (io_status (sg_io E (reset_write_pointer_cdb start_lba) 0))
       (upd_sent (fun l => l ++ [reset_write_pointer_cdb start_lba]) w).
Proof.
  intros Hinit. unfold zbc_scsi_reset_write_pointer.
  step_with ltac:(by apply cmd_init_nobuf).
  rewrite decide_False by (intros H; by apply H).
  unfold reset_write_pointer_cdb.
  destruct (decide (start_lba = UINT64_MAX)) as [Hall|Hone]; cmd_simpl.
  - step_with ltac:(reflexivity).
    match goal with
    | |- context [decide (io_status ?r = 0)] => destruct (decide (io_status r = 0))
    end; reflexivity.
  - step_with ltac:(reflexivity).
    match goal with
    | |- context [decide (io_status ?r = 0)] => destruct (decide (io_status r = 0))
    end; reflexivity.
Qed.

(** C8.  The CDB that [zbc_scsi_reset_write_pointer] hands to the
    transport: with the all-ones start LBA, bit 0 of byte 14 is set and
    bytes 2-9 are all zero; with any other start LBA, bytes 2-9 hold that
    LBA big-endian and bit 0 of byte 14 is clear. *)
Theorem reset_write_pointer_encoding dev start_lba w :
  0 <= start_lba <= UINT64_MAX ->
  sg_init_status E ZBC_SG_RESET_WRITE_POINTER 0 = 0 ->
  exists ret w' c,
    zbc_scsi_reset_write_pointer E dev start_lba w = Ok ret w' /\
    w_sent w' = w_sent w ++ [c] /\
    length c = ZBC_SG_CDB_LENGTH /\
    (start_lba = UINT64_MAX ->
     byte_at c 14 = 0x01 /\ Z.testbit (byte_at c 14) 0 = true /\
     (forall i : nat, (2 <= i <= 9)%nat -> byte_at c i = 0) /\
     zbc_sg_cmd_get_int64 c 2 = 0) /\
    (start_lba ≠ UINT64_MAX ->
     zbc_sg_cmd_get_int64 c 2 = start_lba /\
     byte_at c 14 = 0 /\ Z.testbit (byte_at c 14) 0 = false).
Proof.
  intros Hlba Hinit.
  eexists _, _, (reset_write_pointer_cdb start_lba).
  split; [by apply reset_write_pointer_eq|].
  split; [reflexivity|].
  unfold reset_write_pointer_cdb.
  destruct (decide (start_lba = UINT64_MAX)) as [Hall|Hone].
  - split; [reflexivity|]. split; [|done].
    intros _. split; [reflexivity|]. split; [reflexivity|]. split; [|reflexivity].
    intros i Hi.
    assert (Hc : (i = 2 \/ i = 3 \/ i = 4 \/ i = 5 \/ i = 6 \/ i = 7 \/ i = 8 \/ i = 9)%nat)
      by lia.
    repeat (destruct Hc as [-> | Hc]; [reflexivity|]). by subst.
  - split.
    { unfold zbc_sg_cmd_set_int64. by rewrite length_store_bytes. }
    split; [done|]. intros _.
    rewrite get_set_int64 by (cbn; lia).
    rewrite u64_id by (unfold UINT64_MAX in *; lia).
    split; [done|].
    assert (H14 : byte_at
              (zbc_sg_cmd_set_int64
                 (<[1%nat := Z_to_byte ZBC_SG_RESET_WRITE_POINTER_CDB_SA]>
                    (<[0%nat := Z_to_byte ZBC_SG_RESET_WRITE_POINTER_CDB_OPCODE]>
                       zero_cdb)) 2 start_lba) 14 = 0).
    { unfold zbc_sg_cmd_set_int64.
      rewrite byte_at_store_bytes_out by (rewrite length_be_encode; lia).
      reflexivity. }
    by rewrite H14.
Qed.

End ResetWritePointer.

Lemma reset_write_pointer_encoding_witness :
  let E := Sample.drive [] [] [] 0 in
  exists ret w' c,
    zbc_scsi_reset_write_pointer E Sample.dev512 UINT64_MAX Sample.w0 = Ok ret w' /\
    w_sent w' = w_sent Sample.w0 ++ [c] /\
    byte_at c 14 = 0x01 /\ zbc_sg_cmd_get_int64 c 2 = 0.
Proof.
  intros E.
  assert (H1 : 0 <= UINT64_MAX <= UINT64_MAX) by (vm_compute; split; congruence).
  assert (H2 : sg_init_status E ZBC_SG_RESET_WRITE_POINTER 0 = 0) by reflexivity.
  destruct (reset_write_pointer_encoding E Sample.dev512 UINT64_MAX Sample.w0 H1 H2)
    as (ret & w' & c & Hrun & Hsent & _ & Hall & _).
  destruct (Hall eq_refl) as (H14 & _ & _ & Hid).
  exists ret, w', c. exact (conj Hrun (conj Hsent (conj H14 Hid))).
Defined.

Example reset_one_zone :
  let E := Sample.drive [] [] [] 0 in
  exists w',
    zbc_scsi_reset_write_pointer E Sample.dev512 0x12345678 Sample.w0 = Ok 0 w' /\
    w_sent w' =
      [[x94; x14; x00; x00; x00; x00; x12; x34; x56; x78;
        x00; x00; x00; x00; x00; x00]].
Proof. eexists. vm_compute. split; reflexivity. Qed.

(** ** Reporting zones *)

Lemma report_zones_loop_spec buf n :
  forall ofs za i w,
    (i + n <= length za)%nat ->
    exists za',
      report_zones_loop buf ofs za i n w = Ok za' w /\
      length za' = length za /\
      (forall k, (k < n)%nat ->
         za' !! (i + k)%nat = Some (decode_zone buf (ofs + 64 * k))) /\
      (forall j, (j < i \/ i + n <= j)%nat -> za' !! j = za !! j).
Proof.
  induction n as [|n IH]; intros ofs za i w Hlen.
  - exists za. split; [reflexivity|]. split; [done|].
    split; [intros k Hk; lia | done].
  - cbn [report_zones_loop]. rewrite decide_True by lia.
    destruct (IH (ofs + 64)%nat (<[i := decode_zone buf ofs]> za) (S i) w)
      as (za' & Hrun & Hl & Hin & Hout).
    { rewrite length_insert. lia. }
    exists za'. split; [exact Hrun|]. rewrite length_insert in Hl.
    split; [exact Hl|]. split.
    + intros [|k] Hk.
      * rewrite Nat.add_0_r, Nat.mul_0_r, Nat.add_0_r.
        rewrite Hout by lia. apply list_lookup_insert_eq. lia.
      * replace (i + S k)%nat with (S i + k)%nat by lia.
        rewrite Hin by lia. do 2 f_equal. lia.
    + intros j Hj. rewrite Hout by lia. apply list_lookup_insert_ne. lia.
Qed.

Lemma report_zones_loop_world buf n :
  forall ofs za i w za' w',
    report_zones_loop buf ofs za i n w = Ok za' w' -> w' = w.
Proof.
  induction n as [|n IH]; intros ofs za i w za' w'; cbn [report_zones_loop].
  - by intros [= _ <-].
  - case_decide; [apply IH | intros [=]].
Qed.

Section ReportZones.

Context (E : env).

Lemma report_zones_eq dev start_lba ro zones R w :
  let bufsz := (report_zones_bufsz E R).1 in
  let nr1 := (report_zones_bufsz E R).2 in
  let a := sg_io E (report_zones_cdb start_lba bufsz ro) bufsz in
  let data := io_data a in
  let nz := s32 (zbc_sg_cmd_get_int32 data 0 / ZBC_ZONE_DESCRIPTOR_LENGTH) in
  let reported :=
    s32 (u64 (bufsz - ZBC_ZONE_DESCRIPTOR_OFFSET) / ZBC_ZONE_DESCRIPTOR_LENGTH) in
  let w1 := World ({[w_next w]} ∪ w_heap w) (S (w_next w)) (w_fds w) (w_devs w)
                  (w_sent w ++ [report_zones_cdb start_lba bufsz ro]) in
  let w2 := after_exchange [report_zones_cdb start_lba bufsz ro] w in
  0 < bufsz ->
  sg_init_status E ZBC_SG_REPORT_ZONES bufsz = 0 ->
  io_status a = 0 ->
  zbc_scsi_report_zones E dev start_lba ro zones R w =
    match zones with
    | Some za =>
      if decide (reported ≠ 0) then
        let nz := if decide (nr1 < u32 nz) then s32 nr1 else nz in
        let nz := if decide (reported < nz) then reported else nz in
        match report_zones_loop data 64 za 0 (Z.to_nat nz) w1 with
        | Ok za' _ => Ok (0, Some za', u32 nz) w2
        | Trap => Trap
        end
      else Ok (0, zones, u32 nz) w2
    | None => Ok (0, zones, u32 nz) w2
    end.
Proof.
  intros bufsz nr1 a data nz reported w1 w2 Hsz Hinit Hst.
  unfold zbc_scsi_report_zones.
  destruct (report_zones_bufsz E R) as [bufsz' nr1'] eqn:Hb.
  cbn [fst snd] in bufsz, nr1. subst bufsz nr1.
  step_with ltac:(by apply cmd_init_alloc).
  rewrite decide_False by (intros H; by apply H).
  step_with ltac:(by apply (cmd_exec_ok E _ _ _ a)).
  rewrite decide_False by (intros H; by apply H).
  step_with ltac:(reflexivity).
  cbv zeta. fold data. fold nz. fold reported.
  destruct zones as [za|]; [|reflexivity].
  destruct (decide (reported ≠ 0)); [|reflexivity].
  match goal with
  | |- context [report_zones_loop data ?o za 0 ?n] =>
      change o with 64%nat;
      destruct (report_zones_loop data 64 za 0 n
                  (upd_sent (fun l => l ++ [report_zones_cdb start_lba bufsz' ro])
                     (upd_next S (upd_heap (fun h => {[w_next w]} ∪ h) w))))
        as [za' w'|] eqn:Hloop
  end.
  - pose proof (report_zones_loop_world _ _ _ _ _ _ _ _ Hloop) as ->.
    change w1 with (upd_sent (fun l => l ++ [report_zones_cdb start_lba bufsz' ro])
                     (upd_next S (upd_heap (fun h => {[w_next w]} ∪ h) w))).
    rewrite Hloop.
    erewrite bind_Ok by (erewrite bind_Ok by exact Hloop; reflexivity).
    reflexivity.
  - change w1 with (upd_sent (fun l => l ++ [report_zones_cdb start_lba bufsz' ro])
                     (upd_next S (upd_heap (fun h => {[w_next w]} ∪ h) w))).
    rewrite Hloop.
    apply bind_Trap. by apply bind_Trap.
Qed.

Lemma report_zones_bufsz_eq R :
  128 <= os_pagesize E < 2 ^ 63 -> 0 <= R < 2 ^ 26 ->
  report_zones_bufsz E R =
    if decide (R = 0) then (64, 0)
    else if decide (os_pagesize E < 64 + R * 64)
         then (os_pagesize E, (os_pagesize E - 64) / 64)
         else (64 + R * 64, R).
Proof.
  intros HP HR.
  unfold report_zones_bufsz, ZBC_ZONE_DESCRIPTOR_OFFSET, ZBC_ZONE_DESCRIPTOR_LENGTH.
  destruct (decide (R = 0)) as [->|Hnz].
  { by rewrite decide_False by (intros H; by apply H). }
  rewrite decide_True by done.
  rewrite (u32_id (R * 64)) by lia.
  rewrite (u64_id (64 + R * 64)) by lia.
  rewrite (u64_id (os_pagesize E)) by lia.
  destruct (decide (os_pagesize E < 64 + R * 64)) as [Hc|Hc]; [|done].
  rewrite (u64_id (os_pagesize E - 64)) by lia.
  rewrite u32_id; [done|].
  split; [apply Z.div_pos; lia|].
  apply Z.div_lt_upper_bound; lia.
Qed.

Lemma report_zones_bufsz_pos R :
  128 <= os_pagesize E < 2 ^ 63 -> 0 < (report_zones_bufsz E R).1.
Proof.
  intros HP.
  unfold report_zones_bufsz, ZBC_ZONE_DESCRIPTOR_OFFSET, ZBC_ZONE_DESCRIPTOR_LENGTH.
  rewrite (u64_id (os_pagesize E)) by lia.
  pose proof (u32_range (R * 64)) as Hr.
  rewrite (u64_id (64 + u32 (R * 64))) by lia.
  repeat case_decide; cbn [fst]; lia.
Qed.

(** C1 (amended).  With a caller array of room for [R] zones, where
    [0 < R < 2^26], the zone report decodes the first [min(R, D, fit)]
    descriptors of the reply into the array and writes that number back,
    which is at most [R]; [D] is the zone count the device reports and
    [fit] the number of descriptors that fit one page after the header.
    With a null array, or with [R = 0], nothing is decoded and the count
    written back is [D]. *)
Theorem report_zones_count dev start_lba ro zones R w :
  let P := os_pagesize E in
  let bufsz := (report_zones_bufsz E R).1 in
  let a := sg_io E (report_zones_cdb start_lba bufsz ro) bufsz in
  let data := io_data a in
  let D := zbc_sg_cmd_get_int32 data 0 / ZBC_ZONE_DESCRIPTOR_LENGTH in
  let fit := (P - ZBC_ZONE_DESCRIPTOR_OFFSET) / ZBC_ZONE_DESCRIPTOR_LENGTH in
  128 <= P < 2 ^ 63 ->
  sg_init_status E ZBC_SG_REPORT_ZONES bufsz = 0 ->
  io_status a = 0 ->
  (forall za, zones = Some za -> 0 < R < 2 ^ 26 -> R <= Z.of_nat (length za) ->
     let n := Z.min R (Z.min D fit) in
     exists za' w',
       zbc_scsi_report_zones E dev start_lba ro zones R w = Ok (0, Some za', n) w' /\
       0 <= n <= R /\
       length za' = length za /\
       (forall k, (k < Z.to_nat n)%nat ->
          za' !! k = Some (decode_zone data (64 + 64 * k))) /\
       (forall k, (Z.to_nat n <= k)%nat -> za' !! k = za !! k)) /\
  (zones = None \/ R = 0 ->
     exists w', zbc_scsi_report_zones E dev start_lba ro zones R w = Ok (0, zones, D) w').
Proof.
  intros P bufsz a data D fit HP Hinit Hst.
  pose proof (report_zones_bufsz_pos R HP) as Hpos. fold bufsz in Hpos.
  pose proof (report_zones_eq dev start_lba ro zones R w Hpos Hinit Hst) as Heq.
  cbv zeta in Heq. fold bufsz a data in Heq.
  pose proof (zbc_sg_cmd_get_int32_range data 0) as Hg.
  assert (HD : 0 <= D < 2 ^ 26).
  { unfold D, ZBC_ZONE_DESCRIPTOR_LENGTH. split; [apply Z.div_pos; lia|].
    apply Z.div_lt_upper_bound; lia. }
  fold D in Heq. rewrite (s32_id D) in Heq by lia. rewrite (u32_id D) in Heq by lia.
  split.
  - intros za -> HR Hroom n.
    pose proof (report_zones_bufsz_eq R HP ltac:(lia)) as Hb.
    rewrite decide_False in Hb by lia.
    assert (Hfit : 1 <= fit).
    { unfold fit, ZBC_ZONE_DESCRIPTOR_OFFSET, ZBC_ZONE_DESCRIPTOR_LENGTH.
      apply Z.div_le_lower_bound; lia. }
    assert (Hcase :
      (P < 64 + R * 64 /\ bufsz = P /\ (report_zones_bufsz E R).2 = fit /\ fit < R) \/
      (64 + R * 64 <= P /\ bufsz = 64 + R * 64 /\ (report_zones_bufsz E R).2 = R
       /\ R <= fit)).
    { unfold bufsz. rewrite Hb. fold P.
      destruct (decide (P < 64 + R * 64)) as [Hc|Hc]; [left|right]; cbn [fst snd].
      - repeat split; try done.
        unfold fit, ZBC_ZONE_DESCRIPTOR_OFFSET, ZBC_ZONE_DESCRIPTOR_LENGTH.
        apply Z.div_lt_upper_bound; lia.
      - repeat split; try done; try lia.
        unfold fit, ZBC_ZONE_DESCRIPTOR_OFFSET, ZBC_ZONE_DESCRIPTOR_LENGTH.
        apply Z.div_le_lower_bound; lia. }
    assert (Hrep : s32 (u64 (bufsz - ZBC_ZONE_DESCRIPTOR_OFFSET)
                        / ZBC_ZONE_DESCRIPTOR_LENGTH)
                   = Z.min R fit).
    { unfold ZBC_ZONE_DESCRIPTOR_OFFSET, ZBC_ZONE_DESCRIPTOR_LENGTH in *.
      destruct Hcase as [(Hc & -> & _ & Hlt)|(Hc & -> & _ & Hle)].
      - rewrite u64_id by lia. fold fit. rewrite s32_id by lia. lia.
      - rewrite u64_id by lia.
        replace (64 + R * 64 - 64) with (R * 64) by lia.
        rewrite Z.div_mul by lia. rewrite s32_id by lia. lia. }
    rewrite Hrep in Heq.
    assert (Hnr : (report_zones_bufsz E R).2 = Z.min R fit)
      by (destruct Hcase as [(_ & _ & -> & ?)|(_ & _ & -> & ?)]; lia).
    rewrite Hnr in Heq.
    rewrite decide_True in Heq by lia.
    rewrite (s32_id (Z.min R fit)) in Heq by lia.
    assert (Hn :
      (if decide (Z.min R fit <
                  (if decide (Z.min R fit < D) then Z.min R fit else D))
       then Z.min R fit
       else if decide (Z.min R fit < D) then Z.min R fit else D) = n).
    { unfold n. repeat case_decide; lia. }
    rewrite Hn in Heq.
    destruct (report_zones_loop_spec data (Z.to_nat n) 64 za 0
                (World ({[w_next w]} ∪ w_heap w) (S (w_next w)) (w_fds w) (w_devs w)
                   (w_sent w ++ [report_zones_cdb start_lba bufsz ro])))
      as (za' & Hloop & Hlen & Hin & Hout).
    { unfold n. lia. }
    rewrite Hloop in Heq. rewrite (u32_id n) in Heq by (unfold n; lia).
    exists za', (after_exchange [report_zones_cdb start_lba bufsz ro] w).
    split; [exact Heq|]. split; [unfold n; lia|]. split; [exact Hlen|].
    split.
    + intros k Hk. exact (Hin k Hk).
    + intros k Hk. apply Hout. right. cbn. exact Hk.
  - intros [-> | ->].
    + eexists. exact Heq.
    + destruct zones as [za|]; [|eexists; exact Heq].
      assert (Hb0 : bufsz = 64) by (unfold bufsz; reflexivity).
      rewrite Hb0 in Heq. rewrite decide_False in Heq by (intros H; by apply H).
      eexists. exact Heq.
Qed.

(** C9 (amended).  The reporting-options selector is not checked: the
    zone report behaves as it does for the selector's low four bits, and
    with a transport at work a count query returns 0 after handing over a
    CDB whose byte 14 holds those four bits. *)
Theorem report_zones_selector_masked dev start_lba ro zones R w :
  zbc_scsi_report_zones E dev start_lba ro zones R w =
    zbc_scsi_report_zones E dev start_lba (Z.land ro 0x0f) zones R w /\
  (let bufsz := (report_zones_bufsz E R).1 in
   let c := report_zones_cdb start_lba bufsz ro in
   128 <= os_pagesize E < 2 ^ 63 ->
   sg_init_status E ZBC_SG_REPORT_ZONES bufsz = 0 ->
   io_status (sg_io E c bufsz) = 0 ->
   exists D w',
     zbc_scsi_report_zones E dev start_lba ro None R w = Ok (0, None, D) w' /\
     w_sent w' = w_sent w ++ [c] /\
     byte_at c 14 = Z.land ro 0x0f).
Proof.
  split.
  - unfold zbc_scsi_report_zones.
    rewrite <- (Z.land_assoc ro 15 15). reflexivity.
  - intros bufsz c HP Hinit Hst.
    pose proof (report_zones_bufsz_pos R HP) as Hpos. fold bufsz in Hpos.
    pose proof (report_zones_eq dev start_lba ro None R w Hpos Hinit Hst) as Heq.
    cbv zeta in Heq. fold bufsz c in Heq.
    eexists _, _. split; [exact Heq|]. split; [reflexivity|].
    unfold c, report_zones_cdb.
    rewrite byte_at_insert_eq.
    + rewrite byte_to_Z_to_byte. unfold u8, wrap.
      change 15 with (Z.ones 4). rewrite Z.land_ones by lia.
      rewrite Z.mod_small; [done|].
      pose proof (Z.mod_pos_bound ro (2 ^ 4)). lia.
    + unfold zbc_sg_cmd_set_int32, zbc_sg_cmd_set_int64.
      rewrite !length_store_bytes. cbn. lia.
Qed.

End ReportZones.

Lemma report_zones_count_witness :
  let E := Sample.host_managed x00 in
  exists za' w',
    zbc_scsi_report_zones E Sample.dev512 0 0 (Some Sample.zones4) 3 Sample.w0
      = Ok (0, Some za', 3) w' /\
    length za' = 4%nat /\
    za' !! 3%nat = Some Sample.zone0.
Proof.
  intros E.
  assert (HP : 128 <= os_pagesize E < 2 ^ 63) by (vm_compute; split; congruence).
  assert (Hi : sg_init_status E ZBC_SG_REPORT_ZONES (report_zones_bufsz E 3).1 = 0)
    by reflexivity.
  assert (Hs : io_status (sg_io E (report_zones_cdb 0 (report_zones_bufsz E 3).1 0)
                            (report_zones_bufsz E 3).1) = 0)
    by reflexivity.
  assert (HR : 0 < 3 < 2 ^ 26) by (vm_compute; split; congruence).
  assert (Hroom : 3 <= Z.of_nat (length Sample.zones4)) by (vm_compute; congruence).
  destruct (report_zones_count E Sample.dev512 0 0 (Some Sample.zones4) 3 Sample.w0
              HP Hi Hs) as [Hdec _].
  destruct (Hdec Sample.zones4 eq_refl HR Hroom)
    as (za' & w' & Hrun & _ & Hlen & _ & Hrest).
  exists za', w'. split; [exact Hrun|]. split; [exact Hlen|].
  exact (Hrest 3%nat (le_n 3)).
Defined.

(** C1, as first stated, fails on a request for no zones, and on a null
    array: the count written back is the count the device reports, here 5,
    which exceeds the request and is not the minimum. *)
Lemma report_zones_count_exceeds_request :
  let E := Sample.host_managed x00 in
  let D := zbc_sg_cmd_get_int32 (Sample.report_data 5) 0 / ZBC_ZONE_DESCRIPTOR_LENGTH in
  let fit := (os_pagesize E - ZBC_ZONE_DESCRIPTOR_OFFSET) / ZBC_ZONE_DESCRIPTOR_LENGTH in
  returned (zbc_scsi_report_zones E Sample.dev512 0 0 (Some Sample.zones4) 0 Sample.w0)
    = Some (0, Some Sample.zones4, 5) /\
  returned (zbc_scsi_report_zones E Sample.dev512 0 0 None 3 Sample.w0)
    = Some (0, None, 5) /\
  Z.min 0 (Z.min D fit) = 0 /\ Z.min 3 (Z.min D fit) = 3 /\
  ¬ 5 <= 0 /\ ¬ 5 <= 3.
Proof. vm_compute. repeat split; congruence. Qed.

Lemma report_zones_selector_masked_witness :
  let E := Sample.host_managed x00 in
  exists D w' c,
    zbc_scsi_report_zones E Sample.dev512 0 0x1F None 0 Sample.w0 = Ok (0, None, D) w' /\
    w_sent w' = w_sent Sample.w0 ++ [c] /\
    byte_at c 14 = 0x0F.
Proof.
  intros E.
  assert (HP : 128 <= os_pagesize E < 2 ^ 63) by (vm_compute; split; congruence).
  assert (Hi : sg_init_status E ZBC_SG_REPORT_ZONES (report_zones_bufsz E 0).1 = 0)
    by reflexivity.
  assert (Hs : io_status (sg_io E (report_zones_cdb 0 (report_zones_bufsz E 0).1 0x1F)
                            (report_zones_bufsz E 0).1) = 0)
    by reflexivity.
  destruct (report_zones_selector_masked E Sample.dev512 0 0x1F None 0 Sample.w0)
    as [_ Hq].
  destruct (Hq HP Hi Hs) as (D & w' & Hrun & Hsent & H14).
  exists D, w', (report_zones_cdb 0 (report_zones_bufsz E 0).1 0x1F).
  exact (conj Hrun (conj Hsent H14)).
Defined.

(** C9, as first stated, fails on the selector 16, which does not fit four
    bits: the report returns 0, not [-EINVAL], and was issued with the
    selector 0. *)
Lemma report_zones_accepts_selector_16 :
  let E := Sample.host_managed x00 in
  ¬ (0 <= 16 < 2 ^ 4) /\
  returned (zbc_scsi_report_zones E Sample.dev512 0 16 None 0 Sample.w0)
    = Some (0, None, 5) /\
  0 ≠ - EINVAL /\
  byte_at (report_zones_cdb 0 (report_zones_bufsz E 0).1 16) 14 = 0.
Proof.
  vm_compute. repeat split; try congruence. intros [_ H]. congruence.
Qed.

(** ** Tracking buffers and commands *)

Lemma tracks_ret {A : Type} X (a : A) (Q : A -> gset nat -> list (list byte) -> Prop) :
  Q a X [] -> tracks X (mret a) Q.
Proof.
  intros HQ w a' w' [= <- <-]. exists X, [].
  split; [done|]. split; [by rewrite app_nil_r | done].
Qed.

Lemma tracks_trap {A : Type} X (Q : A -> gset nat -> list (list byte) -> Prop) :
  tracks X trap Q.
Proof. intros w a w' [=]. Qed.

Lemma tracks_bind {A B : Type} X (m : M A) (f : A -> M B)
    (Q1 : A -> gset nat -> list (list byte) -> Prop)
    (Q : B -> gset nat -> list (list byte) -> Prop) :
  tracks X m Q1 ->
  (forall a Y l1, Q1 a Y l1 -> tracks Y (f a) (fun b Z l2 => Q b Z (l1 ++ l2))) ->
  tracks X (m ≫= f) Q.
Proof.
  intros Hm Hf w b w'. unfold mbind, M_bind.
  destruct (m w) as [a w1|] eqn:Hmw; [|done].
  intros Hfa. destruct (Hm _ _ _ Hmw) as (Y & l1 & Hheap1 & Hsent1 & HQ1).
  destruct (Hf a Y l1 HQ1 _ _ _ Hfa) as (Z & l2 & Hheap2 & Hsent2 & HQ).
  exists Z, (l1 ++ l2). split; [|split; [|done]].
  - intros H HH. apply Hheap2, Hheap1, HH.
  - by rewrite Hsent2, Hsent1, app_assoc.
Qed.

Lemma tracks_widen {A : Type} X (m : M A)
    (Q Q' : A -> gset nat -> list (list byte) -> Prop) :
  (forall a Y l, Q a Y l -> exists Y', Y ⊆ Y' /\ Q' a Y' l) ->
  tracks X m Q -> tracks X m Q'.
Proof.
  intros HQ Hm w a w' Hr. destruct (Hm _ _ _ Hr) as (Y & l & Hheap & Hsent & Hq).
  destruct (HQ _ _ _ Hq) as (Y' & Hsub & Hq').
  exists Y', l. split; [|done].
  intros H HH. specialize (Hheap H HH).
  intros x Hx. specialize (Hheap x Hx).
  rewrite elem_of_union in *. destruct Hheap as [?|?]; [by left|right; by apply Hsub].
Qed.

Lemma tracks_post {A : Type} X (m : M A)
    (Q Q' : A -> gset nat -> list (list byte) -> Prop) :
  (forall a Y l, Q a Y l -> Q' a Y l) -> tracks X m Q -> tracks X m Q'.
Proof.
  intros HQ. apply tracks_widen. intros a Y l Hq. exists Y. split; [done|auto].
Qed.

Lemma tracks_pre {A : Type} X X' (m : M A)
    (Q : A -> gset nat -> list (list byte) -> Prop) :
  X ⊆ X' -> tracks X' m Q -> tracks X m Q.
Proof.
  intros Hsub Hm w a w' Hr. destruct (Hm _ _ _ Hr) as (Y & l & Hheap & Hsent & Hq).
  exists Y, l. split; [|done]. intros H HH. apply Hheap.
  intros x Hx. specialize (HH x Hx).
  rewrite elem_of_union in *. destruct HH as [?|?]; [by left|right; by apply Hsub].
Qed.

Lemma tracks_malloc X sz :
  tracks X (malloc sz) (fun b Y l => Y = X ∪ {[b_addr b]} /\ l = []).
Proof.
  intros w b w' [= <- <-]. eexists _, []. split; [|split; [by rewrite app_nil_r|done]].
  intros H HH x. cbn. rewrite !elem_of_union, elem_of_singleton.
  intros [->|Hx]; [tauto|]. specialize (HH x Hx). rewrite elem_of_union in HH. tauto.
Qed.

Lemma tracks_free X b :
  tracks X (free b) (fun _ Y l => Y = X ∖ {[b_addr b]} /\ l = []).
Proof.
  intros w u w' [= <- <-]. eexists _, []. split; [|split; [by rewrite app_nil_r|done]].
  intros H HH x. cbn. rewrite elem_of_difference, elem_of_union, elem_of_difference.
  intros [Hx Hn]. specialize (HH x Hx). rewrite elem_of_union in HH. tauto.
Qed.

Lemma tracks_deref X p :
  tracks X (deref p)
    (fun d Y l => Y = X /\ l = [] /\ exists b, p = Some b /\ d = b_data b).
Proof.
  destruct p as [b|]; [|apply tracks_trap].
  apply tracks_ret. eauto.
Qed.

Lemma tracks_c_div X a b :
  tracks X (c_div a b) (fun q Y l => Y = X /\ l = [] /\ b ≠ 0 /\ q = a / b).
Proof.
  unfold c_div. case_decide; [apply tracks_trap | by apply tracks_ret].
Qed.

Lemma tracks_cmd_init E X code buf sz :
  tracks X (zbc_sg_cmd_init E code buf sz)
    (fun r Y l =>
       l = [] /\ r.1 = sg_init_status E code sz /\
       (r.1 ≠ 0 -> Y = X) /\
       (r.1 = 0 ->
        Y = X ∪ owned r.2 /\ cdb r.2 = zero_cdb /\ out_bufsz r.2 = sz /\
        io_hdr_dxfer_direction r.2 = SG_DXFER_FROM_DEV /\
        match buf with
        | Some b => out_buf r.2 = Some b /\ out_buf_needfree r.2 = false
        | None => (0 < sz /\ out_buf_needfree r.2 = true /\ is_Some (out_buf r.2)) \/
                  (sz <= 0 /\ out_buf r.2 = None)
        end)).
Proof.
  unfold zbc_sg_cmd_init. case_decide as Hst.
  - destruct buf as [b|].
    + apply tracks_ret. cbn. rewrite Hst. repeat split; try done.
      unfold owned. cbn. by rewrite union_empty_r_L.
    + case_decide as Hsz.
      * eapply tracks_bind; [apply tracks_malloc|]. intros b Y l [-> ->].
        apply tracks_ret. cbn. rewrite Hst. repeat split; try done.
        left. repeat split; [done|]. by eexists.
      * apply tracks_ret. cbn. rewrite Hst. repeat split; try done.
        -- unfold owned. cbn. by rewrite union_empty_r_L.
        -- right. split; [lia|done].
  - apply tracks_ret. cbn. repeat split; done.
Qed.

Lemma tracks_cmd_exec E X dev cmd :
  tracks X (zbc_sg_cmd_exec E dev cmd)
    (fun r Y l =>
       let a := sg_io E (cdb cmd) (out_bufsz cmd) in
       Y = X /\ l = [cdb cmd] /\ r.1 = io_status a /\
       owned r.2 = owned cmd /\ cdb r.2 = cdb cmd /\
       (r.1 ≠ 0 -> r.2 = cmd) /\
       (r.1 = 0 ->
        io_hdr_resid r.2 = io_resid a /\
        out_buf r.2 =
          match io_hdr_dxfer_direction cmd, out_buf cmd with
          | SG_DXFER_FROM_DEV, Some b => Some (Buffer (b_addr b) (io_data a))
          | _, o => o
          end)).
Proof.
  intros w r w' [= <- <-]. eexists X, [cdb cmd].
  split; [by cbn|]. split; [done|].
  destruct cmd as [c ob sz nf dir rs]. unfold owned. cbn.
  destruct (decide (io_status (sg_io E c sz) = 0)) as [Hz|Hnz];
    destruct dir, ob; cbn; repeat split; done.
Qed.

Lemma tracks_cmd_destroy X cmd :
  tracks (X ∪ owned cmd) (zbc_sg_cmd_destroy cmd) (fun _ Y l => Y = X /\ l = []).
Proof.
  unfold zbc_sg_cmd_destroy, owned.
  destruct (out_buf cmd) as [b|]; cbn.
  - destruct (out_buf_needfree cmd).
    + eapply tracks_widen; [|apply tracks_free].
      intros _ Y l [-> ->]. exists X. split; [|done].
      intros x. rewrite elem_of_difference, elem_of_union. tauto.
    + rewrite union_empty_r_L. by apply tracks_ret.
  - assert (Hown : (if out_buf_needfree cmd then (∅ : gset nat) else ∅) = ∅)
      by (by destruct (out_buf_needfree cmd)).
    rewrite Hown, union_empty_r_L. by apply tracks_ret.
Qed.

Lemma owned_subseteq cmd : owned cmd ⊆ buf_addrs (out_buf cmd).
Proof. unfold owned. destruct (out_buf_needfree cmd); set_solver. Qed.

Lemma owned_set_out_buf_None cmd : owned (set_out_buf None cmd) = ∅.
Proof. unfold owned. cbn. by destruct (out_buf_needfree cmd). Qed.

(** ** Identify *)

Lemma tracks_inquiry K E X dev pbuf t :
  tracks X (zbc_scsi_inquiry K E dev pbuf t)
    (fun r Y l =>
       let len := ZBC_SG_INQUIRY_REPLY_LEN K in
       let data := io_data (inquiry_answer K E) in
       (r.1.1 ≠ 0 ->
        r.1.2 = pbuf /\ r.2 = t /\ Y = X /\
        ((l = [] /\ r.1.1 = sg_init_status E ZBC_SG_INQUIRY len) \/
         (l = [inquiry_cdb K] /\ sg_init_status E ZBC_SG_INQUIRY len = 0 /\
          r.1.1 = io_status (inquiry_answer K E)))) /\
       (r.1.1 = 0 ->
        Y = X ∪ buf_addrs r.1.2 /\ l = [inquiry_cdb K] /\
        sg_init_status E ZBC_SG_INQUIRY len = 0 /\
        io_status (inquiry_answer K E) = 0 /\
        ((len <= 0 /\ r.1.2 = None) \/
         (0 < len /\ exists a, r.1.2 = Some (Buffer a data))) /\
        r.2 = (fun _ => peripheral_type data) <$> t)).
Proof.
  unfold zbc_scsi_inquiry.
  eapply tracks_bind; [apply tracks_cmd_init|].
  intros [ret cmd] Y l (-> & Hret & Hfail & Hok). cbn [fst snd] in *.
  case_decide as Hnz.
  { apply tracks_ret. cbn. split; [|done]. intros _. rewrite Hfail by done. tauto. }
  clear Hfail.
  assert (ret = 0) as -> by (destruct (decide (ret = 0)); [done|contradiction]).
  destruct (Hok eq_refl) as (-> & Hcdb & Hsz & Hdir & Hbuf). clear Hok Hnz.
  eapply tracks_bind; [apply tracks_cmd_exec|].
  intros [ret' cmd'] Y' l' (-> & -> & Hret' & Hown & Hcdb' & Hne & Heq).
  cbn [fst snd cdb_set set_cdb cdb out_bufsz out_buf io_hdr_dxfer_direction] in *.
  rewrite Hcdb, Hsz in Hret'. fold (inquiry_cdb K) in Hret'.
  fold (inquiry_answer K E) in Hret'.
  rewrite Hcdb, Hsz, Hdir in Heq. fold (inquiry_cdb K) in Heq.
  fold (inquiry_answer K E) in Heq.
  rewrite Hcdb. fold (inquiry_cdb K).
  assert (Hown' : owned cmd' = owned cmd) by (rewrite Hown; reflexivity).
  clear Hown.
  destruct (decide (ret' = 0)) as [->|Hnz].
  - destruct (Heq eq_refl) as [_ Hbuf']. clear Heq Hne.
    assert (Hshape :
      (ZBC_SG_INQUIRY_REPLY_LEN K <= 0 /\ out_buf cmd' = None) \/
      (0 < ZBC_SG_INQUIRY_REPLY_LEN K /\
       exists a, out_buf cmd' = Some (Buffer a (io_data (inquiry_answer K E))))).
    { destruct Hbuf as [(Hpos & _ & [b Hb])|[Hle Hnone]].
      - right. split; [done|]. rewrite Hb in Hbuf'. eauto.
      - left. split; [done|]. by rewrite Hnone in Hbuf'. }
    assert (Hfinish : forall t' : option Z,
      tracks (X ∪ owned cmd)
        (zbc_sg_cmd_destroy (set_out_buf None cmd') ≫=
           fun _ => mret (0, out_buf cmd', t'))
        (fun b Z l2 =>
           Z = X ∪ buf_addrs (out_buf cmd') /\ l2 = [] /\ b = (0, out_buf cmd', t'))).
    { intros t'. eapply tracks_bind.
      - eapply tracks_pre; [|apply (tracks_cmd_destroy (X ∪ owned cmd))].
        apply union_subseteq_l.
      - intros _ Z l2 [-> ->].
        eapply (tracks_widen _ _
                  (fun b Z l => Z = X ∪ owned cmd /\ l = [] /\
                                b = (0, out_buf cmd', t')));
          [|by apply tracks_ret].
        intros b Z l2 (-> & -> & ->). exists (X ∪ buf_addrs (out_buf cmd')).
        split; [|done]. rewrite <- Hown'.
        apply union_mono_l, owned_subseteq. }
    destruct t as [d|].
    + eapply (tracks_bind _ _ _
               (fun r Z l2 =>
                  Z = X ∪ owned cmd /\ l2 = [] /\
                  r = (out_buf cmd',
                       Some (peripheral_type (io_data (inquiry_answer K E))),
                       set_out_buf None cmd') /\
                  0 < ZBC_SG_INQUIRY_REPLY_LEN K)).
      { eapply (tracks_bind _ _ _
                 (fun t' Z l2 =>
                    Z = X ∪ owned cmd /\ l2 = [] /\
                    t' = Some (peripheral_type (io_data (inquiry_answer K E))) /\
                    0 < ZBC_SG_INQUIRY_REPLY_LEN K)).
        - eapply tracks_bind; [apply tracks_deref|].
          intros data Z l2 (-> & -> & b & Hb & ->).
          apply tracks_ret. cbn.
          destruct Hshape as [[_ Hnone]|[Hpos [a Ha]]]; [congruence|].
          rewrite Ha in Hb. injection Hb as <-. cbn.
          rewrite s32_id
            by (pose proof (peripheral_type_range (io_data (inquiry_answer K E))) as Hr;
                unfold peripheral_type in Hr; lia).
          done.
        - intros t' Z l2 (-> & -> & -> & Hpos). by apply tracks_ret. }
      intros r Z l2 (-> & -> & -> & Hpos). cbv beta iota.
      eapply tracks_post; [|apply Hfinish].
      intros b Z l2 (-> & -> & ->). cbn. split; [done|]. intros _.
      repeat split; done.
    + eapply (tracks_bind _ _ _
               (fun r Z l2 =>
                  Z = X ∪ owned cmd /\ l2 = [] /\
                  r = (out_buf cmd', None, set_out_buf None cmd'))).
      { eapply (tracks_bind _ _ _
                 (fun t' Z l2 => Z = X ∪ owned cmd /\ l2 = [] /\ t' = None));
          [by apply tracks_ret|].
        intros t' Z l2 (-> & -> & ->). by apply tracks_ret. }
      intros r Z l2 (-> & -> & ->). cbv beta iota.
      eapply tracks_post; [|apply Hfinish].
      intros b Z l2 (-> & -> & ->). cbn. split; [done|]. intros _.
      repeat split; done.
  - eapply (tracks_bind _ _ _
             (fun r Z l2 => Z = X ∪ owned cmd /\ l2 = [] /\ r = (pbuf, t, cmd')));
      [by apply tracks_ret|].
    intros r Z l2 (-> & -> & ->). cbv beta iota.
    eapply tracks_bind.
    + rewrite <- Hown'. apply tracks_cmd_destroy.
    + intros _ Z l2 [-> ->]. apply tracks_ret. cbn.
      split; [|done]. intros _. repeat split; try done. right. by rewrite Hret'.
Qed.

Lemma logical_per_physical_values b :
  logical_per_physical b ≠ 0 ->
  logical_per_physical b = 1 \/ logical_per_physical b = 2 \/
  logical_per_physical b = 4 \/ logical_per_physical b = 8.
Proof.
  intros Hnz. destruct (decide (4 <= b)) as [Hb|Hb].
  { by rewrite logical_per_physical_large in Hnz. }
  destruct (decide (0 <= b)) as [Hb0|Hb0].
  - assert (Hc : b = 0 \/ b = 1 \/ b = 2 \/ b = 3) by lia.
    destruct Hc as [-> | [-> | [-> | ->]]]; cbn; tauto.
  - exfalso. apply Hnz. unfold logical_per_physical.
    rewrite Z.shiftl_1_l, Z.pow_neg_r by lia. reflexivity.
Qed.

Lemma tracks_free_owned X b :
  tracks (X ∪ {[b_addr b]}) (free b) (fun _ Y l => Y = X /\ l = []).
Proof.
  eapply tracks_widen; [|apply tracks_free].
  intros _ Y l [-> ->]. exists X. split; [|done].
  intros x. rewrite elem_of_difference, elem_of_union. tauto.
Qed.

(** ** Bring-up on every path *)

Lemma tracks_get_info_capacity K E X dev :
  tracks X (zbc_scsi_get_info_capacity K E dev)
    (fun r Y l =>
       let len := ZBC_SG_READ_CAPACITY_REPLY_LEN K in
       let i := zbd_info dev in
       let i' := zbd_info r.2 in
       Y = X /\ same_identity dev r.2 /\
       zbd_type i' = zbd_type i /\ zbd_model i' = zbd_model i /\
       ((l = [] /\ r.1 = sg_init_status E ZBC_SG_READ_CAPACITY len /\ r.1 ≠ 0 /\
         r.2 = dev) \/
        (l = [capacity_cdb K] /\ sg_init_status E ZBC_SG_READ_CAPACITY len = 0 /\
         ((r.1 = io_status (capacity_answer K E) /\ r.1 ≠ 0 /\ r.2 = dev) \/
          (io_status (capacity_answer K E) = 0 /\ r.1 = - EINVAL /\
           (zbd_logical_block_size i' <= 0 \/ zbd_logical_blocks i' = 0)) \/
          (io_status (capacity_answer K E) = 0 /\ r.1 = 0 /\
           0 < zbd_logical_block_size i' < 2 ^ 32 /\
           0 < zbd_logical_blocks i' < 2 ^ 64 /\
           exists lpp, (lpp = 1 \/ lpp = 2 \/ lpp = 4 \/ lpp = 8) /\
             zbd_physical_block_size i' = u32 (zbd_logical_block_size i' * lpp) /\
             zbd_physical_blocks i' = zbd_logical_blocks i' / lpp))))).
Proof.
  unfold zbc_scsi_get_info_capacity.
  eapply tracks_bind; [apply tracks_cmd_init|].
  intros [ret cmd] Y l (-> & Hret & Hfail & Hok). cbn [fst snd] in *.
  case_decide as Hnz.
  { apply tracks_ret. cbn [fst snd]. rewrite Hfail by done.
    split; [done|]. split; [done|]. split; [done|]. split; [done|]. by left. }
  assert (ret = 0) as -> by (destruct (decide (ret = 0)); [done|contradiction]).
  destruct (Hok eq_refl) as (-> & Hcdb & Hsz & Hdir & Hbuf). clear Hok Hfail Hnz.
  eapply tracks_bind; [apply tracks_cmd_exec|].
  intros [ret' cmd'] Y' l' (-> & -> & Hret' & Hown & Hcdb' & Hne & Heq).
  cbn [fst snd cdb_set set_cdb cdb out_bufsz out_buf io_hdr_dxfer_direction] in *.
  rewrite Hcdb, Hsz in Hret'. fold (capacity_cdb K) in Hret'.
  fold (capacity_answer K E) in Hret'.
  rewrite Hcdb, Hsz, Hdir in Heq. fold (capacity_cdb K) in Heq.
  fold (capacity_answer K E) in Heq.
  rewrite Hcdb. fold (capacity_cdb K).
  assert (Hown' : owned cmd' = owned cmd) by (rewrite Hown; reflexivity).
  clear Hown.
  assert (Hdestroy : forall r : Z * zbc_device_t,
            tracks (X ∪ owned cmd) (zbc_sg_cmd_destroy cmd' ≫= fun _ => mret r)
                   (fun b Z l2 => b = r /\ Z = X /\ l2 = [])).
  { intros r. eapply tracks_bind.
    - rewrite <- Hown'. apply tracks_cmd_destroy.
    - intros _ Z l2 [-> ->]. by apply tracks_ret. }
  case_decide as Hex.
  { eapply tracks_post; [|apply Hdestroy].
    intros r Z l2 (-> & -> & ->). cbn [fst snd app].
    split; [done|]. split; [done|]. split; [done|]. split; [done|].
    right. split; [done|]. split; [done|]. left. by rewrite <- Hret'. }
  assert (ret' = 0) as -> by (destruct (decide (ret' = 0)); [done|contradiction]).
  symmetry in Hret'.
  eapply tracks_bind; [apply tracks_deref|].
  intros data Z l2 (-> & -> & b & Hb & ->). cbv zeta.
  cbn [zbd_info set_info set_logical_block_size set_logical_blocks
       zbd_logical_block_size zbd_logical_blocks].
  pose proof (u32_range (zbc_sg_cmd_get_int32 (b_data b) 8)) as Hlbs.
  pose proof (u64_range (zbc_sg_cmd_get_int64 (b_data b) 0 + 1)) as Hblk.
  case_decide as Hl.
  { eapply tracks_post; [|apply Hdestroy].
    intros r Z l2 (-> & -> & ->). cbn [fst snd app].
    split; [done|]. split; [done|]. split; [done|]. split; [done|].
    right. split; [done|]. split; [done|]. right. left.
    split; [done|]. split; [done|]. by left. }
  case_decide as Hb0.
  { eapply tracks_post; [|apply Hdestroy].
    intros r Z l2 (-> & -> & ->). cbn [fst snd app].
    split; [done|]. split; [done|]. split; [done|]. split; [done|].
    right. split; [done|]. split; [done|]. right. left.
    split; [done|]. split; [done|]. by right. }
  eapply tracks_bind; [apply tracks_c_div|].
  intros pb Z l2 (-> & -> & Hlpp & ->).
  pose proof (logical_per_physical_range (byte_at (b_data b) 13)) as Hr.
  rewrite (u64_id (logical_per_physical _)) in * by lia.
  eapply tracks_post; [|apply Hdestroy].
    intros r Z l2 (-> & -> & ->). cbn [fst snd app].
  split; [done|]. split; [done|]. split; [done|]. split; [done|].
  right. split; [done|]. split; [done|]. right. right.
  split; [done|]. split; [done|].
  cbn [zbd_info set_info set_physical_blocks set_physical_block_size
       set_logical_block_size set_logical_blocks zbd_logical_block_size
       zbd_logical_blocks zbd_physical_block_size zbd_physical_blocks].
  split; [lia|]. split; [lia|].
  exists (logical_per_physical (byte_at (b_data b) 13)).
  split; [by apply logical_per_physical_values|done].
Qed.

Lemma tracks_get_info K E X dev :
  tracks X (zbc_scsi_get_info K E dev)
    (fun r Y l =>
       let data := io_data (inquiry_answer K E) in
       let t := peripheral_type data in
       let init := sg_init_status E ZBC_SG_INQUIRY (ZBC_SG_INQUIRY_REPLY_LEN K) in
       let st := io_status (inquiry_answer K E) in
       let dev1 := set_info (set_type ZBC_DT_SCSI) dev in
       Y = X /\ same_identity dev r.2 /\
       ((l = [] /\ init ≠ 0 /\ r = (init, dev)) \/
        (l = [inquiry_cdb K] /\ init = 0 /\ st ≠ 0 /\ r = (st, dev)) \/
        (l = [inquiry_cdb K] /\ inquiry_succeeds K E /\ vendor_is_ATA data /\
         r = (- ENOSYS, dev)) \/
        (l = [inquiry_cdb K] /\ inquiry_succeeds K E /\ ¬ vendor_is_ATA data /\
         t ≠ ZBC_DEV_TYPE_HOST_MANAGED K /\
         r = (if decide (t = ZBC_DEV_TYPE_HOST_AWARE K) then - ENOSYS else - ENXIO,
              dev1)) \/
        ((l = [inquiry_cdb K] \/ l = [inquiry_cdb K; capacity_cdb K]) /\
         inquiry_succeeds K E /\ ¬ vendor_is_ATA data /\
         t = ZBC_DEV_TYPE_HOST_MANAGED K /\
         zbd_type (zbd_info r.2) = ZBC_DT_SCSI /\
         zbd_model (zbd_info r.2) = ZBC_DM_HOST_MANAGED /\
         (r.1 = 0 ->
          l = [inquiry_cdb K; capacity_cdb K] /\ valid_geometry (zbd_info r.2))))).
Proof.
  unfold zbc_scsi_get_info.
  eapply tracks_bind; [apply tracks_inquiry|].
  intros [[ret buf] t] Y l [Hfail Hok]. cbn [fst snd] in *. cbv zeta in Hfail, Hok.
  case_decide as Hnz.
  { destruct (Hfail Hnz) as (-> & -> & -> & Hl). apply tracks_ret.
    cbn [fst snd]. split; [done|]. split; [done|].
    destruct Hl as [[-> ->]|(-> & Hi & ->)].
    - left. done.
    - right. left. done. }
  assert (ret = 0) as -> by (destruct (decide (ret = 0)); [done|contradiction]).
  destruct (Hok eq_refl) as (-> & -> & Hinit & Hst & Hbuf & Ht). clear Hok Hfail Hnz.
  cbn in Ht. subst t.
  eapply tracks_bind; [apply tracks_deref|].
  intros data Z l2 (-> & -> & b & -> & ->).
  destruct Hbuf as [[_ [=]]|[Hpos [a [= ->]]]].
  cbn [b_data buf_addrs from_option b_addr].
  assert (Hinq : inquiry_succeeds K E) by done.
  assert (Hfree : forall (B : Type) (k : M B)
              (Q : B -> gset nat -> list (list byte) -> Prop),
            tracks X k Q ->
            tracks (X ∪ {[a]})
              (from_option free (mret tt)
                 (Some (Buffer a (io_data (inquiry_answer K E)))) ≫= fun _ => k) Q).
  { intros B k Q Hk. eapply tracks_bind.
    - apply (tracks_free_owned X (Buffer a (io_data (inquiry_answer K E)))).
    - intros _ Z l2 [-> ->]. exact Hk. }
  case_decide as Hata.
  { apply strncmp_ATA in Hata. apply Hfree. apply tracks_ret.
    cbn [fst snd app]. split; [done|]. split; [done|].
    right. right. left. done. }
  rewrite strncmp_ATA in Hata.
  apply Hfree. cbv zeta.
  case_decide as Hhm.
  - injection Hhm as Hhm.
    eapply tracks_post; [|apply tracks_get_info_capacity].
    intros [ret dev'] Z l2 (-> & Hid & Hty & Hmo & Hpath). cbn [fst snd app] in *.
    cbv zeta in Hpath. cbn [fst snd] in Hpath.
    split; [done|]. split; [exact Hid|].
    right. right. right. right.
    split.
    { destruct Hpath as [(-> & _)|(-> & _)]; [by left | by right]. }
    split; [done|]. split; [done|]. split; [done|].
    split; [by rewrite Hty|]. split; [by rewrite Hmo|].
    intros ->.
    destruct Hpath as [(_ & _ & Hne & _)|(-> & _ & Hp)]; [done|].
    split; [done|].
    destruct Hp as [(_ & Hne & _)|[(_ & Hne & _)|(_ & _ & Hl & Hb & Hlpp)]];
      [done|by cbv in Hne|].
    unfold valid_geometry. rewrite Hty, Hmo. done.
  - assert (Hne : peripheral_type (io_data (inquiry_answer K E))
                  ≠ ZBC_DEV_TYPE_HOST_MANAGED K) by congruence.
    assert (Hr : forall c : Z,
      tracks X (mret (c, set_info (set_type ZBC_DT_SCSI) dev))
        (fun r Z l2 => r = (c, set_info (set_type ZBC_DT_SCSI) dev) /\ Z = X /\ l2 = []))
      by (intros c; by apply tracks_ret).
    case_decide as Hha.
    + injection Hha as Hha. eapply tracks_post; [|apply Hr].
      intros r Z l2 (-> & -> & ->). cbn [fst snd app].
      split; [done|]. split; [done|]. right. right. right. left.
      by rewrite decide_True.
    + eapply tracks_post; [|apply Hr].
      intros r Z l2 (-> & -> & ->). cbn [fst snd app].
      split; [done|]. split; [done|]. right. right. right. left.
      rewrite decide_False by congruence. done.
Qed.

Lemma tracks_run {A : Type} (m : M A)
    (Q : A -> gset nat -> list (list byte) -> Prop) w a w' :
  tracks ∅ m Q -> m w = Ok a w' ->
  exists Y l,
    (Y = ∅ -> w_heap w' ⊆ w_heap w) /\ w_sent w' = w_sent w ++ l /\ Q a Y l.
Proof.
  intros Hm Hr. destruct (Hm _ _ _ Hr) as (Y & l & Hheap & Hsent & HQ).
  exists Y, l. split; [|done]. intros ->.
  specialize (Hheap (w_heap w)). rewrite union_empty_r_L in Hheap. by apply Hheap.
Qed.

Section BringUpPaths.

Context (K : zbc_consts) (E : env).

(** X1.  When [zbc_scsi_inquiry] returns an error, it is the status of
    the context creation, with nothing sent, or that of the exchange,
    after the one INQUIRY; the caller's buffer pointer and device type
    are left as they were and no buffer stays allocated. *)
Theorem inquiry_failure_is_clean dev pbuf t w ret pbuf' t' w' :
  zbc_scsi_inquiry K E dev pbuf t w = Ok (ret, pbuf', t') w' ->
  ret ≠ 0 ->
  pbuf' = pbuf /\ t' = t /\ (w_heap w' ⊆ w_heap w) /\
  ((ret = sg_init_status E ZBC_SG_INQUIRY (ZBC_SG_INQUIRY_REPLY_LEN K) /\
    w_sent w' = w_sent w) \/
   (sg_init_status E ZBC_SG_INQUIRY (ZBC_SG_INQUIRY_REPLY_LEN K) = 0 /\
    ret = io_status (inquiry_answer K E) /\
    w_sent w' = w_sent w ++ [inquiry_cdb K])).
Proof.
  intros Hrun Hnz.
  destruct (tracks_run _ _ _ _ _ (tracks_inquiry K E ∅ dev pbuf t) Hrun)
    as (Y & l & Hheap & Hsent & Hfail & _).
  cbn [fst snd] in Hfail. destruct (Hfail Hnz) as (-> & -> & -> & Hl).
  split; [done|]. split; [done|]. split; [by apply Hheap|].
  destruct Hl as [[-> ->]|(-> & Hi & ->)].
  - left. by rewrite Hsent, app_nil_r.
  - right. done.
Qed.

Lemma inquiry_spec_null dev pbuf w :
  inquiry_succeeds K E ->
  zbc_scsi_inquiry K E dev pbuf None w =
    Ok (0, Some (Buffer (w_next w) (io_data (inquiry_answer K E))), None)
       (World ({[w_next w]} ∪ w_heap w) (S (w_next w)) (w_fds w) (w_devs w)
              (w_sent w ++ [inquiry_cdb K])).
Proof.
  intros (Hlen & Hinit & Hst). unfold zbc_scsi_inquiry.
  step_with ltac:(by apply cmd_init_alloc).
  rewrite decide_False by (intros H; by apply H).
  step_with ltac:(by apply (cmd_exec_ok E _ _ _ (inquiry_answer K E))).
  rewrite decide_True by done.
  reflexivity.
Qed.

(** X2.  When the Identify exchange goes through, [zbc_scsi_inquiry]
    returns 0 and hands the reply buffer over to its caller: the buffer
    holds the device's reply and is still allocated on return.  The
    device type stored is the low five bits of byte 0 of the reply, a
    value from 0 to 31; with a null device-type pointer nothing is
    stored, and the buffer is handed over all the same. *)
Theorem inquiry_hands_over_reply dev pbuf t w :
  inquiry_succeeds K E ->
  let data := io_data (inquiry_answer K E) in
  exists b w',
    zbc_scsi_inquiry K E dev pbuf t w
      = Ok (0, Some b, (fun _ => peripheral_type data) <$> t) w' /\
    b_data b = data /\
    b_addr b ∈ w_heap w' /\
    w_heap w' = {[b_addr b]} ∪ w_heap w /\
    w_sent w' = w_sent w ++ [inquiry_cdb K] /\
    0 <= peripheral_type data < 32.
Proof.
  intros Hinq data.
  exists (Buffer (w_next w) data).
  eexists. split.
  { destruct t as [d|]; [by apply inquiry_spec | by apply inquiry_spec_null]. }
  cbn. split; [done|]. split; [apply elem_of_union_l; by apply elem_of_singleton|].
  split; [done|]. split; [done|]. apply peripheral_type_range.
Qed.

(** X3.  Whatever [zbc_scsi_get_info] returns, it leaves no buffer
    allocated that was not allocated before, it leaves the open
    descriptors and the allocated device structures as they were, and it
    keeps the address, file name, descriptor and flags of the device. *)
Theorem get_info_releases_buffers dev w ret dev' w' :
  zbc_scsi_get_info K E dev w = Ok (ret, dev') w' ->
  (w_heap w' ⊆ w_heap w) /\ w_fds w' = w_fds w /\ w_devs w' = w_devs w /\
  same_identity dev dev'.
Proof.
  intros Hrun.
  destruct (tracks_run _ _ _ _ _ (tracks_get_info K E ∅ dev) Hrun)
    as (Y & l & Hheap & _ & -> & Hid & _).
  destruct (keeps_get_info K E dev _ _ _ Hrun) as (Hfds & Hdevs & _).
  split; [by apply Hheap|]. done.
Qed.

(** X4.  [zbc_scsi_get_info] sends at most two commands, INQUIRY first
    and READ CAPACITY 16 second, and it sends READ CAPACITY 16 only to a
    device whose Identify reply is not from an ATA device and carries
    the host-managed device type. *)
Theorem get_info_command_order dev w r w' :
  zbc_scsi_get_info K E dev w = Ok r w' ->
  let data := io_data (inquiry_answer K E) in
  w_sent w' = w_sent w \/
  w_sent w' = w_sent w ++ [inquiry_cdb K] \/
  (w_sent w' = w_sent w ++ [inquiry_cdb K; capacity_cdb K] /\
   inquiry_succeeds K E /\ ¬ vendor_is_ATA data /\
   peripheral_type data = ZBC_DEV_TYPE_HOST_MANAGED K).
Proof.
  intros Hrun data.
  destruct (tracks_run _ _ _ _ _ (tracks_get_info K E ∅ dev) Hrun)
    as (Y & l & _ & Hsent & _ & _ & Hpath).
  cbv zeta in Hpath. rewrite Hsent.
  destruct Hpath as [(-> & _)|[(-> & _)|[(-> & _)|[(-> & _)|
    (Hl & Hinq & Hata & Ht & _)]]]].
  - left. by rewrite app_nil_r.
  - right. by left.
  - right. by left.
  - right. by left.
  - destruct Hl as [->| ->]; [right; by left|].
    right. right. done.
Qed.

(** X5.  When [zbc_scsi_get_info] returns 0, both commands were sent and
    the device holds a valid geometry: SCSI, host-managed, a logical
    block size and a logical block count that are positive, and a
    physical geometry derived with a factor of 1, 2, 4 or 8. *)
Theorem get_info_success_geometry dev w dev' w' :
  zbc_scsi_get_info K E dev w = Ok (0, dev') w' ->
  valid_geometry (zbd_info dev') /\
  w_sent w' = w_sent w ++ [inquiry_cdb K; capacity_cdb K].
Proof.
  intros Hrun.
  destruct (tracks_run _ _ _ _ _ (tracks_get_info K E ∅ dev) Hrun)
    as (Y & l & _ & Hsent & _ & _ & Hpath).
  cbv zeta in Hpath. cbn [fst snd] in Hpath.
  destruct Hpath as [(_ & Hne & Hr)|[(_ & _ & Hne & Hr)|[(_ & _ & _ & Hr)|
    [(_ & _ & _ & _ & Hr)|(_ & _ & _ & _ & _ & _ & Hok)]]]].
  - injection Hr as Hz _. congruence.
  - injection Hr as Hz _. congruence.
  - injection Hr as Hz _. by cbv in Hz.
  - exfalso. injection Hr as Hz _. case_decide; by cbv in Hz.
  - destruct (Hok eq_refl) as [-> Hgeo]. by rewrite Hsent.
Qed.

(** X6.  A failure of the Identify step is what [zbc_scsi_get_info]
    returns, with the device left untouched: the status of the context
    creation if that fails, the status of the exchange otherwise. *)
Theorem get_info_inquiry_failure dev w r w' :
  zbc_scsi_get_info K E dev w = Ok r w' ->
  let init := sg_init_status E ZBC_SG_INQUIRY (ZBC_SG_INQUIRY_REPLY_LEN K) in
  let st := io_status (inquiry_answer K E) in
  (init ≠ 0 -> r = (init, dev) /\ w_sent w' = w_sent w) /\
  (init = 0 -> st ≠ 0 -> r = (st, dev) /\ w_sent w' = w_sent w ++ [inquiry_cdb K]).
Proof.
  intros Hrun init st.
  destruct (tracks_run _ _ _ _ _ (tracks_get_info K E ∅ dev) Hrun)
    as (Y & l & _ & Hsent & _ & _ & Hpath).
  cbv zeta in Hpath. fold init st in Hpath. rewrite Hsent.
  split.
  - intros Hi.
    destruct Hpath as [(-> & _ & ->)|[(_ & ? & _)|[(_ & (_ & ? & _) & _)|
      [(_ & (_ & ? & _) & _)|(_ & (_ & ? & _) & _)]]]]; try done.
    by rewrite app_nil_r.
  - intros Hi Hs.
    destruct Hpath as [(_ & ? & _)|[(-> & _ & _ & ->)|[(_ & (_ & _ & ?) & _)|
      [(_ & (_ & _ & ?) & _)|(_ & (_ & _ & ?) & _)]]]]; done.
Qed.

End BringUpPaths.

(** ** Opening a device, on every path *)

Section OpenPaths.

Context (K : zbc_consts) (E : env).

Lemma tracks_sys_open X filename flags :
  tracks X (sys_open E filename flags) (fun _ Y l => Y = X /\ l = []).
Proof.
  intros w a w'. unfold sys_open. destruct (os_open E filename flags) as [fd e].
  intros [= <- <-]. exists X, []. split; [|split; [|done]].
  - by case_decide.
  - rewrite app_nil_r. by case_decide.
Qed.

Lemma tracks_sys_close X fd :
  tracks X (sys_close fd) (fun _ Y l => Y = X /\ l = []).
Proof.
  intros w a w' [= <- <-]. exists X, []. split; [done|].
  split; [by rewrite app_nil_r|done].
Qed.

Lemma tracks_dev_alloc X filename flags :
  tracks X (zbc_dev_alloc E filename flags)
    (fun r Y l => Y = X /\ l = [] /\
       from_option (fun dev => zbd_filename dev = filename /\ zbd_fd dev = 0) True r).
Proof.
  intros w a w'. unfold zbc_dev_alloc. destruct (dev_alloc_ok E).
  - intros [= <- <-]. exists X, []. split; [done|].
    split; [by rewrite app_nil_r|done].
  - intros [= <- <-]. exists X, []. split; [done|].
    split; [by rewrite app_nil_r|done].
Qed.

Lemma tracks_dev_free X dev :
  tracks X (zbc_dev_free dev) (fun _ Y l => Y = X /\ l = []).
Proof.
  intros w a w' [= <- <-]. exists X, []. split; [done|].
  split; [by rewrite app_nil_r|done].
Qed.

Lemma tracks_open X filename flags pdev :
  tracks X (zbc_scsi_open K E filename flags pdev)
    (fun r Y l =>
       Y = X /\
       (l = [] \/ l = [inquiry_cdb K] \/ l = [inquiry_cdb K; capacity_cdb K]) /\
       (r.2 = pdev \/
        r.1 = 0 /\ l = [inquiry_cdb K; capacity_cdb K] /\
        exists dev, r.2 = Some dev /\ valid_geometry (zbd_info dev) /\
          zbd_filename dev = filename /\
          zbd_flags dev = Z.lor flags O_DIRECT)).
Proof.
  unfold zbc_scsi_open. cbv zeta.
  eapply tracks_bind; [apply tracks_sys_open|].
  intros [fd errno] Y l [-> ->].
  case_decide; [apply tracks_ret; split; [done|split; by left]|].
  eapply tracks_bind; [by apply (tracks_ret X (os_fstat E fd) (fun _ Y l => Y = X /\ l = []))|].
  intros [[r e] mode] Y l [-> ->].
  assert (Hclose : forall c : Z * option zbc_device_t,
    tracks X (sys_close fd ≫= fun _ => mret c)
      (fun r Y l => Y = X /\ (l = [] \/ l = [inquiry_cdb K]
                              \/ l = [inquiry_cdb K; capacity_cdb K]) /\
                    r = c)).
  { intros c. eapply tracks_bind; [apply tracks_sys_close|].
    intros _ Y l [-> ->]. apply tracks_ret. split; [done|]. split; [by left|done]. }
  assert (Hfail : forall c : Z,
    tracks X (sys_close fd ≫= fun _ => mret (c, pdev))
      (fun r Y l =>
         Y = X /\
         (l = [] \/ l = [inquiry_cdb K] \/ l = [inquiry_cdb K; capacity_cdb K]) /\
         (r.2 = pdev \/
          r.1 = 0 /\ l = [inquiry_cdb K; capacity_cdb K] /\
          exists dev, r.2 = Some dev /\ valid_geometry (zbd_info dev) /\
            zbd_filename dev = filename /\
            zbd_flags dev = Z.lor flags O_DIRECT))).
  { intros c. eapply tracks_post; [|apply Hclose].
    intros r0 Y l (-> & Hl & ->). split; [done|]. split; [done|]. by left. }
  case_decide; [apply Hfail|].
  destruct (S_ISCHR mode); cbn [negb]; [|apply Hfail].
  eapply tracks_bind; [apply tracks_dev_alloc|].
  intros odev Y l (-> & -> & Hodev).
  destruct odev as [dev|]; [|apply Hfail].
  destruct Hodev as (Hname & _).
  eapply tracks_bind; [apply tracks_get_info|].
  intros [ret dev'] Y l (-> & Hid & Hpath). cbv zeta in Hpath.
  cbn [fst snd] in Hid, Hpath.
  assert (Hl : l = [] \/ l = [inquiry_cdb K] \/ l = [inquiry_cdb K; capacity_cdb K]).
  { destruct Hpath as [(-> & _)|[(-> & _)|[(-> & _)|[(-> & _)|([-> | ->] & _)]]]];
      tauto. }
  assert (Hgeo : ret = 0 ->
            l = [inquiry_cdb K; capacity_cdb K] /\ valid_geometry (zbd_info dev')).
  { intros ->.
    destruct Hpath as [(_ & Hne & Hr)|[(_ & _ & Hne & Hr)|[(_ & _ & _ & Hr)|
      [(_ & _ & _ & _ & Hr)|(_ & _ & _ & _ & _ & _ & Hok)]]]].
    - injection Hr as Hz _. congruence.
    - injection Hr as Hz _. congruence.
    - injection Hr as Hz _. by cbv in Hz.
    - exfalso. injection Hr as Hz _. case_decide; by cbv in Hz.
    - by apply Hok. }
  clear Hpath.
  case_decide as Hret.
  - eapply tracks_bind; [apply tracks_dev_free|]. intros _ Y l2 [-> ->].
    eapply tracks_bind; [apply tracks_sys_close|]. intros _ Y l2 [-> ->].
    apply tracks_ret. cbn [app]. rewrite app_nil_r.
    split; [done|]. split; [done|]. by left.
  - assert (ret = 0) as -> by (destruct (decide (ret = 0)); [done|contradiction]).
    destruct (Hgeo eq_refl) as [-> Hvg].
    apply tracks_ret. cbn [app fst snd].
    split; [done|]. split; [by right; right|]. right.
    split; [done|]. split; [done|]. exists dev'. split; [done|]. split; [done|].
    destruct Hid as (_ & Hn & _ & Hfl). cbn in Hn, Hfl. rewrite Hn, Hfl.
    split; [exact Hname|done].
Qed.

(** X7.  Whatever [zbc_scsi_open] returns, it leaves no buffer allocated
    that was not allocated before, and it has sent at most INQUIRY and
    READ CAPACITY 16, in this order. *)
Theorem open_releases_buffers filename flags pdev w r w' :
  zbc_scsi_open K E filename flags pdev w = Ok r w' ->
  (w_heap w' ⊆ w_heap w) /\
  (w_sent w' = w_sent w \/ w_sent w' = w_sent w ++ [inquiry_cdb K] \/
   w_sent w' = w_sent w ++ [inquiry_cdb K; capacity_cdb K]).
Proof.
  intros Hrun.
  destruct (tracks_run _ _ _ _ _ (tracks_open ∅ filename flags pdev) Hrun)
    as (Y & l & Hheap & Hsent & -> & Hl & _).
  split; [by apply Hheap|]. rewrite Hsent.
  destruct Hl as [-> | [-> | ->]]; [left; by rewrite app_nil_r|tauto|tauto].
Qed.

(** X8.  [zbc_scsi_open] rejects a device before any command is sent when
    the file cannot be opened ([-errno], nothing else happens), when
    [fstat] fails ([-errno]), when the file is not a character device
    ([-ENXIO]) and when no device structure can be allocated
    ([-ENOMEM]); in the last three cases the descriptor is closed
    again. *)
Theorem open_early_failure filename flags pdev w fd errno :
  os_open E filename (Z.lor flags O_DIRECT) = (fd, errno) ->
  (fd < 0 -> zbc_scsi_open K E filename flags pdev w = Ok (- errno, pdev) w) /\
  (0 <= fd ->
   forall r e mode, os_fstat E fd = (r, e, mode) ->
   let w1 := upd_fds (fun s => ({[fd]} ∪ s) ∖ {[fd]}) w in
   (r ≠ 0 -> zbc_scsi_open K E filename flags pdev w = Ok (- e, pdev) w1) /\
   (r = 0 -> S_ISCHR mode = false ->
    zbc_scsi_open K E filename flags pdev w = Ok (- ENXIO, pdev) w1) /\
   (r = 0 -> S_ISCHR mode = true -> dev_alloc_ok E = false ->
    zbc_scsi_open K E filename flags pdev w = Ok (- ENOMEM, pdev) w1) /\
   (fd ∉ w_fds w1) /\ w_sent w1 = w_sent w /\ w_heap w1 = w_heap w /\
   w_devs w1 = w_devs w).
Proof.
  intros Hopen. split.
  - intros Hfd. unfold zbc_scsi_open. cbv zeta.
    erewrite bind_Ok; cycle 1.
    { unfold sys_open. rewrite Hopen. rewrite decide_False by lia. reflexivity. }
    cbv beta iota. by rewrite decide_True.
  - intros Hfd r e mode Hstat w1.
    assert (Hso : sys_open E filename (Z.lor flags O_DIRECT) w =
                  Ok (fd, errno) (upd_fds (fun s => {[fd]} ∪ s) w)).
    { unfold sys_open. rewrite Hopen. by rewrite decide_True. }
    assert (Hprefix :
      zbc_scsi_open K E filename flags pdev w =
      (if decide (r ≠ 0) then sys_close fd ≫= fun _ => mret (- e, pdev)
       else if negb (S_ISCHR mode) then sys_close fd ≫= fun _ => mret (- ENXIO, pdev)
       else zbc_dev_alloc E filename (Z.lor flags O_DIRECT) ≫= fun odev =>
            match odev with
            | None => sys_close fd ≫= fun _ => mret (- ENOMEM, pdev)
            | Some dev =>
              zbc_scsi_get_info K E (set_flags (Z.lor flags O_DIRECT) (set_fd fd dev))
                ≫= fun '(ret, dev) =>
                     if decide (ret ≠ 0) then
                       zbc_dev_free dev ≫= fun _ =>
                       sys_close fd ≫= fun _ => mret (ret, pdev)
                     else mret (0, Some dev)
            end)
        (upd_fds (fun s => {[fd]} ∪ s) w)).
    { unfold zbc_scsi_open. cbv zeta.
      erewrite bind_Ok by exact Hso. cbv beta iota.
      rewrite decide_False by lia. unfold sys_fstat. rewrite Hstat.
      by erewrite bind_Ok by reflexivity. }
    rewrite Hprefix. clear Hprefix.
    split; [|split; [|split]].
    + intros Hr. by rewrite decide_True.
    + intros -> Hchr.
      rewrite decide_False by (intros H; by apply H). by rewrite Hchr.
    + intros -> Hchr Halloc.
      rewrite decide_False by (intros H; by apply H). rewrite Hchr. cbn [negb].
      unfold zbc_dev_alloc. rewrite Halloc.
      by erewrite bind_Ok by reflexivity.
    + cbn. split; [|done].
      rewrite elem_of_difference, elem_of_singleton. tauto.
Qed.

(** X9.  When [zbc_scsi_open] returns 0 for a file that [open] and
    [fstat] accept, the file is a character device and the caller gets a
    device that carries the file name, the descriptor and the open flags
    with [O_DIRECT] added, and a valid geometry; the descriptor is open
    and the device structure allocated on return. *)
Theorem open_success_device filename flags pdev w fd errno e mode pdev' w' :
  os_open E filename (Z.lor flags O_DIRECT) = (fd, errno) ->
  0 <= fd ->
  os_fstat E fd = (0, e, mode) ->
  zbc_scsi_open K E filename flags pdev w = Ok (0, pdev') w' ->
  S_ISCHR mode = true /\
  exists dev,
    pdev' = Some dev /\
    zbd_filename dev = filename /\ zbd_fd dev = fd /\
    zbd_flags dev = Z.lor flags O_DIRECT /\
    Z.land (zbd_flags dev) O_DIRECT = O_DIRECT /\
    valid_geometry (zbd_info dev) /\
    fd ∈ w_fds w' /\ zbd_addr dev ∈ w_devs w'.
Proof.
  intros Hopen Hfd Hstat Hrun.
  unfold zbc_scsi_open in Hrun. cbv zeta in Hrun.
  assert (Hso : sys_open E filename (Z.lor flags O_DIRECT) w =
                Ok (fd, errno) (upd_fds (fun s => {[fd]} ∪ s) w)).
  { unfold sys_open. rewrite Hopen. by rewrite decide_True. }
  erewrite bind_Ok in Hrun by exact Hso. cbv beta iota in Hrun.
  rewrite decide_False in Hrun by lia.
  unfold sys_fstat in Hrun. rewrite Hstat in Hrun.
  erewrite bind_Ok in Hrun by reflexivity. cbv beta iota in Hrun.
  rewrite decide_False in Hrun by (intros H; by apply H).
  destruct (S_ISCHR mode); cbn [negb] in Hrun; cycle 1.
  { by inversion Hrun. }
  split; [done|].
  unfold zbc_dev_alloc at 1 in Hrun.
  destruct (dev_alloc_ok E); cycle 1.
  { erewrite bind_Ok in Hrun by reflexivity. by inversion Hrun. }
  erewrite bind_Ok in Hrun by reflexivity. cbv beta iota in Hrun.
  match type of Hrun with
  | (zbc_scsi_get_info K E ?d ≫= _) ?w1 = _ =>
      destruct (zbc_scsi_get_info K E d w1) as [[ret1 dev1] w2|] eqn:Hgi;
      [ pose proof (keeps_get_info K E d _ _ _ Hgi) as (Hfds & Hdevs & Hdev);
        destruct (tracks_run _ _ _ _ _ (tracks_get_info K E ∅ d) Hgi)
          as (Y & l & _ & _ & _ & Hid & Hpath)
      | by rewrite (bind_Trap _ _ _ Hgi) in Hrun ]
  end.
  erewrite bind_Ok in Hrun by exact Hgi. cbv beta iota in Hrun.
  destruct (decide (ret1 ≠ 0)) as [Hr1|Hr1].
  { exfalso. inversion Hrun as [[Hz Hp Hw]]. congruence. }
  assert (ret1 = 0) as -> by (destruct (decide (ret1 = 0)); [done|contradiction]).
  inversion Hrun; subst. clear Hrun.
  assert (Hgeo : valid_geometry (zbd_info dev1)).
  { cbv zeta in Hpath. cbn [fst snd] in Hpath.
    destruct Hpath as [(_ & Hne & Hr)|[(_ & _ & Hne & Hr)|[(_ & _ & _ & Hr)|
      [(_ & _ & _ & _ & Hr)|(_ & _ & _ & _ & _ & _ & Hok)]]]].
    - injection Hr as Hz _. congruence.
    - injection Hr as Hz _. congruence.
    - injection Hr as Hz _. by cbv in Hz.
    - exfalso. injection Hr as Hz _. case_decide; by cbv in Hz.
    - by destruct (Hok eq_refl). }
  destruct Hid as (Ha & Hn & Hf & Hfl). cbn in Ha, Hn, Hf, Hfl.
  exists dev1. split; [done|]. split; [done|]. split; [done|]. split; [done|].
  split.
  { rewrite Hfl. apply Z.bits_inj'. intros n Hn0.
    rewrite Z.land_spec, Z.lor_spec.
    destruct (Z.testbit O_DIRECT n); [by rewrite orb_true_r|by rewrite andb_false_r]. }
  split; [done|]. cbn. rewrite Hfds, Hdevs, Ha. cbn.
  split; [apply elem_of_union_l; by apply elem_of_singleton|].
  apply elem_of_union_l. by apply elem_of_singleton.
Qed.

End OpenPaths.

(** ** Reading and writing, on every path *)

Section ReadWritePaths.

Context (E : env).

Lemma tracks_pread X dev zone buf C ofs :
  tracks X (zbc_scsi_pread E dev zone buf C ofs)
    (fun r Y l =>
       let L := zbd_logical_block_size (zbd_info dev) in
       let S := u64 (C * L) in
       let c := rw_cdb ZBC_SG_READ_CDB_OPCODE zone C ofs in
       let a := sg_io E c S in
       let init := sg_init_status E ZBC_SG_READ S in
       Y = X /\
       ((l = [] /\ init ≠ 0 /\ r = (init, buf)) \/
        (l = [c] /\ init = 0 /\
         ((io_status a ≠ 0 /\ r = (io_status a, buf)) \/
          (io_status a = 0 /\ L ≠ 0 /\
           r = (s32 (u64 (S - io_resid a) / L),
                (fun b => Buffer (b_addr b) (io_data a)) <$> buf)))))).
Proof.
  unfold zbc_scsi_pread. cbv zeta.
  eapply tracks_bind; [apply tracks_cmd_init|].
  intros [ret cmd] Y l (-> & Hret & Hfail & Hok). cbn [fst snd] in *.
  case_decide as Hnz.
  { apply tracks_ret. rewrite Hfail by done. split; [done|]. left.
    rewrite <- Hret. done. }
  assert (ret = 0) as -> by (destruct (decide (ret = 0)); [done|contradiction]).
  destruct (Hok eq_refl) as (-> & Hcdb & Hsz & Hdir & Hbuf). clear Hok Hfail Hnz.
  eapply tracks_bind; [apply tracks_cmd_exec|].
  intros [ret' cmd'] Y' l' (-> & -> & Hret' & Hown & Hcdb' & Hne & Heq).
  cbn [fst snd cdb_set set_cdb cdb out_bufsz out_buf io_hdr_dxfer_direction] in *.
  rewrite Hcdb, Hsz in Hret'. fold (rw_cdb ZBC_SG_READ_CDB_OPCODE zone C ofs) in Hret'.
  rewrite Hcdb, Hsz, Hdir in Heq.
  fold (rw_cdb ZBC_SG_READ_CDB_OPCODE zone C ofs) in Heq.
  rewrite Hcdb. fold (rw_cdb ZBC_SG_READ_CDB_OPCODE zone C ofs).
  assert (Hown' : owned cmd' = owned cmd) by (rewrite Hown; reflexivity).
  clear Hown.
  assert (Hdestroy : forall r : Z * option buffer,
            tracks (X ∪ owned cmd) (zbc_sg_cmd_destroy cmd' ≫= fun _ => mret r)
                   (fun b Z l2 => b = r /\ Z = X /\ l2 = [])).
  { intros r. eapply tracks_bind.
    - rewrite <- Hown'. apply tracks_cmd_destroy.
    - intros _ Z l2 [-> ->]. by apply tracks_ret. }
  destruct (decide (ret' = 0)) as [->|Hnz].
  - destruct (Heq eq_refl) as [Hres Hob]. clear Heq Hne.
    eapply (tracks_bind _ _ _ (fun r Z l2 =>
               Z = X ∪ owned cmd /\ l2 = [] /\
               zbd_logical_block_size (zbd_info dev) ≠ 0 /\
               r = s32 (u64 (u64 (C * zbd_logical_block_size (zbd_info dev))
                             - io_hdr_resid cmd')
                        / zbd_logical_block_size (zbd_info dev)))).
    { eapply tracks_bind; [apply tracks_c_div|].
      intros q Z l2 (-> & -> & HL & ->). by apply tracks_ret. }
    intros r Z l2 (-> & -> & HL & ->).
    eapply tracks_post; [|apply Hdestroy].
    intros r Z l2 (-> & -> & ->). cbn [app]. split; [done|]. right.
    split; [done|]. split; [done|]. right. split; [done|]. split; [done|].
    rewrite Hres. f_equal.
    destruct buf as [b|]; [|done]. destruct Hbuf as [Hb _]. rewrite Hb in Hob.
    by rewrite Hob.
  - eapply (tracks_bind _ _ _ (fun r Z l2 =>
               Z = X ∪ owned cmd /\ l2 = [] /\ r = ret'));
      [by apply tracks_ret|].
    intros r Z l2 (-> & -> & ->).
    eapply tracks_post; [|apply Hdestroy].
    intros r Z l2 (-> & -> & ->). cbn [app]. split; [done|]. right.
    split; [done|]. split; [done|]. left. rewrite <- Hret'. split; [done|].
    f_equal. cbn [out_buf set_cdb cdb_set].
    destruct buf as [b|]; [|done]. rewrite (Hne Hnz).
    cbn [out_buf set_cdb cdb_set]. by destruct Hbuf as [-> _].
Qed.

Lemma tracks_pwrite X dev zone buf C ofs :
  tracks X (zbc_scsi_pwrite E dev zone buf C ofs)
    (fun r Y l =>
       let L := zbd_logical_block_size (zbd_info dev) in
       let S := u64 (C * L) in
       let c := rw_cdb ZBC_SG_WRITE_CDB_OPCODE zone C ofs in
       let a := sg_io E c S in
       let init := sg_init_status E ZBC_SG_WRITE S in
       Y = X /\
       ((l = [] /\ init ≠ 0 /\ r = init) \/
        (l = [c] /\ init = 0 /\
         ((io_status a ≠ 0 /\ r = io_status a) \/
          (io_status a = 0 /\ L ≠ 0 /\ r = s32 (u64 (S - io_resid a) / L)))))).
Proof.
  unfold zbc_scsi_pwrite. cbv zeta.
  eapply tracks_bind; [apply tracks_cmd_init|].
  intros [ret cmd] Y l (-> & Hret & Hfail & Hok). cbn [fst snd] in *.
  case_decide as Hnz.
  { apply tracks_ret. rewrite Hfail by done. split; [done|]. left.
    rewrite <- Hret. done. }
  assert (ret = 0) as -> by (destruct (decide (ret = 0)); [done|contradiction]).
  destruct (Hok eq_refl) as (-> & Hcdb & Hsz & Hdir & Hbuf). clear Hok Hfail Hnz.
  eapply tracks_bind; [apply tracks_cmd_exec|].
  intros [ret' cmd'] Y' l' (-> & -> & Hret' & Hown & Hcdb' & Hne & Heq).
  cbn [fst snd cdb_set set_cdb cdb out_bufsz out_buf io_hdr_dxfer_direction
       set_dxfer_direction] in *.
  rewrite Hcdb, Hsz in Hret'. fold (rw_cdb ZBC_SG_WRITE_CDB_OPCODE zone C ofs) in Hret'.
  rewrite Hcdb, Hsz in Heq.
  fold (rw_cdb ZBC_SG_WRITE_CDB_OPCODE zone C ofs) in Heq.
  rewrite Hcdb. fold (rw_cdb ZBC_SG_WRITE_CDB_OPCODE zone C ofs).
  assert (Hown' : owned cmd' = owned cmd) by (rewrite Hown; reflexivity).
  clear Hown.
  assert (Hdestroy : forall r : Z,
            tracks (X ∪ owned cmd) (zbc_sg_cmd_destroy cmd' ≫= fun _ => mret r)
                   (fun b Z l2 => b = r /\ Z = X /\ l2 = [])).
  { intros r. eapply tracks_bind.
    - rewrite <- Hown'. apply tracks_cmd_destroy.
    - intros _ Z l2 [-> ->]. by apply tracks_ret. }
  destruct (decide (ret' = 0)) as [->|Hnz].
  - destruct (Heq eq_refl) as [Hres Hob]. clear Heq Hne.
    eapply (tracks_bind _ _ _ (fun r Z l2 =>
               Z = X ∪ owned cmd /\ l2 = [] /\
               zbd_logical_block_size (zbd_info dev) ≠ 0 /\
               r = s32 (u64 (u64 (C * zbd_logical_block_size (zbd_info dev))
                             - io_hdr_resid cmd')
                        / zbd_logical_block_size (zbd_info dev)))).
    { eapply tracks_bind; [apply tracks_c_div|].
      intros q Z l2 (-> & -> & HL & ->). by apply tracks_ret. }
    intros r Z l2 (-> & -> & HL & ->).
    eapply tracks_post; [|apply Hdestroy].
    intros r Z l2 (-> & -> & ->). cbn [app]. split; [done|]. right.
    split; [done|]. split; [done|]. right. split; [done|]. split; [done|].
    by rewrite Hres.
  - eapply (tracks_bind _ _ _ (fun r Z l2 =>
               Z = X ∪ owned cmd /\ l2 = [] /\ r = ret'));
      [by apply tracks_ret|].
    intros r Z l2 (-> & -> & ->).
    eapply tracks_post; [|apply Hdestroy].
    intros r Z l2 (-> & -> & ->). cbn [app]. split; [done|]. right.
    split; [done|]. split; [done|]. left. by rewrite <- Hret'.
Qed.

End ReadWritePaths.

(** ** Fields of a CDB *)

Lemma be_field_store_same buf ofs bs :
  (ofs + length bs <= length buf)%nat ->
  be_field (store_bytes buf ofs bs) ofs (length bs) = be_decode (map byte_to_Z bs) 0.
Proof. intros H. unfold be_field. by rewrite map_byte_at_store_bytes. Qed.

Lemma be_field_store_other buf ofs bs o n :
  (o + n <= ofs \/ ofs + length bs <= o)%nat ->
  be_field (store_bytes buf ofs bs) o n = be_field buf o n.
Proof.
  intros H. unfold be_field. f_equal. apply map_ext_in. intros i Hi.
  apply in_seq in Hi. apply byte_at_store_bytes_out. lia.
Qed.

Lemma be_field_insert_other (buf : list byte) (i : nat) b o n :
  (i < o \/ o + n <= i)%nat ->
  be_field (<[i := b]> buf) o n = be_field buf o n.
Proof.
  intros H. unfold be_field. f_equal. apply map_ext_in. intros j Hj.
  apply in_seq in Hj. apply byte_at_insert_ne. lia.
Qed.

Lemma be_decode_zeros bs :
  Forall (fun b => b = 0) bs -> be_decode bs 0 = 0.
Proof. induction 1 as [|b bs -> _ IH]; [done|]. exact IH. Qed.

Lemma byte_at_zero_cdb i : byte_at zero_cdb i = 0.
Proof.
  unfold byte_at, zero_cdb.
  destruct (replicate ZBC_SG_CDB_LENGTH x00 !! i) as [b|] eqn:Hb; [|done].
  apply lookup_replicate in Hb as [-> _]. done.
Qed.

(** A field is zero when every byte of it is. *)
Lemma be_field_zero buf o n :
  (forall i, (o <= i < o + n)%nat -> byte_at buf i = 0) -> be_field buf o n = 0.
Proof.
  intros Hz. unfold be_field. apply be_decode_zeros.
  apply Forall_forall. intros x Hx.
  apply list_elem_of_In, in_map_iff in Hx. destruct Hx as (i & <- & Hi).
  apply in_seq in Hi. apply Hz. lia.
Qed.

Lemma be_field_encode n v :
  be_decode (map byte_to_Z (be_encode n v)) 0 = v mod 256 ^ Z.of_nat n.
Proof. rewrite be_decode_encode. lia. Qed.

(** The layout of the CDB of READ 16 and WRITE 16. *)
Lemma rw_cdb_fields opcode zone C ofs :
  let c := rw_cdb opcode zone C ofs in
  length c = ZBC_SG_CDB_LENGTH /\
  byte_at c 0 = u8 opcode /\ byte_at c 1 = 0x10 /\
  zbc_sg_cmd_get_int64 c 2 = u64 (zbz_start zone + ofs) /\
  zbc_sg_cmd_get_int32 c 10 = u32 C /\
  byte_at c 14 = 0 /\ byte_at c 15 = 0.
Proof.
  cbv zeta. unfold rw_cdb, zbc_sg_cmd_set_int32, zbc_sg_cmd_set_int64.
  set (h := <[1%nat := Z_to_byte 16]> (<[0%nat := Z_to_byte opcode]> zero_cdb)).
  assert (Hh : length h = 16%nat) by reflexivity.
  set (c1 := store_bytes h 2 (be_encode 8 (u64 (zbz_start zone + ofs)))).
  assert (Hc1 : length c1 = 16%nat) by (unfold c1; by rewrite length_store_bytes).
  split; [by rewrite length_store_bytes|].
  split.
  { rewrite byte_at_store_bytes_out by (rewrite length_be_encode; lia).
    unfold c1. rewrite byte_at_store_bytes_out by (rewrite length_be_encode; lia).
    unfold h. rewrite byte_at_insert_ne by done.
    rewrite byte_at_insert_eq by (cbn; lia). apply byte_to_Z_to_byte. }
  split.
  { rewrite byte_at_store_bytes_out by (rewrite length_be_encode; lia).
    unfold c1. rewrite byte_at_store_bytes_out by (rewrite length_be_encode; lia).
    unfold h. rewrite byte_at_insert_eq by (cbn; lia). reflexivity. }
  split.
  { change (zbc_sg_cmd_get_int64 ?b 2) with (be_field b 2 8).
    rewrite be_field_store_other by (rewrite length_be_encode; lia).
    unfold c1.
    pose proof (be_field_store_same h 2 (be_encode 8 (u64 (zbz_start zone + ofs))))
      as Hs.
    rewrite length_be_encode in Hs. rewrite Hs by lia.
    rewrite be_field_encode. change (256 ^ Z.of_nat 8) with (2 ^ 64).
    pose proof (u64_range (zbz_start zone + ofs)). rewrite Z.mod_small; lia. }
  split.
  { change (zbc_sg_cmd_get_int32 ?b 10) with (be_field b 10 4).
    pose proof (be_field_store_same c1 10 (be_encode 4 (u32 C))) as Hs.
    rewrite length_be_encode in Hs. rewrite Hs by lia.
    rewrite be_field_encode. change (256 ^ Z.of_nat 4) with (2 ^ 32).
    pose proof (u32_range C). rewrite Z.mod_small; lia. }
  split.
  - rewrite byte_at_store_bytes_out by (rewrite length_be_encode; lia).
    unfold c1. rewrite byte_at_store_bytes_out by (rewrite length_be_encode; lia). reflexivity.
  - rewrite byte_at_store_bytes_out by (rewrite length_be_encode; lia).
    unfold c1. rewrite byte_at_store_bytes_out by (rewrite length_be_encode; lia). reflexivity.
Qed.

(** ** What a read or a write does, on every path *)

Section ReadWriteOutcomes.

Context (E : env).

(** X10.  Whenever [zbc_scsi_pread] returns, no buffer is left
    allocated.  If no context can be created, that status is returned,
    nothing is sent and the caller's buffer is as before.  Otherwise
    exactly one command, READ 16, is sent; if the device refuses it, its
    status is returned and the caller's buffer is as before; if the
    device accepts it, the caller's buffer, at the same address, holds
    what the device sent, the logical block size is not zero, and the
    result is the transferred byte count in blocks. *)
Theorem pread_outcomes dev zone buf C ofs w ret buf' w' :
  zbc_scsi_pread E dev zone buf C ofs w = Ok (ret, buf') w' ->
  let L := zbd_logical_block_size (zbd_info dev) in
  let S := u64 (C * L) in
  let c := rw_cdb ZBC_SG_READ_CDB_OPCODE zone C ofs in
  let a := sg_io E c S in
  let init := sg_init_status E ZBC_SG_READ S in
  (w_heap w' ⊆ w_heap w) /\
  (init ≠ 0 -> ret = init /\ buf' = buf /\ w_sent w' = w_sent w) /\
  (init = 0 ->
   w_sent w' = w_sent w ++ [c] /\
   (io_status a ≠ 0 -> ret = io_status a /\ buf' = buf) /\
   (io_status a = 0 ->
    L ≠ 0 /\ ret = s32 (u64 (S - io_resid a) / L) /\
    buf' = (fun b => Buffer (b_addr b) (io_data a)) <$> buf)).
Proof.
  intros Hrun L S c a init.
  destruct (tracks_run _ _ _ _ _ (tracks_pread E ∅ dev zone buf C ofs) Hrun)
    as (Y & l & Hheap & Hsent & HQ).
  cbv zeta in HQ. fold L S c a init in HQ. destruct HQ as [-> Hpath].
  split; [by apply Hheap|]. rewrite Hsent.
  destruct Hpath as [(-> & Hi & Hr)|(-> & Hi & [(Hs & Hr)|(Hs & HL & Hr)])];
    injection Hr as -> ->.
  - split; [|done]. intros _. by rewrite app_nil_r.
  - split; [done|]. intros _. split; [done|]. split; [done|]. intros; done.
  - split; [done|]. intros _. split; [done|]. split; [intros; done|]. done.
Qed.

(** X11.  Whenever [zbc_scsi_pwrite] returns, no buffer is left
    allocated.  If no context can be created, that status is returned
    and nothing is sent.  Otherwise exactly one command, WRITE 16, is
    sent, and the result is the device's status if it refuses the
    command, and the transferred byte count in blocks of a logical block
    size that is not zero if it accepts. *)
Theorem pwrite_outcomes dev zone buf C ofs w ret w' :
  zbc_scsi_pwrite E dev zone buf C ofs w = Ok ret w' ->
  let L := zbd_logical_block_size (zbd_info dev) in
  let S := u64 (C * L) in
  let c := rw_cdb ZBC_SG_WRITE_CDB_OPCODE zone C ofs in
  let a := sg_io E c S in
  let init := sg_init_status E ZBC_SG_WRITE S in
  (w_heap w' ⊆ w_heap w) /\
  (init ≠ 0 -> ret = init /\ w_sent w' = w_sent w) /\
  (init = 0 ->
   w_sent w' = w_sent w ++ [c] /\
   (io_status a ≠ 0 -> ret = io_status a) /\
   (io_status a = 0 -> L ≠ 0 /\ ret = s32 (u64 (S - io_resid a) / L))).
Proof.
  intros Hrun L S c a init.
  destruct (tracks_run _ _ _ _ _ (tracks_pwrite E ∅ dev zone buf C ofs) Hrun)
    as (Y & l & Hheap & Hsent & HQ).
  cbv zeta in HQ. fold L S c a init in HQ. destruct HQ as [-> Hpath].
  split; [by apply Hheap|]. rewrite Hsent.
  destruct Hpath as [(-> & Hi & ->)|(-> & Hi & [(Hs & ->)|(Hs & HL & ->)])].
  - split; [|done]. intros _. by rewrite app_nil_r.
  - split; [done|]. intros _. split; [done|]. split; [done|]. intros; done.
  - split; [done|]. intros _. split; [done|]. split; [intros; done|]. done.
Qed.

(** X12.  On a device whose logical block size is 0, a read or a write
    that the device accepts divides by zero: the operation has no
    defined result. *)
Theorem rw_zero_block_size_undefined dev zone buf C ofs w :
  zbd_logical_block_size (zbd_info dev) = 0 ->
  (sg_init_status E ZBC_SG_READ 0 = 0 ->
   io_status (sg_io E (rw_cdb ZBC_SG_READ_CDB_OPCODE zone C ofs) 0) = 0 ->
   zbc_scsi_pread E dev zone buf C ofs w = Trap) /\
  (sg_init_status E ZBC_SG_WRITE 0 = 0 ->
   io_status (sg_io E (rw_cdb ZBC_SG_WRITE_CDB_OPCODE zone C ofs) 0) = 0 ->
   zbc_scsi_pwrite E dev zone buf C ofs w = Trap).
Proof.
  intros HL. split; intros Hinit Hst.
  - destruct (zbc_scsi_pread E dev zone buf C ofs w) as [[ret buf'] w'|] eqn:Hrun;
      [|done].
    destruct (tracks_run _ _ _ _ _ (tracks_pread E ∅ dev zone buf C ofs) Hrun)
      as (Y & l & _ & _ & _ & Hpath).
    cbv zeta in Hpath. rewrite HL, Z.mul_0_r in Hpath.
    change (u64 0) with 0 in Hpath.
    destruct Hpath as [(_ & ? & _)|(_ & _ & [(? & _)|(_ & ? & _)])]; done.
  - destruct (zbc_scsi_pwrite E dev zone buf C ofs w) as [ret w'|] eqn:Hrun;
      [|done].
    destruct (tracks_run _ _ _ _ _ (tracks_pwrite E ∅ dev zone buf C ofs) Hrun)
      as (Y & l & _ & _ & _ & Hpath).
    cbv zeta in Hpath. rewrite HL, Z.mul_0_r in Hpath.
    change (u64 0) with 0 in Hpath.
    destruct Hpath as [(_ & ? & _)|(_ & _ & [(? & _)|(_ & ? & _)])]; done.
Qed.

(** A read or a write with a logical block size other than 0 returns. *)
Lemma pread_total dev zone buf C ofs w :
  zbd_logical_block_size (zbd_info dev) ≠ 0 ->
  exists r w', zbc_scsi_pread E dev zone buf C ofs w = Ok r w'.
Proof.
  intros HL. unfold zbc_scsi_pread. cbv zeta.
  set (S := u64 (C * zbd_logical_block_size (zbd_info dev))).
  destruct (decide (sg_init_status E ZBC_SG_READ S = 0)) as [Hinit|Hinit].
  - destruct (cmd_init_ok_shape E ZBC_SG_READ buf S w Hinit) as (ob & nf & w1 & Hi).
    step_with ltac:(exact Hi).
    rewrite decide_False by (intros H; by apply H).
    step_with ltac:(reflexivity).
    match goal with
    | |- context [decide (io_status ?r = 0)] =>
        destruct (decide (io_status r = 0)) as [Hst|Hst]
    end.
    + step_with ltac:(erewrite bind_Ok by (by apply c_div_nonzero); reflexivity).
      match goal with
      | |- context [(zbc_sg_cmd_destroy ?c ≫= _) ?w0] =>
          destruct (cmd_destroy_returns c w0) as [w2 Hd]
      end.
      erewrite bind_Ok by exact Hd. by eexists _, _.
    + step_with ltac:(reflexivity).
      match goal with
      | |- context [(zbc_sg_cmd_destroy ?c ≫= _) ?w0] =>
          destruct (cmd_destroy_returns c w0) as [w2 Hd]
      end.
      erewrite bind_Ok by exact Hd. by eexists _, _.
  - destruct (cmd_init_fails E ZBC_SG_READ buf S w Hinit) as [cmd Hf].
    step_with ltac:(exact Hf).
    rewrite decide_True by done. by eexists _, _.
Qed.

Lemma pwrite_total dev zone buf C ofs w :
  zbd_logical_block_size (zbd_info dev) ≠ 0 ->
  exists r w', zbc_scsi_pwrite E dev zone buf C ofs w = Ok r w'.
Proof.
  intros HL. unfold zbc_scsi_pwrite. cbv zeta.
  set (S := u64 (C * zbd_logical_block_size (zbd_info dev))).
  destruct (decide (sg_init_status E ZBC_SG_WRITE S = 0)) as [Hinit|Hinit].
  - destruct (cmd_init_ok_shape E ZBC_SG_WRITE buf S w Hinit) as (ob & nf & w1 & Hi).
    step_with ltac:(exact Hi).
    rewrite decide_False by (intros H; by apply H).
    step_with ltac:(reflexivity).
    match goal with
    | |- context [decide (io_status ?r = 0)] =>
        destruct (decide (io_status r = 0)) as [Hst|Hst]
    end.
    + step_with ltac:(erewrite bind_Ok by (by apply c_div_nonzero); reflexivity).
      match goal with
      | |- context [(zbc_sg_cmd_destroy ?c ≫= _) ?w0] =>
          destruct (cmd_destroy_returns c w0) as [w2 Hd]
      end.
      erewrite bind_Ok by exact Hd. by eexists _, _.
    + step_with ltac:(reflexivity).
      match goal with
      | |- context [(zbc_sg_cmd_destroy ?c ≫= _) ?w0] =>
          destruct (cmd_destroy_returns c w0) as [w2 Hd]
      end.
      erewrite bind_Ok by exact Hd. by eexists _, _.
  - destruct (cmd_init_fails E ZBC_SG_WRITE buf S w Hinit) as [cmd Hf].
    step_with ltac:(exact Hf).
    rewrite decide_True by done. by eexists _, _.
Qed.

(** X13.  The CDB of a read or a write: whenever a context is created,
    the one command sent has 16 bytes, opcode 0x88 for a read and 0x8A
    for a write, 0x10 in byte 1, the zone's start LBA plus the offset,
    modulo 2^64, big-endian in bytes 2-9, the block count big-endian in
    bytes 10-13, and zero in bytes 14 and 15. *)
Theorem rw_command_layout dev zone buf C ofs w :
  let L := zbd_logical_block_size (zbd_info dev) in
  let layout opcode (c : list byte) :=
    length c = ZBC_SG_CDB_LENGTH /\
    byte_at c 0 = opcode /\ byte_at c 1 = 0x10 /\
    zbc_sg_cmd_get_int64 c 2 = u64 (zbz_start zone + ofs) /\
    zbc_sg_cmd_get_int32 c 10 = u32 C /\
    byte_at c 14 = 0 /\ byte_at c 15 = 0 in
  (forall r w', sg_init_status E ZBC_SG_READ (u64 (C * L)) = 0 ->
     zbc_scsi_pread E dev zone buf C ofs w = Ok r w' ->
     exists c, w_sent w' = w_sent w ++ [c] /\ layout 0x88 c) /\
  (forall r w', sg_init_status E ZBC_SG_WRITE (u64 (C * L)) = 0 ->
     zbc_scsi_pwrite E dev zone buf C ofs w = Ok r w' ->
     exists c, w_sent w' = w_sent w ++ [c] /\ layout 0x8A c).
Proof.
  intros L layout. split; intros r w' Hinit Hrun.
  - destruct (tracks_run _ _ _ _ _ (tracks_pread E ∅ dev zone buf C ofs) Hrun)
      as (Y & l & _ & Hsent & _ & Hpath).
    cbv zeta in Hpath. fold L in Hpath.
    destruct Hpath as [(_ & ? & _)|(-> & _)]; [done|].
    eexists. split; [exact Hsent|]. apply rw_cdb_fields.
  - destruct (tracks_run _ _ _ _ _ (tracks_pwrite E ∅ dev zone buf C ofs) Hrun)
      as (Y & l & _ & Hsent & _ & Hpath).
    cbv zeta in Hpath. fold L in Hpath.
    destruct Hpath as [(_ & ? & _)|(-> & _)]; [done|].
    eexists. split; [exact Hsent|]. apply rw_cdb_fields.
Qed.

End ReadWriteOutcomes.

(** X14.  A device that [zbc_scsi_open] has handed out can be read and
    written: with the geometry bring-up accepted, a later
    [zbc_scsi_pread] or [zbc_scsi_pwrite] has a defined result for every
    zone, buffer, count and offset, whatever the transport answers. *)
Theorem open_then_transfer_returns K E E' filename flags w dev w1
    zone buf C ofs w2 :
  zbc_scsi_open K E filename flags None w = Ok (0, Some dev) w1 ->
  zbd_filename dev = filename /\
  (exists r w3, zbc_scsi_pread E' dev zone buf C ofs w2 = Ok r w3) /\
  (exists r w3, zbc_scsi_pwrite E' dev zone buf C ofs w2 = Ok r w3).
Proof.
  intros Hrun.
  destruct (tracks_run _ _ _ _ _ (tracks_open K E ∅ filename flags None) Hrun)
    as (Y & l & _ & _ & _ & _ & Hdev).
  cbn [fst snd] in Hdev.
  destruct Hdev as [?|(_ & _ & dev' & [= <-] & Hgeo & Hname & _)]; [done|].
  destruct Hgeo as (_ & _ & HL & _).
  split; [done|].
  split; [apply pread_total; lia | apply pwrite_total; lia].
Qed.

(** ** Cache flush, write-pointer reset and the configuration commands *)

Lemma be_field_store_encode buf ofs n v :
  (ofs + n <= length buf)%nat ->
  be_field (store_bytes buf ofs (be_encode n v)) ofs n = v mod 256 ^ Z.of_nat n.
Proof.
  intros H.
  pose proof (be_field_store_same buf ofs (be_encode n v)) as Hs.
  rewrite length_be_encode in Hs. rewrite Hs by done. apply be_field_encode.
Qed.

Lemma u64_mod_56 v : u64 v mod 2 ^ 56 = v mod 2 ^ 56.
Proof.
  unfold u64, wrap. apply Z.mod_mod_divide. exists (2 ^ 8). reflexivity.
Qed.

(** Reading a byte or a field of a CDB through the stores that built
    it. *)
Ltac cdb_through :=
  repeat first
    [ rewrite byte_at_store_bytes_out by (rewrite length_be_encode; lia)
    | rewrite byte_at_insert_ne by done
    | rewrite be_field_store_other by (rewrite length_be_encode; lia)
    | rewrite be_field_insert_other by lia ].

Lemma flush_cdb_fields lba_ofst lba_count immediate :
  let c := flush_cdb lba_ofst lba_count immediate in
  length c = ZBC_SG_CDB_LENGTH /\
  byte_at c 0 = 0x91 /\
  byte_at c 1 = (if decide (immediate = 0) then 0 else 0x02) /\
  zbc_sg_cmd_get_int64 c 2 = u64 lba_ofst /\
  zbc_sg_cmd_get_int32 c 10 = u32 lba_count /\
  byte_at c 14 = 0 /\ byte_at c 15 = 0.
Proof.
  cbv zeta.
  change (zbc_sg_cmd_get_int64 ?b 2) with (be_field b 2 8).
  change (zbc_sg_cmd_get_int32 ?b 10) with (be_field b 10 4).
  unfold flush_cdb, zbc_sg_cmd_set_int32, zbc_sg_cmd_set_int64. cbv zeta.
  set (h := <[0%nat := Z_to_byte ZBC_SG_SYNC_CACHE_CDB_OPCODE]> zero_cdb).
  assert (Hh : length h = 16%nat) by reflexivity.
  assert (H64 : forall v, u64 v mod 256 ^ Z.of_nat 8 = u64 v).
  { intros v. pose proof (u64_range v). apply Z.mod_small.
    change (256 ^ Z.of_nat 8) with (2 ^ 64). lia. }
  assert (H32 : forall v, u32 v mod 256 ^ Z.of_nat 4 = u32 v).
  { intros v. pose proof (u32_range v). apply Z.mod_small.
    change (256 ^ Z.of_nat 4) with (2 ^ 32). lia. }
  destruct (decide (lba_ofst ≠ 0)) as [Ho|Ho];
    [|assert (lba_ofst = 0) as ->
        by (destruct (decide (lba_ofst = 0)); [done|contradiction])];
  (destruct (decide (lba_count ≠ 0)) as [Hc|Hc];
    [|assert (lba_count = 0) as ->
        by (destruct (decide (lba_count = 0)); [done|contradiction])]);
  (destruct (decide (immediate ≠ 0)) as [Hi|Hi];
    [rewrite (decide_False (P := immediate = 0)) by done
    |assert (immediate = 0) as ->
        by (destruct (decide (immediate = 0)); [done|contradiction]);
     rewrite (decide_True (P := 0 = 0)) by done]);
  (split; [rewrite ?length_insert, ?length_store_bytes; exact Hh|]);
  (split; [cdb_through; reflexivity|]);
  (split; [first [ by (rewrite byte_at_insert_eq by
                         (rewrite ?length_insert, ?length_store_bytes, Hh; lia))
                 | cdb_through; reflexivity ]|]);
  (split; [cdb_through;
           first [ rewrite be_field_store_encode by (rewrite Hh; lia); apply H64
                 | reflexivity ]|]);
  (split; [cdb_through;
           first [ rewrite be_field_store_encode
                     by (rewrite ?length_store_bytes, Hh; lia); apply H32
                 | reflexivity ]|]);
  (split; cdb_through; reflexivity).
Qed.

Lemma two_field_cdb_fields opcode sa first second :
  let c := two_field_cdb opcode sa first second in
  length c = ZBC_SG_CDB_LENGTH /\
  byte_at c 0 = u8 opcode /\ byte_at c 1 = u8 sa /\
  be_field c 2 7 = first mod 2 ^ 56 /\
  be_field c 9 7 = second mod 2 ^ 56.
Proof.
  cbv zeta. unfold two_field_cdb, zbc_sg_cmd_set_bytes.
  set (h := <[1%nat := Z_to_byte sa]> (<[0%nat := Z_to_byte opcode]> zero_cdb)).
  assert (Hh : length h = 16%nat) by reflexivity.
  split; [by rewrite !length_store_bytes|].
  split.
  { cdb_through. unfold h. rewrite byte_at_insert_ne by done.
    rewrite byte_at_insert_eq by (cbn; lia). apply byte_to_Z_to_byte. }
  split.
  { cdb_through. unfold h. rewrite byte_at_insert_eq by (cbn; lia).
    apply byte_to_Z_to_byte. }
  split.
  - cdb_through. rewrite be_field_store_encode by (rewrite Hh; lia).
    change (256 ^ Z.of_nat 7) with (2 ^ 56). apply u64_mod_56.
  - rewrite be_field_store_encode by (rewrite length_store_bytes, Hh; lia).
    change (256 ^ Z.of_nat 7) with (2 ^ 56). apply u64_mod_56.
Qed.

Section AdminPaths.

Context (E : env).

(** A command without a data buffer: the world is as before, but for the
    CDB sent. *)
Lemma flush_eq dev lba_ofst lba_count immediate w :
  sg_init_status E ZBC_SG_SYNC_CACHE 0 = 0 ->
  zbc_scsi_flush E dev lba_ofst lba_count immediate w =
    Ok (io_status (sg_io E (flush_cdb lba_ofst lba_count immediate) 0))
       (upd_sent (fun l => l ++ [flush_cdb lba_ofst lba_count immediate]) w).
Proof.
  intros Hinit. unfold zbc_scsi_flush.
  step_with ltac:(by apply cmd_init_nobuf).
  rewrite decide_False by (intros H; by apply H).
  unfold flush_cdb. cbv zeta.
  destruct (decide (lba_ofst ≠ 0)); destruct (decide (lba_count ≠ 0));
    destruct (decide (immediate ≠ 0)); cmd_simpl;
    (step_with ltac:(reflexivity));
    match goal with
    | |- context [decide (io_status ?r = 0)] => destruct (decide (io_status r = 0))
    end; reflexivity.
Qed.

Lemma set_zones_eq dev conv_sz seq_sz w :
  sg_init_status E ZBC_SG_SET_ZONES 0 = 0 ->
  let c := two_field_cdb ZBC_SG_SET_ZONES_CDB_OPCODE ZBC_SG_SET_ZONES_CDB_SA
             conv_sz seq_sz in
  zbc_scsi_set_zones E dev conv_sz seq_sz w =
    Ok (io_status (sg_io E c 0)) (upd_sent (fun l => l ++ [c]) w).
Proof.
  intros Hinit c. unfold zbc_scsi_set_zones.
  step_with ltac:(by apply cmd_init_nobuf).
  rewrite decide_False by (intros H; by apply H).
  step_with ltac:(reflexivity).
  match goal with
  | |- context [decide (io_status ?r = 0)] => destruct (decide (io_status r = 0))
  end; reflexivity.
Qed.

Lemma set_write_pointer_eq dev start_lba write_pointer w :
  sg_init_status E ZBC_SG_SET_WRITE_POINTER 0 = 0 ->
  let c := two_field_cdb ZBC_SG_SET_WRITE_POINTER_CDB_OPCODE
             ZBC_SG_SET_WRITE_POINTER_CDB_SA start_lba write_pointer in
  zbc_scsi_set_write_pointer E dev start_lba write_pointer w =
    Ok (io_status (sg_io E c 0)) (upd_sent (fun l => l ++ [c]) w).
Proof.
  intros Hinit c. unfold zbc_scsi_set_write_pointer.
  step_with ltac:(by apply cmd_init_nobuf).
  rewrite decide_False by (intros H; by apply H).
  step_with ltac:(reflexivity).
  match goal with
  | |- context [decide (io_status ?r = 0)] => destruct (decide (io_status r = 0))
  end; reflexivity.
Qed.

Lemma plain_command_intro code c (m : M Z) :
  (sg_init_status E code 0 = 0 ->
   forall w, m w = Ok (io_status (sg_io E c 0)) (upd_sent (fun l => l ++ [c]) w)) ->
  (sg_init_status E code 0 ≠ 0 ->
   forall w, m w = Ok (sg_init_status E code 0) w) ->
  plain_command E code c m.
Proof.
  intros Hok Hfail w.
  destruct (decide (sg_init_status E code 0 = 0)) as [Hinit|Hinit].
  - eexists _, _. split; [by apply Hok|]. cbn. repeat split; done.
  - eexists _, _. split; [by apply Hfail|]. repeat split; done.
Qed.

(** X15.  [zbc_scsi_flush] always returns and holds no resource
    afterwards.  If no context can be created it returns that status
    and sends nothing; otherwise it sends one SYNCHRONIZE CACHE 16 and
    returns the device's status.  The CDB has opcode 0x91, the offset
    big-endian in bytes 2-9 and the count in bytes 10-13, whether or not
    they are zero, and byte 1 is 0x02 exactly when the immediate flag is
    not zero. *)
Theorem flush_outcome dev lba_ofst lba_count immediate :
  let c := flush_cdb lba_ofst lba_count immediate in
  plain_command E ZBC_SG_SYNC_CACHE c
    (zbc_scsi_flush E dev lba_ofst lba_count immediate) /\
  length c = ZBC_SG_CDB_LENGTH /\
  byte_at c 0 = 0x91 /\
  byte_at c 1 = (if decide (immediate = 0) then 0 else 0x02) /\
  zbc_sg_cmd_get_int64 c 2 = u64 lba_ofst /\
  zbc_sg_cmd_get_int32 c 10 = u32 lba_count /\
  byte_at c 14 = 0 /\ byte_at c 15 = 0.
Proof.
  intros c. split; [|apply flush_cdb_fields].
  apply plain_command_intro.
  - intros Hinit w. by apply flush_eq.
  - intros Hinit w. unfold zbc_scsi_flush.
    destruct (cmd_init_fails E ZBC_SG_SYNC_CACHE None 0 w Hinit) as [cmd Hf].
    step_with ltac:(exact Hf). by rewrite decide_True.
Qed.

(** X16.  [zbc_scsi_set_zones] always returns and holds no resource
    afterwards; it returns the status of the context creation, with
    nothing sent, or that of the device after one command.  The CDB has
    opcode 0x94 and service action 0x15, the conventional zone size in
    bytes 2-8 and the sequential zone size in bytes 9-15, each
    big-endian and reduced modulo 2^56. *)
Theorem set_zones_outcome dev conv_sz seq_sz :
  let c := two_field_cdb ZBC_SG_SET_ZONES_CDB_OPCODE ZBC_SG_SET_ZONES_CDB_SA
             conv_sz seq_sz in
  plain_command E ZBC_SG_SET_ZONES c (zbc_scsi_set_zones E dev conv_sz seq_sz) /\
  length c = ZBC_SG_CDB_LENGTH /\
  byte_at c 0 = 0x94 /\ byte_at c 1 = 0x15 /\
  be_field c 2 7 = conv_sz mod 2 ^ 56 /\
  be_field c 9 7 = seq_sz mod 2 ^ 56.
Proof.
  intros c. split; [|apply two_field_cdb_fields].
  apply plain_command_intro.
  - intros Hinit w. by apply set_zones_eq.
  - intros Hinit w. unfold zbc_scsi_set_zones.
    destruct (cmd_init_fails E ZBC_SG_SET_ZONES None 0 w Hinit) as [cmd Hf].
    step_with ltac:(exact Hf). by rewrite decide_True.
Qed.

(** X17.  [zbc_scsi_set_write_pointer] always returns and holds no
    resource afterwards; it returns the status of the context creation,
    with nothing sent, or that of the device after one command.  The CDB
    has opcode 0x94 and service action 0x16, the start LBA in bytes 2-8
    and the write pointer in bytes 9-15, each big-endian and reduced
    modulo 2^56. *)
Theorem set_write_pointer_outcome dev start_lba write_pointer :
  let c := two_field_cdb ZBC_SG_SET_WRITE_POINTER_CDB_OPCODE
             ZBC_SG_SET_WRITE_POINTER_CDB_SA start_lba write_pointer in
  plain_command E ZBC_SG_SET_WRITE_POINTER c
    (zbc_scsi_set_write_pointer E dev start_lba write_pointer) /\
  length c = ZBC_SG_CDB_LENGTH /\
  byte_at c 0 = 0x94 /\ byte_at c 1 = 0x16 /\
  be_field c 2 7 = start_lba mod 2 ^ 56 /\
  be_field c 9 7 = write_pointer mod 2 ^ 56.
Proof.
  intros c. split; [|apply two_field_cdb_fields].
  apply plain_command_intro.
  - intros Hinit w. by apply set_write_pointer_eq.
  - intros Hinit w. unfold zbc_scsi_set_write_pointer.
    destruct (cmd_init_fails E ZBC_SG_SET_WRITE_POINTER None 0 w Hinit) as [cmd Hf].
    step_with ltac:(exact Hf). by rewrite decide_True.
Qed.

(** X18.  [zbc_scsi_reset_write_pointer] always returns and holds no
    resource afterwards; it returns the status of the context creation,
    with nothing sent, or that of the device after one command.  The CDB
    has opcode 0x94 and service action 0x14 for every start LBA, and its
    bytes 10-13 and 15 are zero. *)
Theorem reset_write_pointer_outcome dev start_lba :
  let c := reset_write_pointer_cdb start_lba in
  plain_command E ZBC_SG_RESET_WRITE_POINTER c
    (zbc_scsi_reset_write_pointer E dev start_lba) /\
  length c = ZBC_SG_CDB_LENGTH /\
  byte_at c 0 = 0x94 /\ byte_at c 1 = 0x14 /\
  zbc_sg_cmd_get_int32 c 10 = 0 /\ byte_at c 15 = 0.
Proof.
  intros c. split.
  { apply plain_command_intro.
    - intros Hinit w. by apply reset_write_pointer_eq.
    - intros Hinit w. unfold zbc_scsi_reset_write_pointer.
      destruct (cmd_init_fails E ZBC_SG_RESET_WRITE_POINTER None 0 w Hinit)
        as [cmd Hf].
      step_with ltac:(exact Hf). by rewrite decide_True. }
  unfold c, reset_write_pointer_cdb. cbv zeta.
  change (zbc_sg_cmd_get_int32 ?b 10) with (be_field b 10 4).
  destruct (decide (start_lba = UINT64_MAX)); [repeat split; reflexivity|].
  unfold zbc_sg_cmd_set_int64.
  split; [by rewrite length_store_bytes|].
  repeat split; cdb_through; reflexivity.
Qed.

End AdminPaths.

(** ** The zone report, on every path *)

Lemma report_zones_loop_result buf n :
  forall ofs za i w za' w',
    (i <= length za)%nat ->
    report_zones_loop buf ofs za i n w = Ok za' w' ->
    w' = w /\ (i + n <= length za)%nat /\ length za' = length za /\
    (forall k, (k < n)%nat ->
       za' !! (i + k)%nat = Some (decode_zone buf (ofs + 64 * k))) /\
    (forall j, (j < i \/ i + n <= j)%nat -> za' !! j = za !! j).
Proof.
  intros ofs za i w za' w' Hi Hrun.
  assert (Hlen : (i + n <= length za)%nat).
  { revert ofs za i w Hi Hrun.
    induction n as [|n IH]; intros ofs za i w Hi Hrun; [lia|].
    cbn [report_zones_loop] in Hrun. case_decide as Hlt; [|done].
    apply IH in Hrun; rewrite ?length_insert in *; lia. }
  destruct (report_zones_loop_spec buf n ofs za i w Hlen)
    as (za2 & Hrun2 & Hl & Hin & Hout).
  rewrite Hrun in Hrun2. injection Hrun2 as -> ->. done.
Qed.

Lemma tracks_report_zones_loop X buf n ofs za :
  tracks X (report_zones_loop buf ofs za 0 n)
    (fun za' Y l =>
       Y = X /\ l = [] /\ (n <= length za)%nat /\ length za' = length za /\
       (forall k, (k < n)%nat -> za' !! k = Some (decode_zone buf (ofs + 64 * k))) /\
       (forall j, (n <= j)%nat -> za' !! j = za !! j)).
Proof.
  intros w za' w' Hrun.
  apply report_zones_loop_result in Hrun as (-> & Hn & Hl & Hin & Hout); [|lia].
  exists X, []. split; [done|]. split; [by rewrite app_nil_r|].
  split; [done|]. split; [done|]. split; [done|]. split; [done|].
  split; [exact Hin|]. intros j Hj. apply Hout. lia.
Qed.

Section ReportZonesPaths.

Context (E : env).

Lemma tracks_report_zones X dev start_lba ro zones R :
  tracks X (zbc_scsi_report_zones E dev start_lba ro zones R)
    (fun r Y l =>
       let bufsz := (report_zones_bufsz E R).1 in
       let nr1 := (report_zones_bufsz E R).2 in
       let c := report_zones_cdb start_lba bufsz ro in
       let a := sg_io E c bufsz in
       let init := sg_init_status E ZBC_SG_REPORT_ZONES bufsz in
       let data := io_data a in
       let D := s32 (zbc_sg_cmd_get_int32 data 0 / ZBC_ZONE_DESCRIPTOR_LENGTH) in
       let reported :=
         s32 (u64 (bufsz - ZBC_ZONE_DESCRIPTOR_OFFSET) / ZBC_ZONE_DESCRIPTOR_LENGTH) in
       let nz1 := if decide (nr1 < u32 D) then s32 nr1 else D in
       let nz := if decide (reported < nz1) then reported else nz1 in
       Y = X /\
       ((l = [] /\ init ≠ 0 /\ r = (init, zones, nr1)) \/
        (l = [c] /\ init = 0 /\
         ((io_status a ≠ 0 /\ r = (io_status a, zones, nr1)) \/
          (io_status a = 0 /\ 0 < bufsz /\
           match zones with
           | Some za =>
             if decide (reported ≠ 0) then
               exists za',
                 r = (0, Some za', u32 nz) /\
                 (Z.to_nat nz <= length za)%nat /\ length za' = length za /\
                 (forall k, (k < Z.to_nat nz)%nat ->
                    za' !! k = Some (decode_zone data (64 + 64 * k))) /\
                 (forall j, (Z.to_nat nz <= j)%nat -> za' !! j = za !! j)
             else r = (0, zones, u32 D)
           | None => r = (0, zones, u32 D)
           end))))).
Proof.
  unfold zbc_scsi_report_zones.
  destruct (report_zones_bufsz E R) as [bufsz nr1] eqn:Hb. cbn [fst snd].
  eapply tracks_bind; [apply tracks_cmd_init|].
  intros [ret cmd] Y l (-> & Hret & Hfail & Hok). cbn [fst snd] in *.
  case_decide as Hnz.
  { apply tracks_ret. rewrite Hfail by done. split; [done|]. left.
    rewrite <- Hret. done. }
  assert (ret = 0) as -> by (destruct (decide (ret = 0)); [done|contradiction]).
  destruct (Hok eq_refl) as (-> & Hcdb & Hsz & Hdir & Hbuf). clear Hok Hfail Hnz.
  eapply tracks_bind; [apply tracks_cmd_exec|].
  intros [ret' cmd'] Y' l' (-> & -> & Hret' & Hown & Hcdb' & Hne & Heq).
  cbn [fst snd cdb_set set_cdb cdb out_bufsz out_buf io_hdr_dxfer_direction] in *.
  rewrite Hcdb, Hsz in Hret'. fold (report_zones_cdb start_lba bufsz ro) in Hret'.
  rewrite Hcdb, Hsz, Hdir in Heq.
  fold (report_zones_cdb start_lba bufsz ro) in Heq.
  rewrite Hcdb. fold (report_zones_cdb start_lba bufsz ro).
  set (c := report_zones_cdb start_lba bufsz ro) in *.
  set (a := sg_io E c bufsz) in *.
  assert (Hown' : owned cmd' = owned cmd) by (rewrite Hown; reflexivity).
  clear Hown.
  assert (Hdestroy : forall r : Z * option (list zbc_zone_t) * Z,
            tracks (X ∪ owned cmd) (zbc_sg_cmd_destroy cmd' ≫= fun _ => mret r)
                   (fun b Z l2 => b = r /\ Z = X /\ l2 = [])).
  { intros r. eapply tracks_bind.
    - rewrite <- Hown'. apply tracks_cmd_destroy.
    - intros _ Z l2 [-> ->]. by apply tracks_ret. }
  case_decide as Hnz.
  { eapply tracks_post; [|apply Hdestroy].
    intros r Z l2 (-> & -> & ->). cbn [app]. split; [done|]. right.
    split; [done|]. split; [done|]. left. by rewrite <- Hret'. }
  assert (ret' = 0) as -> by (destruct (decide (ret' = 0)); [done|contradiction]).
  destruct (Heq eq_refl) as [_ Hob]. clear Heq Hne Hnz.
  destruct Hbuf as [(Hpos & _ & [b Hb0])|(_ & Hnone)]; cycle 1.
  { rewrite Hnone in Hob. rewrite Hob. apply tracks_bind with (Q1 := fun _ _ _ => False);
      [apply tracks_trap | intros ? ? ? []]. }
  rewrite Hb0 in Hob. rewrite Hob. clear Hob.
  eapply tracks_bind; [apply tracks_deref|].
  intros data Z l2 (-> & -> & b' & [= <-] & ->). cbn [b_data]. cbv zeta.
  fold a.
  set (data := io_data a).
  set (D := s32 (zbc_sg_cmd_get_int32 data 0 / ZBC_ZONE_DESCRIPTOR_LENGTH)).
  set (reported :=
         s32 (u64 (bufsz - ZBC_ZONE_DESCRIPTOR_OFFSET) / ZBC_ZONE_DESCRIPTOR_LENGTH)).
  assert (Hfin : forall (zs : option (list zbc_zone_t)) (n : Z)
                   (P : Z * option (list zbc_zone_t) * Z -> Prop),
            P (0, zs, u32 n) ->
            tracks (X ∪ owned cmd)
              (zbc_sg_cmd_destroy cmd' ≫= fun _ => mret (0, zs, u32 n))
              (fun r Z l3 => Z = X /\ l3 = [] /\ P r)).
  { intros zs n P HP. eapply tracks_post; [|apply Hdestroy].
    intros r Z l3 (-> & -> & ->). done. }
  destruct zones as [za|].
  - destruct (decide (reported ≠ 0)) as [Hrep|Hrep].
    + eapply (tracks_bind _ _ _ (fun r Z l3 =>
                 Z = X ∪ owned cmd /\ l3 = [] /\
                 exists za' nz, r = (Some za', nz) /\
                   nz = (if decide (reported <
                                    (if decide (nr1 < u32 D) then s32 nr1 else D))
                         then reported
                         else if decide (nr1 < u32 D) then s32 nr1 else D) /\
                   (Z.to_nat nz <= length za)%nat /\ length za' = length za /\
                   (forall k, (k < Z.to_nat nz)%nat ->
                      za' !! k = Some (decode_zone data (64 + 64 * k))) /\
                   (forall j, (Z.to_nat nz <= j)%nat -> za' !! j = za !! j))).
      { eapply tracks_bind; [apply tracks_report_zones_loop|].
        intros za' Z l3 (-> & -> & Hn & Hl & Hin & Hout).
        change (Z.to_nat ZBC_ZONE_DESCRIPTOR_OFFSET) with 64%nat in Hin.
        apply tracks_ret.
        split; [done|]. split; [done|]. eexists _, _. split; [reflexivity|].
        split; [reflexivity|]. split; [exact Hn|]. split; [exact Hl|].
        split; [exact Hin|exact Hout]. }
      intros [zs nz] Z l3 (-> & -> & za' & nz' & [= -> ->] & Hnz & Hn & Hl & Hin & Hout).
      eapply tracks_post; [|apply (Hfin (Some za') nz' (fun r => r = (0, Some za', u32 nz')))];
        [|done].
      intros r Z l3 (-> & -> & ->). cbn [app]. split; [done|]. right.
      split; [done|]. split; [done|]. right. split; [done|]. split; [done|].
      exists za'. rewrite <- Hnz. done.
    + eapply (tracks_bind _ _ _ (fun r Z l3 =>
                 Z = X ∪ owned cmd /\ l3 = [] /\ r = (Some za, D)));
        [by apply tracks_ret|].
      intros [zs nz] Z l3 (-> & -> & [= -> ->]).
      eapply tracks_post; [|apply (Hfin (Some za) D (fun r => r = (0, Some za, u32 D)))];
        [|done].
      intros r Z l3 (-> & -> & ->). cbn [app]. split; [done|]. right.
      split; [done|]. split; [done|]. right. done.
  - eapply (tracks_bind _ _ _ (fun r Z l3 =>
               Z = X ∪ owned cmd /\ l3 = [] /\ r = (None, D)));
      [by apply tracks_ret|].
    intros [zs nz] Z l3 (-> & -> & [= -> ->]).
    eapply tracks_post; [|apply (Hfin None D (fun r => r = (0, None, u32 D)))];
      [|done].
    intros r Z l3 (-> & -> & ->). cbn [app]. split; [done|]. right.
    split; [done|]. split; [done|]. right. done.
Qed.

Lemma report_zones_bufsz_bounds R :
  64 <= os_pagesize E < 2 ^ 64 -> 0 <= R < 2 ^ 32 ->
  let bufsz := (report_zones_bufsz E R).1 in
  let nr1 := (report_zones_bufsz E R).2 in
  64 <= bufsz <= os_pagesize E /\ bufsz - 64 < 2 ^ 32 /\
  0 <= nr1 <= R /\
  (R < 2 ^ 26 -> 64 + 64 * nr1 <= bufsz).
Proof.
  intros HP HR.
  unfold report_zones_bufsz, ZBC_ZONE_DESCRIPTOR_OFFSET, ZBC_ZONE_DESCRIPTOR_LENGTH.
  rewrite (u64_id (os_pagesize E)) by lia.
  pose proof (u32_range (R * 64)) as Hx.
  assert (Hle : u32 (R * 64) <= R * 64).
  { unfold u32, wrap. apply Z.mod_le; lia. }
  rewrite (u64_id (64 + u32 (R * 64))) by lia.
  destruct (decide (R ≠ 0)) as [Hnz|Hz]; cbn [fst snd]; cycle 1.
  { assert (R = 0) as -> by (destruct (decide (R = 0)); [done|contradiction]).
    lia. }
  destruct (decide (os_pagesize E < 64 + u32 (R * 64))) as [Hc|Hc]; cbn [fst snd].
  - rewrite (u64_id (os_pagesize E - 64)) by lia.
    assert (Hq : 0 <= (os_pagesize E - 64) / 64 < R).
    { split; [apply Z.div_pos; lia|]. apply Z.div_lt_upper_bound; lia. }
    rewrite u32_id by lia.
    split; [lia|]. split; [lia|]. split; [lia|]. intros _.
    pose proof (Z.mul_div_le (os_pagesize E - 64) 64). lia.
  - split; [lia|]. split; [lia|]. split; [lia|]. intros HR26.
    rewrite (u32_id (R * 64)) by lia. lia.
Qed.

(** X19.  Whenever [zbc_scsi_report_zones] returns, no buffer is left
    allocated and the caller's array has the length it had.  If no
    context can be created, or if the device refuses the one REPORT
    ZONES command sent, that status is returned and the array is as
    before, but the caller's count holds the request as clamped to one
    page.  If the device accepts the command the result is 0. *)
Theorem report_zones_outcomes dev start_lba ro zones R w ret zones' n w' :
  zbc_scsi_report_zones E dev start_lba ro zones R w = Ok (ret, zones', n) w' ->
  let bufsz := (report_zones_bufsz E R).1 in
  let nr1 := (report_zones_bufsz E R).2 in
  let c := report_zones_cdb start_lba bufsz ro in
  let a := sg_io E c bufsz in
  let init := sg_init_status E ZBC_SG_REPORT_ZONES bufsz in
  (w_heap w' ⊆ w_heap w) /\
  (length <$> zones') = (length <$> zones) /\
  (init ≠ 0 -> ret = init /\ zones' = zones /\ n = nr1 /\ w_sent w' = w_sent w) /\
  (init = 0 ->
   w_sent w' = w_sent w ++ [c] /\
   (io_status a ≠ 0 -> ret = io_status a /\ zones' = zones /\ n = nr1) /\
   (io_status a = 0 -> ret = 0 /\ 0 < bufsz)).
Proof.
  intros Hrun bufsz nr1 c a init.
  destruct (tracks_run _ _ _ _ _
              (tracks_report_zones ∅ dev start_lba ro zones R) Hrun)
    as (Y & l & Hheap & Hsent & HQ).
  cbv zeta in HQ. fold bufsz nr1 c a init in HQ. destruct HQ as [-> Hpath].
  split; [by apply Hheap|]. rewrite Hsent.
  destruct Hpath as [(-> & Hi & Hr)|(-> & Hi & [(Hs & Hr)|(Hs & Hpos & Hr)])].
  - injection Hr as -> -> ->. split; [done|]. split; [|done].
    intros _. by rewrite app_nil_r.
  - injection Hr as -> -> ->. split; [done|]. split; [done|]. intros _.
    split; [done|]. split; [done|]. intros; done.
  - assert (Hres : ret = 0 /\ (length <$> zones') = (length <$> zones)).
    { destruct zones as [za|].
      - case_decide.
        + destruct Hr as (za' & [= -> -> ->] & _ & Hl & _). cbn. by rewrite Hl.
        + by injection Hr as -> -> ->.
      - by injection Hr as -> -> ->. }
    destruct Hres as [-> Hlen].
    split; [done|]. split; [done|]. intros _. split; [done|].
    split; [intros; done|]. done.
Qed.

(** X20.  With a page of at least 64 bytes, the zone report changes the
    caller's array only at indices below the requested count, and only
    to the decoding of a descriptor that lies within the reply buffer:
    entry [k] is decoded from bytes [64 + 64 k] to [64 + 64 k + 63],
    which end before the allocation length. *)
Theorem report_zones_within_buffer dev start_lba ro za R w ret za' n w' (k : nat) :
  64 <= os_pagesize E < 2 ^ 64 -> 0 <= R < 2 ^ 32 ->
  zbc_scsi_report_zones E dev start_lba ro (Some za) R w = Ok (ret, Some za', n) w' ->
  za' !! k ≠ za !! k ->
  let bufsz := (report_zones_bufsz E R).1 in
  let data := io_data (sg_io E (report_zones_cdb start_lba bufsz ro) bufsz) in
  Z.of_nat k < R /\ (k < length za)%nat /\
  64 + 64 * Z.of_nat k + 64 <= bufsz /\
  za' !! k = Some (decode_zone data (64 + 64 * k)).
Proof.
  intros HP HR Hrun Hk bufsz data.
  destruct (tracks_run _ _ _ _ _
              (tracks_report_zones ∅ dev start_lba ro (Some za) R) Hrun)
    as (Y & l & _ & _ & _ & Hpath).
  cbv zeta in Hpath. fold bufsz data in Hpath.
  destruct (report_zones_bufsz_bounds R HP HR) as (Hb & Hb32 & Hnr & _).
  fold bufsz in Hb, Hb32.
  destruct Hpath as [(_ & _ & Hr)|(_ & _ & [(_ & Hr)|(_ & _ & Hr)])].
  { injection Hr as _ <- _. done. }
  { injection Hr as _ <- _. done. }
  unfold ZBC_ZONE_DESCRIPTOR_OFFSET, ZBC_ZONE_DESCRIPTOR_LENGTH in Hr.
  case_decide as Hrep; [|injection Hr as _ <- _; done].
  destruct Hr as (za2 & [= _ <- _] & Hn & Hl & Hin & Hout).
  pose proof (zbc_sg_cmd_get_int32_range data 0) as Hg.
  assert (HD : 0 <= zbc_sg_cmd_get_int32 data 0 / 64 < 2 ^ 26).
  { split; [apply Z.div_pos; lia|]. apply Z.div_lt_upper_bound; lia. }
  rewrite (s32_id (zbc_sg_cmd_get_int32 data 0 / 64)) in Hn, Hin, Hout by lia.
  rewrite (u32_id (zbc_sg_cmd_get_int32 data 0 / 64)) in Hn, Hin, Hout by lia.
  rewrite (u64_id (bufsz - 64)) in Hn, Hin, Hout by lia.
  assert (Hq : 0 <= (bufsz - 64) / 64 < 2 ^ 26).
  { split; [apply Z.div_pos; lia|]. apply Z.div_lt_upper_bound; lia. }
  rewrite (s32_id ((bufsz - 64) / 64)) in Hn, Hin, Hout by lia.
  pose proof (Z.mul_div_le (bufsz - 64) 64 ltac:(lia)) as Hfit.
  set (D := zbc_sg_cmd_get_int32 data 0 / 64) in *.
  set (nr1 := (report_zones_bufsz E R).2) in *.
  set (nz1 := if decide (nr1 < D) then s32 nr1 else D) in *.
  set (nz := if decide ((bufsz - 64) / 64 < nz1) then (bufsz - 64) / 64 else nz1) in *.
  assert (Hnz1 : nz1 <= R).
  { unfold nz1. case_decide; [rewrite s32_id; lia|lia]. }
  assert (Hnz : nz <= R /\ nz <= (bufsz - 64) / 64).
  { unfold nz. case_decide; lia. }
  destruct (decide (k < Z.to_nat nz)%nat) as [Hlt|Hge]; cycle 1.
  { exfalso. apply Hk. apply Hout. lia. }
  split; [lia|]. split; [lia|]. split; [lia|]. by apply Hin.
Qed.

(** X21.  The request of a zone report, with a page of 64 bytes to less
    than 4 GiB.  The allocation length is at least the 64-byte header
    and at most one page; the count kept for the caller is at most the
    requested count and, for requests below 2^26 zones, the header and
    that many descriptors fit the allocation.  The CDB has opcode 0x9E
    and service action 0x14, the start LBA big-endian in bytes 2-9, the
    allocation length in bytes 10-13, the low four bits of the selector
    in byte 14 and zero in byte 15. *)
Theorem report_zones_request start_lba ro R :
  64 <= os_pagesize E < 2 ^ 32 -> 0 <= R < 2 ^ 32 ->
  let bufsz := (report_zones_bufsz E R).1 in
  let nr1 := (report_zones_bufsz E R).2 in
  let c := report_zones_cdb start_lba bufsz ro in
  64 <= bufsz <= os_pagesize E /\ 0 <= nr1 <= R /\
  (R < 2 ^ 26 -> 64 + 64 * nr1 <= bufsz) /\
  length c = ZBC_SG_CDB_LENGTH /\
  byte_at c 0 = 0x9E /\ byte_at c 1 = 0x14 /\
  zbc_sg_cmd_get_int64 c 2 = u64 start_lba /\
  zbc_sg_cmd_get_int32 c 10 = bufsz /\
  byte_at c 14 = Z.land ro 0x0f /\ byte_at c 15 = 0.
Proof.
  intros HP HR bufsz nr1 c.
  destruct (report_zones_bufsz_bounds R ltac:(lia) HR) as (Hb & _ & Hnr & Hroom).
  fold bufsz in Hb. fold nr1 in Hnr. fold bufsz nr1 in Hroom.
  split; [done|]. split; [done|]. split; [done|].
  unfold c, report_zones_cdb, zbc_sg_cmd_set_int32, zbc_sg_cmd_set_int64.
  change (zbc_sg_cmd_get_int64 ?b 2) with (be_field b 2 8).
  change (zbc_sg_cmd_get_int32 ?b 10) with (be_field b 10 4).
  set (h := <[1%nat := Z_to_byte ZBC_SG_REPORT_ZONES_CDB_SA]>
              (<[0%nat := Z_to_byte ZBC_SG_REPORT_ZONES_CDB_OPCODE]> zero_cdb)).
  assert (Hh : length h = 16%nat) by reflexivity.
  split; [by rewrite length_insert, !length_store_bytes|].
  split; [cdb_through; reflexivity|].
  split; [cdb_through; reflexivity|].
  split.
  { cdb_through. rewrite be_field_store_encode by (rewrite Hh; lia).
    pose proof (u64_range start_lba). apply Z.mod_small.
    change (256 ^ Z.of_nat 8) with (2 ^ 64). lia. }
  split.
  { cdb_through.
    rewrite be_field_store_encode by (rewrite length_store_bytes, Hh; lia).
    change (256 ^ Z.of_nat 4) with (2 ^ 32).
    rewrite (u32_id bufsz) by lia. apply Z.mod_small. lia. }
  split.
  { rewrite byte_at_insert_eq by (rewrite !length_store_bytes, Hh; lia).
    rewrite byte_to_Z_to_byte. unfold u8, wrap.
    change 15 with (Z.ones 4). rewrite Z.land_ones by lia.
    apply Z.mod_small. pose proof (Z.mod_pos_bound ro (2 ^ 4)). lia. }
  cdb_through. reflexivity.
Qed.

End ReportZonesPaths.

(** X22.  A zone descriptor as [zbc_scsi_report_zones] decodes it: the
    zone type is the low nibble of byte 0, the condition the high nibble
    of byte 1 and the reset flag bit 0 of byte 1, so the type and the
    condition are below 16 and the flag is 0 or 1; length, start and
    write pointer are unsigned 64-bit values. *)
Theorem decode_zone_fields buf ofs :
  let z := decode_zone buf ofs in
  let b0 := byte_at buf ofs in
  let b1 := byte_at buf (ofs + 1) in
  zbz_type z = b0 mod 16 /\ zbz_condition z = b1 / 16 /\
  zbz_need_reset z = b1 mod 2 /\
  0 <= zbz_type z < 16 /\ 0 <= zbz_condition z < 16 /\
  0 <= zbz_need_reset z <= 1 /\
  0 <= zbz_length z < 2 ^ 64 /\ 0 <= zbz_start z < 2 ^ 64 /\
  0 <= zbz_write_pointer z < 2 ^ 64.
Proof.
  intros z b0 b1. unfold z, decode_zone. cbn [zbz_type zbz_condition zbz_need_reset
    zbz_length zbz_start zbz_write_pointer]. fold b0 b1.
  pose proof (byte_at_range buf ofs) as H0. fold b0 in H0.
  pose proof (byte_at_range buf (ofs + 1)) as H1. fold b1 in H1.
  assert (Ht : Z.land b0 15 = b0 mod 16).
  { change 15 with (Z.ones 4). by rewrite Z.land_ones by lia. }
  assert (Hc : Z.land (Z.shiftr b1 4) 15 = b1 / 16).
  { change 15 with (Z.ones 4). rewrite Z.land_ones by lia.
    rewrite Z.shiftr_div_pow2 by lia. change (2 ^ 4) with 16.
    apply Z.mod_small. split; [apply Z.div_pos; lia|].
    apply Z.div_lt_upper_bound; lia. }
  assert (Hr : Z.land b1 1 = b1 mod 2).
  { change 1 with (Z.ones 1) at 1. by rewrite Z.land_ones by lia. }
  rewrite Ht, Hc, Hr.
  pose proof (Z.mod_pos_bound b0 16 ltac:(lia)).
  pose proof (Z.mod_pos_bound b1 2 ltac:(lia)).
  assert (0 <= b1 / 16 < 16).
  { split; [apply Z.div_pos; lia|]. apply Z.div_lt_upper_bound; lia. }
  pose proof (zbc_sg_cmd_get_int64_range buf (ofs + 8)).
  pose proof (zbc_sg_cmd_get_int64_range buf (ofs + 16)).
  pose proof (zbc_sg_cmd_get_int64_range buf (ofs + 24)).
  repeat split; lia.
Qed.

(** ** The capacity step and the commands of bring-up *)

(** X23.  The READ CAPACITY 16 step of [zbc_scsi_get_info] leaves no
    buffer allocated and keeps the type and the model of the device.
    If no context can be created it returns that status, sends nothing
    and leaves the device as it was; if the device refuses the command
    it returns the device's status and leaves the device as it was; if
    the device accepts, the result is 0 or [-EINVAL]. *)
Theorem capacity_step_outcomes K E dev w r w' :
  zbc_scsi_get_info_capacity K E dev w = Ok r w' ->
  let init := sg_init_status E ZBC_SG_READ_CAPACITY
                (ZBC_SG_READ_CAPACITY_REPLY_LEN K) in
  let st := io_status (capacity_answer K E) in
  (w_heap w' ⊆ w_heap w) /\
  zbd_type (zbd_info r.2) = zbd_type (zbd_info dev) /\
  zbd_model (zbd_info r.2) = zbd_model (zbd_info dev) /\
  (init ≠ 0 -> r = (init, dev) /\ w_sent w' = w_sent w) /\
  (init = 0 ->
   w_sent w' = w_sent w ++ [capacity_cdb K] /\
   (st ≠ 0 -> r = (st, dev)) /\
   (st = 0 -> r.1 = 0 \/ r.1 = - EINVAL)).
Proof.
  intros Hrun init st.
  destruct (tracks_run _ _ _ _ _ (tracks_get_info_capacity K E ∅ dev) Hrun)
    as (Y & l & Hheap & Hsent & HQ).
  cbv zeta in HQ. fold init st in HQ.
  destruct HQ as (-> & _ & Ht & Hm & Hpath).
  split; [by apply Hheap|]. split; [done|]. split; [done|]. rewrite Hsent.
  destruct r as [ret dev']. cbn [fst snd] in *.
  destruct Hpath as [(-> & Hr & Hnz & ->)|(-> & Hi &
    [(Hr & Hnz & ->)|[(Hs & -> & _)|(Hs & -> & _)]])].
  - split; [|intros Hi; congruence]. intros _. rewrite app_nil_r. by rewrite Hr.
  - split; [done|]. intros _. split; [done|]. split; [intros _; by rewrite Hr|].
    intros Hs. congruence.
  - split; [done|]. intros _. split; [done|]. split; [done|]. intros _. by right.
  - split; [done|]. intros _. split; [done|]. split; [done|]. intros _. by left.
Qed.

Lemma inquiry_cdb_fields K :
  let c := inquiry_cdb K in
  length c = ZBC_SG_CDB_LENGTH /\
  byte_at c 0 = 0x12 /\ byte_at c 4 = u8 (ZBC_SG_INQUIRY_REPLY_LEN K) /\
  (forall j : nat, j ≠ 0%nat -> j ≠ 4%nat -> byte_at c j = 0).
Proof.
  intros c. unfold c, inquiry_cdb.
  split; [reflexivity|].
  split; [cdb_through; reflexivity|].
  split.
  { rewrite byte_at_insert_eq by (cbn; lia). apply byte_to_Z_to_byte. }
  intros j H0 H4. rewrite !byte_at_insert_ne by done. apply byte_at_zero_cdb.
Qed.

Lemma capacity_cdb_fields K :
  let c := capacity_cdb K in
  length c = ZBC_SG_CDB_LENGTH /\
  byte_at c 0 = 0x9E /\ byte_at c 1 = 0x10 /\
  zbc_sg_cmd_get_int64 c 2 = 0 /\
  zbc_sg_cmd_get_int32 c 10 = u32 (ZBC_SG_READ_CAPACITY_REPLY_LEN K) /\
  byte_at c 14 = 0 /\ byte_at c 15 = 0.
Proof.
  intros c. unfold c, capacity_cdb, zbc_sg_cmd_set_int32.
  change (zbc_sg_cmd_get_int64 ?b 2) with (be_field b 2 8).
  change (zbc_sg_cmd_get_int32 ?b 10) with (be_field b 10 4).
  split; [by rewrite length_store_bytes|].
  split; [cdb_through; reflexivity|].
  split; [cdb_through; reflexivity|].
  split; [cdb_through; reflexivity|].
  split.
  { rewrite be_field_store_encode by (cbn; lia).
    pose proof (u32_range (ZBC_SG_READ_CAPACITY_REPLY_LEN K)).
    change (256 ^ Z.of_nat 4) with (2 ^ 32). apply Z.mod_small. lia. }
  split; cdb_through; reflexivity.
Qed.

(** X24.  The commands bring-up sends.  Whenever [zbc_scsi_inquiry]
    returns it has sent nothing or one CDB of 16 bytes with opcode 0x12,
    the low eight bits of the reply length in byte 4 and zero in every
    other byte.  Whenever [zbc_scsi_get_info] returns it has sent
    nothing, or that CDB, or that CDB followed by one of 16 bytes with
    opcode 0x9E and service action 0x10, a zero LBA in bytes 2-9, the
    reply length big-endian in bytes 10-13 and zero in bytes 14 and
    15. *)
Theorem bring_up_command_layout K E dev :
  let inquiry_layout (c : list byte) :=
    length c = ZBC_SG_CDB_LENGTH /\
    byte_at c 0 = 0x12 /\ byte_at c 4 = u8 (ZBC_SG_INQUIRY_REPLY_LEN K) /\
    (forall j : nat, j ≠ 0%nat -> j ≠ 4%nat -> byte_at c j = 0) in
  let capacity_layout (c : list byte) :=
    length c = ZBC_SG_CDB_LENGTH /\
    byte_at c 0 = 0x9E /\ byte_at c 1 = 0x10 /\
    zbc_sg_cmd_get_int64 c 2 = 0 /\
    zbc_sg_cmd_get_int32 c 10 = u32 (ZBC_SG_READ_CAPACITY_REPLY_LEN K) /\
    byte_at c 14 = 0 /\ byte_at c 15 = 0 in
  (forall pbuf t w r w',
     zbc_scsi_inquiry K E dev pbuf t w = Ok r w' ->
     w_sent w' = w_sent w \/
     exists c, w_sent w' = w_sent w ++ [c] /\ inquiry_layout c) /\
  (forall w r w',
     zbc_scsi_get_info K E dev w = Ok r w' ->
     w_sent w' = w_sent w \/
     (exists c, w_sent w' = w_sent w ++ [c] /\ inquiry_layout c) \/
     (exists c1 c2, w_sent w' = w_sent w ++ [c1; c2] /\
        inquiry_layout c1 /\ capacity_layout c2)).
Proof.
  intros inquiry_layout capacity_layout.
  pose proof (inquiry_cdb_fields K) as Hi. cbv zeta in Hi.
  pose proof (capacity_cdb_fields K) as Hc. cbv zeta in Hc.
  split.
  - intros pbuf t w r w' Hrun.
    destruct (tracks_run _ _ _ _ _ (tracks_inquiry K E ∅ dev pbuf t) Hrun)
      as (Y & l & _ & Hsent & Hfail & Hok).
    cbv zeta in Hfail, Hok. rewrite Hsent.
    destruct (decide (r.1.1 = 0)) as [Hz|Hnz].
    + destruct (Hok Hz) as (_ & -> & _). right. by exists (inquiry_cdb K).
    + destruct (Hfail Hnz) as (_ & _ & _ & [[-> _]|(-> & _)]).
      * left. by rewrite app_nil_r.
      * right. by exists (inquiry_cdb K).
  - intros w r w' Hrun.
    destruct (tracks_run _ _ _ _ _ (tracks_get_info K E ∅ dev) Hrun)
      as (Y & l & _ & Hsent & _ & _ & Hpath).
    cbv zeta in Hpath. rewrite Hsent.
    assert (Hl : l = [] \/ l = [inquiry_cdb K]
                 \/ l = [inquiry_cdb K; capacity_cdb K]).
    { destruct Hpath as [(-> & _)|[(-> & _)|[(-> & _)|[(-> & _)|([-> | ->] & _)]]]];
        tauto. }
    destruct Hl as [-> | [-> | ->]].
    + left. by rewrite app_nil_r.
    + right. left. by exists (inquiry_cdb K).
    + right. right. by exists (inquiry_cdb K), (capacity_cdb K).
Qed.

(** ** The operations at work on sample drives *)

Lemma inquiry_failure_is_clean_witness :
  let K := Sample.consts in
  let E := Faulty.refusing in
  exists w',
    zbc_scsi_inquiry K E Sample.dev0 None (Some (-1)) Sample.w0
      = Ok (-5, None, Some (-1)) w' /\
    (w_heap w' ⊆ w_heap Sample.w0) /\
    w_sent w' = w_sent Sample.w0 ++ [inquiry_cdb K].
Proof.
  intros K E.
  eassert (Hrun : zbc_scsi_inquiry K E Sample.dev0 None (Some (-1)) Sample.w0
                  = Ok (-5, None, Some (-1)) _) by (vm_compute; reflexivity).
  assert (Hnz : -5 ≠ 0) by (vm_compute; congruence).
  destruct (inquiry_failure_is_clean K E _ _ _ _ _ _ _ _ Hrun Hnz)
    as (_ & _ & Hheap & Hs).
  eexists. split; [exact Hrun|]. split; [exact Hheap|].
  destruct Hs as [[Heq _]|(_ & _ & Hs)]; [|exact Hs].
  exfalso. vm_compute in Heq. congruence.
Defined.

Lemma inquiry_hands_over_reply_witness :
  let K := Sample.consts in
  let E := Sample.host_managed x00 in
  inquiry_succeeds K E /\
  exists b w',
    zbc_scsi_inquiry K E Sample.dev0 None (Some (-1)) Sample.w0
      = Ok (0, Some b, Some 0x14) w' /\
    b_data b = io_data (inquiry_answer K E) /\
    b_addr b ∈ w_heap w'.
Proof.
  intros K E.
  assert (H1 : inquiry_succeeds K E) by (vm_compute; repeat split; congruence).
  destruct (inquiry_hands_over_reply K E Sample.dev0 None (Some (-1)) Sample.w0 H1)
    as (b & w' & Hrun & Hdata & Hin & _).
  split; [exact H1|]. exists b, w'. split; [exact Hrun|]. split; [exact Hdata|exact Hin].
Defined.

Lemma get_info_releases_buffers_witness :
  let K := Sample.consts in
  let E := Sample.host_managed x00 in
  exists dev' w',
    zbc_scsi_get_info K E Sample.dev0 Sample.w0 = Ok (0, dev') w' /\
    (w_heap w' ⊆ w_heap Sample.w0) /\ same_identity Sample.dev0 dev'.
Proof.
  intros K E.
  eassert (Hrun : zbc_scsi_get_info K E Sample.dev0 Sample.w0 = Ok (0, _) _)
    by (vm_compute; reflexivity).
  destruct (get_info_releases_buffers K E _ _ _ _ _ Hrun) as (Hheap & _ & _ & Hid).
  eexists _, _. split; [exact Hrun|]. split; [exact Hheap|exact Hid].
Defined.

Lemma get_info_command_order_witness :
  let K := Sample.consts in
  let E := Sample.host_managed x00 in
  exists r w',
    zbc_scsi_get_info K E Sample.dev0 Sample.w0 = Ok r w' /\
    w_sent w' = w_sent Sample.w0 ++ [inquiry_cdb K; capacity_cdb K] /\
    (w_sent w' = w_sent Sample.w0 \/
     w_sent w' = w_sent Sample.w0 ++ [inquiry_cdb K] \/
     (w_sent w' = w_sent Sample.w0 ++ [inquiry_cdb K; capacity_cdb K] /\
      inquiry_succeeds K E /\
      ¬ vendor_is_ATA (io_data (inquiry_answer K E)) /\
      peripheral_type (io_data (inquiry_answer K E)) = ZBC_DEV_TYPE_HOST_MANAGED K)).
Proof.
  intros K E.
  eassert (Hrun : zbc_scsi_get_info K E Sample.dev0 Sample.w0 = Ok _ _)
    by (vm_compute; reflexivity).
  eexists _, _. split; [exact Hrun|]. split; [reflexivity|].
  exact (get_info_command_order K E _ _ _ _ Hrun).
Defined.

Lemma get_info_success_geometry_witness :
  let K := Sample.consts in
  let E := Sample.host_managed x00 in
  exists dev' w',
    zbc_scsi_get_info K E Sample.dev0 Sample.w0 = Ok (0, dev') w' /\
    valid_geometry (zbd_info dev') /\
    w_sent w' = w_sent Sample.w0 ++ [inquiry_cdb K; capacity_cdb K].
Proof.
  intros K E.
  eassert (Hrun : zbc_scsi_get_info K E Sample.dev0 Sample.w0 = Ok (0, _) _)
    by (vm_compute; reflexivity).
  eexists _, _. split; [exact Hrun|].
  exact (get_info_success_geometry K E _ _ _ _ Hrun).
Defined.

Lemma get_info_inquiry_failure_witness :
  let K := Sample.consts in
  let E := Faulty.no_context in
  exists r w',
    zbc_scsi_get_info K E Sample.dev0 Sample.w0 = Ok r w' /\
    r = (- ENOMEM, Sample.dev0) /\ w_sent w' = w_sent Sample.w0.
Proof.
  intros K E.
  eassert (Hrun : zbc_scsi_get_info K E Sample.dev0 Sample.w0 = Ok _ _)
    by (vm_compute; reflexivity).
  assert (Hi : sg_init_status E ZBC_SG_INQUIRY (ZBC_SG_INQUIRY_REPLY_LEN K) ≠ 0)
    by (vm_compute; congruence).
  destruct (get_info_inquiry_failure K E _ _ _ _ Hrun) as [Hfail _].
  eexists _, _. split; [exact Hrun|]. exact (Hfail Hi).
Defined.

Lemma open_releases_buffers_witness :
  let K := Sample.consts in
  let E := Sample.host_managed x00 in
  exists r w',
    zbc_scsi_open K E "/dev/sg0" 2 None Sample.w0 = Ok r w' /\
    (w_heap w' ⊆ w_heap Sample.w0) /\
    (w_sent w' = w_sent Sample.w0 \/
     w_sent w' = w_sent Sample.w0 ++ [inquiry_cdb K] \/
     w_sent w' = w_sent Sample.w0 ++ [inquiry_cdb K; capacity_cdb K]).
Proof.
  intros K E.
  eassert (Hrun : zbc_scsi_open K E "/dev/sg0" 2 None Sample.w0 = Ok _ _)
    by (vm_compute; reflexivity).
  eexists _, _. split; [exact Hrun|].
  exact (open_releases_buffers K E _ _ _ _ _ _ Hrun).
Defined.

Lemma open_early_failure_witness :
  let K := Sample.consts in
  let E := Faulty.regular_file in
  zbc_scsi_open K E "/dev/sg0" 2 None Sample.w0
    = Ok (- ENXIO, None) (upd_fds (fun s => ({[3]} ∪ s) ∖ {[3]}) Sample.w0) /\
  (3 ∉ w_fds (upd_fds (fun s => ({[3]} ∪ s) ∖ {[3]}) Sample.w0)).
Proof.
  intros K E.
  assert (Hopen : os_open E "/dev/sg0" (Z.lor 2 O_DIRECT) = (3, 0)) by reflexivity.
  assert (Hfd : 0 <= 3) by lia.
  assert (Hstat : os_fstat E 3 = (0, 0, 0x8180)) by reflexivity.
  destruct (open_early_failure K E "/dev/sg0" 2 None Sample.w0 3 0 Hopen)
    as [_ Hrest].
  destruct (Hrest Hfd 0 0 0x8180 Hstat) as (_ & Hchr & _ & Hclosed & _).
  split; [exact (Hchr eq_refl eq_refl)|exact Hclosed].
Defined.

Lemma open_success_device_witness :
  let K := Sample.consts in
  let E := Sample.host_managed x00 in
  exists dev w',
    zbc_scsi_open K E "/dev/sg0" 2 None Sample.w0 = Ok (0, Some dev) w' /\
    zbd_fd dev = 3 /\ zbd_flags dev = Z.lor 2 O_DIRECT /\
    valid_geometry (zbd_info dev) /\
    3 ∈ w_fds w' /\ zbd_addr dev ∈ w_devs w'.
Proof.
  intros K E.
  assert (Hopen : os_open E "/dev/sg0" (Z.lor 2 O_DIRECT) = (3, 0)) by reflexivity.
  assert (Hfd : 0 <= 3) by lia.
  assert (Hstat : os_fstat E 3 = (0, 0, 0x2180)) by reflexivity.
  eassert (Hrun : zbc_scsi_open K E "/dev/sg0" 2 None Sample.w0 = Ok (0, Some _) _)
    by (vm_compute; reflexivity).
  destruct (open_success_device K E _ _ _ _ _ _ _ _ _ _ Hopen Hfd Hstat Hrun)
    as (_ & dev & Hdev & _ & Hf & Hfl & _ & Hgeo & Hin & Hd).
  injection Hdev as <-.
  eexists _, _. split; [exact Hrun|].
  split; [exact Hf|]. split; [exact Hfl|]. split; [exact Hgeo|].
  split; [exact Hin|exact Hd].
Defined.

Lemma pread_outcomes_witness :
  let E := Sample.drive [] [] [] 1024 in
  exists buf' w',
    zbc_scsi_pread E Sample.dev512 Sample.zone0 (Some Sample.buf0) 8 0 Sample.w0
      = Ok (6, buf') w' /\
    (w_heap w' ⊆ w_heap Sample.w0) /\
    w_sent w' = w_sent Sample.w0
                ++ [rw_cdb ZBC_SG_READ_CDB_OPCODE Sample.zone0 8 0] /\
    buf' = Some (Buffer 7 []).
Proof.
  intros E.
  eassert (Hrun : zbc_scsi_pread E Sample.dev512 Sample.zone0 (Some Sample.buf0)
                    8 0 Sample.w0 = Ok (6, _) _) by (vm_compute; reflexivity).
  destruct (pread_outcomes E _ _ _ _ _ _ _ _ _ Hrun) as (Hheap & _ & Hok).
  destruct (Hok eq_refl) as (Hsent & _ & Hdata).
  destruct (Hdata eq_refl) as (_ & _ & Hbuf).
  eexists _, _. split; [exact Hrun|]. split; [exact Hheap|].
  split; [exact Hsent|exact Hbuf].
Defined.

Lemma pwrite_outcomes_witness :
  let E := Faulty.refusing in
  exists w',
    zbc_scsi_pwrite E Sample.dev512 Sample.zone0 (Some Sample.buf0) 8 0 Sample.w0
      = Ok (-5) w' /\
    (w_heap w' ⊆ w_heap Sample.w0) /\
    w_sent w' = w_sent Sample.w0
                ++ [rw_cdb ZBC_SG_WRITE_CDB_OPCODE Sample.zone0 8 0].
Proof.
  intros E.
  eassert (Hrun : zbc_scsi_pwrite E Sample.dev512 Sample.zone0 (Some Sample.buf0)
                    8 0 Sample.w0 = Ok (-5) _) by (vm_compute; reflexivity).
  destruct (pwrite_outcomes E _ _ _ _ _ _ _ _ Hrun) as (Hheap & _ & Hok).
  destruct (Hok eq_refl) as (Hsent & _).
  eexists. split; [exact Hrun|]. split; [exact Hheap|exact Hsent].
Defined.

Lemma rw_zero_block_size_undefined_witness :
  let E := Sample.drive [] [] [] 0 in
  zbc_scsi_pread E Sample.dev0 Sample.zone0 (Some Sample.buf0) 8 0 Sample.w0 = Trap /\
  zbc_scsi_pwrite E Sample.dev0 Sample.zone0 (Some Sample.buf0) 8 0 Sample.w0 = Trap.
Proof.
  intros E.
  assert (HL : zbd_logical_block_size (zbd_info Sample.dev0) = 0) by reflexivity.
  destruct (rw_zero_block_size_undefined E Sample.dev0 Sample.zone0
              (Some Sample.buf0) 8 0 Sample.w0 HL) as [Hrd Hwr].
  split; [apply Hrd; reflexivity | apply Hwr; reflexivity].
Defined.

Lemma rw_command_layout_witness :
  let E := Sample.drive [] [] [] 0 in
  exists r w' c,
    zbc_scsi_pwrite E Sample.dev512 Sample.zone0 (Some Sample.buf0) 8 16 Sample.w0
      = Ok r w' /\
    w_sent w' = w_sent Sample.w0 ++ [c] /\
    byte_at c 0 = 0x8A /\ zbc_sg_cmd_get_int64 c 2 = 16 /\
    zbc_sg_cmd_get_int32 c 10 = 8.
Proof.
  intros E.
  eassert (Hrun : zbc_scsi_pwrite E Sample.dev512 Sample.zone0 (Some Sample.buf0)
                    8 16 Sample.w0 = Ok _ _) by (vm_compute; reflexivity).
  destruct (rw_command_layout E Sample.dev512 Sample.zone0 (Some Sample.buf0)
              8 16 Sample.w0) as [_ Hwr].
  destruct (Hwr _ _ eq_refl Hrun) as (c & Hsent & _ & H0 & _ & H2 & H10 & _).
  eexists _, _, c. split; [exact Hrun|]. split; [exact Hsent|].
  split; [exact H0|]. split; [exact H2|exact H10].
Defined.

Lemma open_then_transfer_returns_witness :
  let K := Sample.consts in
  let E := Sample.host_managed x00 in
  exists dev w1,
    zbc_scsi_open K E "/dev/sg0" 2 None Sample.w0 = Ok (0, Some dev) w1 /\
    (exists r w3,
       zbc_scsi_pread E dev Sample.zone0 (Some Sample.buf0) 8 0 w1 = Ok r w3) /\
    (exists r w3,
       zbc_scsi_pwrite E dev Sample.zone0 (Some Sample.buf0) 8 0 w1 = Ok r w3).
Proof.
  intros K E.
  eassert (Hrun : zbc_scsi_open K E "/dev/sg0" 2 None Sample.w0 = Ok (0, Some _) _)
    by (vm_compute; reflexivity).
  eexists _, _. split; [exact Hrun|].
  exact (proj2 (open_then_transfer_returns K E E _ _ _ _ _ Sample.zone0
                  (Some Sample.buf0) 8 0 _ Hrun)).
Defined.

Lemma report_zones_outcomes_witness :
  let E := Faulty.refusing in
  exists w',
    zbc_scsi_report_zones E Sample.dev512 0 0 (Some Sample.zones4) 100 Sample.w0
      = Ok (-5, Some Sample.zones4, 63) w' /\
    (w_heap w' ⊆ w_heap Sample.w0) /\
    (report_zones_bufsz E 100).2 = 63.
Proof.
  intros E.
  eassert (Hrun : zbc_scsi_report_zones E Sample.dev512 0 0 (Some Sample.zones4)
                    100 Sample.w0 = Ok (-5, Some Sample.zones4, 63) _)
    by (vm_compute; reflexivity).
  destruct (report_zones_outcomes E _ _ _ _ _ _ _ _ _ _ Hrun) as (Hheap & _ & _ & Hok).
  destruct (Hok eq_refl) as (_ & Hfail & _).
  assert (Hst : io_status (sg_io E (report_zones_cdb 0 (report_zones_bufsz E 100).1 0)
                             (report_zones_bufsz E 100).1) ≠ 0)
    by (vm_compute; congruence).
  destruct (Hfail Hst) as (_ & _ & Hn).
  eexists. split; [exact Hrun|]. split; [exact Hheap|]. symmetry. exact Hn.
Defined.

Lemma report_zones_within_buffer_witness :
  let E := Sample.host_managed x00 in
  exists za' w',
    zbc_scsi_report_zones E Sample.dev512 0 0 (Some Sample.zones4) 3 Sample.w0
      = Ok (0, Some za', 3) w' /\
    64 + 64 * 0 + 64 <= (report_zones_bufsz E 3).1 /\
    za' !! 0%nat = Some (Zone 0 0 0 0 0 0).
Proof.
  intros E.
  assert (HP : 64 <= os_pagesize E < 2 ^ 64) by (vm_compute; split; congruence).
  assert (HR : 0 <= 3 < 2 ^ 32) by (vm_compute; split; congruence).
  eassert (Hrun : zbc_scsi_report_zones E Sample.dev512 0 0 (Some Sample.zones4)
                    3 Sample.w0 = Ok (0, Some _, 3) _)
    by (vm_compute; reflexivity).
  eassert (Hk : _ !! 0%nat ≠ Sample.zones4 !! 0%nat); cycle 1.
  - destruct (report_zones_within_buffer E _ _ _ _ _ _ _ _ _ _ 0%nat HP HR Hrun Hk)
      as (_ & _ & Hfit & Hdec).
    eexists _, _. split; [exact Hrun|]. split; [exact Hfit|]. exact Hdec.
  - vm_compute. congruence.
Defined.

Lemma report_zones_request_witness :
  let E := Sample.host_managed x00 in
  let bufsz := (report_zones_bufsz E 100).1 in
  let c := report_zones_cdb 0 bufsz 0x1f in
  bufsz = 4096 /\ (report_zones_bufsz E 100).2 = 63 /\
  zbc_sg_cmd_get_int32 c 10 = bufsz /\ byte_at c 14 = 0x0f.
Proof.
  intros E bufsz c.
  assert (HP : 64 <= os_pagesize E < 2 ^ 32) by (vm_compute; split; congruence).
  assert (HR : 0 <= 100 < 2 ^ 32) by (vm_compute; split; congruence).
  destruct (report_zones_request E 0 0x1f 100 HP HR)
    as (_ & _ & _ & _ & _ & _ & _ & H10 & H14 & _).
  split; [reflexivity|]. split; [reflexivity|]. split; [exact H10|exact H14].
Defined.

Lemma capacity_step_outcomes_witness :
  let K := Sample.consts in
  let E := Faulty.refusing in
  exists r w',
    zbc_scsi_get_info_capacity K E Sample.dev0 Sample.w0 = Ok r w' /\
    (w_heap w' ⊆ w_heap Sample.w0) /\
    w_sent w' = w_sent Sample.w0 ++ [capacity_cdb K] /\
    r = (-5, Sample.dev0).
Proof.
  intros K E.
  eassert (Hrun : zbc_scsi_get_info_capacity K E Sample.dev0 Sample.w0 = Ok _ _)
    by (vm_compute; reflexivity).
  destruct (capacity_step_outcomes K E _ _ _ _ Hrun) as (Hheap & _ & _ & _ & Hok).
  destruct (Hok eq_refl) as (Hsent & Hfail & _).
  assert (Hst : io_status (capacity_answer K E) ≠ 0) by (vm_compute; congruence).
  eexists _, _. split; [exact Hrun|]. split; [exact Hheap|].
  split; [exact Hsent|exact (Hfail Hst)].
Defined.

Lemma bring_up_command_layout_witness :
  let K := Sample.consts in
  let E := Sample.host_managed x00 in
  exists r w' c1 c2,
    zbc_scsi_get_info K E Sample.dev0 Sample.w0 = Ok r w' /\
    w_sent w' = w_sent Sample.w0 ++ [c1; c2] /\
    byte_at c1 0 = 0x12 /\ byte_at c1 4 = 96 /\
    byte_at c2 0 = 0x9E /\ byte_at c2 1 = 0x10 /\
    zbc_sg_cmd_get_int32 c2 10 = 32.
Proof.
  intros K E.
  eassert (Hrun : zbc_scsi_get_info K E Sample.dev0 Sample.w0 = Ok _ _)
    by (vm_compute; reflexivity).
  destruct (bring_up_command_layout K E Sample.dev0) as [_ Hinfo].
  destruct (Hinfo Sample.w0 _ _ Hrun) as [Hnone|[(c & Hone & _)|(c1 & c2 & Htwo & Hl1 & Hl2)]].
  - exfalso. vm_compute in Hnone. congruence.
  - exfalso. vm_compute in Hone. congruence.
  - destruct Hl1 as (_ & H0 & H4 & _).
    destruct Hl2 as (_ & G0 & G1 & _ & G10 & _).
    eexists _, _, c1, c2. split; [exact Hrun|]. split; [exact Htwo|].
    split; [exact H0|]. split; [exact H4|]. split; [exact G0|].
    split; [exact G1|exact G10].
Defined.
